(** * SSOT task manager: state machine, persistence and recovery

    A shallow embedding of [src/schema.py] and [src/manager.py], and the
    properties of the engine stated over it.

    Conventions of the embedding.
    - Python [int] is [Z]; list positions and lengths are [nat].
    - A [datetime] is a naive UTC instant, counted in microseconds ([Z]).
    - [str] is [string], read as the UTF-8 bytes of the text, so that the
      byte-wise order of [String.ltb] is the code-point order of Python.
    - A value of type [Any] or [Dict[str, Any]] is a [json] tree: what
      [json.load] can return, floating-point numbers left out.
    - The manager is a record threaded through every method; a method that
      can raise returns a [result].  The backup client is absent
      ([supabase_client=None], the constructor's default), logging is
      dropped. *)

From Stdlib Require Import ZArith String List Lia Bool.
From Stdlib Require Import DecimalString DecimalZ DecimalPos.
From Stdlib Require Import Floats.SpecFloat.
From Stdlib Require Import Reals Lra.
From stdpp Require Import gmap strings list pretty sorting.

#[local] Set Warnings "-register-all".

(** ** Exceptions and results *)

Inductive exn :=
| ValueError (msg : string)
| KeyError (key : string)
| TypeError
| AttributeError
| JSONDecodeError
| ValidationError.

Inductive result (A : Type) :=
| Ok (a : A)
| Raise (e : exn).
Arguments Ok {A} a.
Arguments Raise {A} e.

#[global] Instance result_ret : MRet result := λ A a, Ok a.
#[global] Instance result_bind : MBind result := λ A B f r,
  match r with Ok a => f a | Raise e => Raise e end.

#[global] Instance result_fmap : FMap result := λ A B f r,
  match r with Ok a => Ok (f a) | Raise e => Raise e end.

(** [try: ... except Exception: (skip)] around one loop iteration. *)
Definition caught {A} (r : result A) : option A :=
  match r with Ok a => Some a | Raise _ => None end.

Definition of_option {A} (e : exn) (o : option A) : result A :=
  match o with Some a => Ok a | None => Raise e end.

(** ** JSON values *)

Inductive json :=
| JNull
| JBool (b : bool)
| JInt (z : Z)
| JStr (s : string)
| JList (l : list json)
| JDict (kv : list (string * json)).

(** A Python [dict] with string keys, in insertion order. *)
Abbreviation dict := (list (string * json)).

Fixpoint dict_get {A} (k : string) (d : list (string * A)) : option A :=
  match d with
  | [] => None
  | (k', v) :: d' => if String.eqb k k' then Some v else dict_get k d'
  end.

(** [data[key]]: [KeyError] on a missing key, [TypeError] on a value that
    is no dict (a list or a string indexed by a string, a number, null). *)
Definition getitem (data : json) (key : string) : result json :=
  match data with
  | JDict kv => of_option (KeyError key) (dict_get key kv)
  | _ => Raise TypeError
  end.

(** Truth value of a JSON value, as [if not x] sees it. *)
Definition truthy (j : json) : bool :=
  match j with
  | JNull => false
  | JBool b => b
  | JInt z => negb (z =? 0)%Z
  | JStr s => negb (String.eqb s "")
  | JList l => match l with [] => false | _ => true end
  | JDict kv => match kv with [] => false | _ => true end
  end.

(** [x == y] on JSON values: [True == 1], dicts compare as mappings. *)
Fixpoint py_eq (a b : json) {struct a} : bool :=
  match a, b with
  | JNull, JNull => true
  | JBool x, JBool y => Bool.eqb x y
  | JBool x, JInt y => (Z.b2z x =? y)%Z
  | JInt x, JBool y => (x =? Z.b2z y)%Z
  | JInt x, JInt y => (x =? y)%Z
  | JStr x, JStr y => String.eqb x y
  | JList xs, JList ys =>
      (fix go (xs ys : list json) {struct xs} : bool :=
         match xs, ys with
         | [], [] => true
         | x :: xs', y :: ys' => py_eq x y && go xs' ys'
         | _, _ => false
         end) xs ys
  | JDict xs, JDict ys =>
      (length xs =? length ys)%nat &&
      (fix go (xs : list (string * json)) {struct xs} : bool :=
         match xs with
         | [] => true
         | (k, v) :: xs' =>
             match dict_get k ys with
             | Some w => py_eq v w && go xs'
             | None => false
             end
         end) xs
  | _, _ => false
  end.

(** [x < y] on JSON values; [None] is the [TypeError] of an unordered
    pair (null, dicts, values of different kinds). *)
Fixpoint py_lt (a b : json) {struct a} : option bool :=
  match a, b with
  | JBool x, JBool y => Some (Z.b2z x <? Z.b2z y)%Z
  | JBool x, JInt y => Some (Z.b2z x <? y)%Z
  | JInt x, JBool y => Some (x <? Z.b2z y)%Z
  | JInt x, JInt y => Some (x <? y)%Z
  | JStr x, JStr y => Some (String.ltb x y)
  | JList xs, JList ys =>
      (fix go (xs ys : list json) {struct xs} : option bool :=
         match xs, ys with
         | [], [] => Some false
         | [], _ :: _ => Some true
         | _ :: _, [] => Some false
         | x :: xs', y :: ys' => if py_eq x y then go xs' ys' else py_lt x y
         end) xs ys
  | _, _ => None
  end.

(** ** Double-precision arithmetic

    Python's [float] is IEEE 754 binary64; [SpecFloat] computes it on
    integers.  [x / y] on two [int] and [x * 100] are each rounded once. *)

Definition float_of_Z (z : Z) : spec_float := binary_normalize 53 1024 z 0 false.
Definition float_div : spec_float → spec_float → spec_float := SFdiv 53 1024.
Definition float_mul : spec_float → spec_float → spec_float := SFmul 53 1024.

(** [int(x)] on a finite float: truncation toward zero. *)
Definition int_of_float (x : spec_float) : Z :=
  match x with
  | S754_finite s m e =>
      let a := match e with
               | Zneg p => Z.shiftr (Zpos m) (Zpos p)
               | _ => Z.shiftl (Zpos m) e
               end in
      if s then (- a)%Z else a
  | _ => 0%Z
  end.

(** [int((completed / total) * 100)], for [total > 0]. *)
Definition percent (completed total : nat) : Z :=
  int_of_float
    (float_mul (float_div (float_of_Z (Z.of_nat completed)) (float_of_Z (Z.of_nat total)))
               (float_of_Z 100)).

(** ** Schema ([schema.py]) *)

Definition datetime := Z.

Module TaskStatus.
Inductive t :=
| PENDING | IN_PROGRESS | BLOCKED | COMPLETED | FAILED | SKIPPED | DEFERRED.

#[global] Instance eq_dec : EqDecision t.
Proof. solve_decision. Defined.

Definition all : list t :=
  [PENDING; IN_PROGRESS; BLOCKED; COMPLETED; FAILED; SKIPPED; DEFERRED].

Definition value (s : t) : string :=
  match s with
  | PENDING => "pending"
  | IN_PROGRESS => "in_progress"
  | BLOCKED => "blocked"
  | COMPLETED => "completed"
  | FAILED => "failed"
  | SKIPPED => "skipped"
  | DEFERRED => "deferred"
  end.

(** [TaskStatus(v)]: the member with that value, if any. *)
Definition of_value (v : string) : option t :=
  snd <$> list_find (λ s, value s = v) all.
End TaskStatus.

Module TaskPriority.
Inductive t := CRITICAL | HIGH | MEDIUM | LOW.

#[global] Instance eq_dec : EqDecision t.
Proof. solve_decision. Defined.

Definition all : list t := [CRITICAL; HIGH; MEDIUM; LOW].

Definition value (p : t) : string :=
  match p with
  | CRITICAL => "critical"
  | HIGH => "high"
  | MEDIUM => "medium"
  | LOW => "low"
  end.

Definition of_value (v : string) : option t :=
  snd <$> list_find (λ p, value p = v) all.
End TaskPriority.

Module TaskCheckpoint.
Record t := mk {
  timestamp : datetime;
  progress_pct : Z;
  current_item : option string;
  items_completed : Z;
  items_total : Z;
  context : dict;
  notes : option string
}.

(** [Field(ge=0, le=100)] on [progress_pct], checked by the constructor. *)
Definition valid_progress (p : Z) : bool := (0 <=? p)%Z && (p <=? 100)%Z.

(** [TaskCheckpoint(progress_pct=p)], the other fields at their defaults;
    [now] is the reading of the [timestamp] factory. *)
Definition at_progress (now : datetime) (p : Z) : t :=
  {| timestamp := now; progress_pct := p; current_item := None;
     items_completed := 0; items_total := 0; context := []; notes := None |}.
End TaskCheckpoint.

Module Task.
Record t := mk {
  id : string;
  stage : string;
  title : string;
  description : option string;
  status : TaskStatus.t;
  priority : TaskPriority.t;
  depends_on : list string;
  blocks : list string;
  started_at : option datetime;
  completed_at : option datetime;
  estimated_minutes : option Z;
  actual_minutes : option Z;
  checkpoint : option TaskCheckpoint.t;
  output : option dict;
  error : option string;
  assigned_agent : option string;
  retry_count : Z;
  max_retries : Z;
  tags : list string
}.

Definition set_status (v : TaskStatus.t) (x : t) : t :=
  {| id := id x; stage := stage x; title := title x; description := description x;
     status := v; priority := priority x; depends_on := depends_on x;
     blocks := blocks x; started_at := started_at x; completed_at := completed_at x;
     estimated_minutes := estimated_minutes x; actual_minutes := actual_minutes x;
     checkpoint := checkpoint x; output := output x; error := error x;
     assigned_agent := assigned_agent x; retry_count := retry_count x;
     max_retries := max_retries x; tags := tags x |}.

Definition set_depends_on (v : list string) (x : t) : t :=
  {| id := id x; stage := stage x; title := title x; description := description x;
     status := status x; priority := priority x; depends_on := v; blocks := blocks x;
     started_at := started_at x; completed_at := completed_at x;
     estimated_minutes := estimated_minutes x; actual_minutes := actual_minutes x;
     checkpoint := checkpoint x; output := output x; error := error x;
     assigned_agent := assigned_agent x; retry_count := retry_count x;
     max_retries := max_retries x; tags := tags x |}.

Definition set_blocks (v : list string) (x : t) : t :=
  {| id := id x; stage := stage x; title := title x; description := description x;
     status := status x; priority := priority x; depends_on := depends_on x;
     blocks := v; started_at := started_at x; completed_at := completed_at x;
     estimated_minutes := estimated_minutes x; actual_minutes := actual_minutes x;
     checkpoint := checkpoint x; output := output x; error := error x;
     assigned_agent := assigned_agent x; retry_count := retry_count x;
     max_retries := max_retries x; tags := tags x |}.

Definition set_started_at (v : option datetime) (x : t) : t :=
  {| id := id x; stage := stage x; title := title x; description := description x;
     status := status x; priority := priority x; depends_on := depends_on x;
     blocks := blocks x; started_at := v; completed_at := completed_at x;
     estimated_minutes := estimated_minutes x; actual_minutes := actual_minutes x;
     checkpoint := checkpoint x; output := output x; error := error x;
     assigned_agent := assigned_agent x; retry_count := retry_count x;
     max_retries := max_retries x; tags := tags x |}.

Definition set_completed_at (v : option datetime) (x : t) : t :=
  {| id := id x; stage := stage x; title := title x; description := description x;
     status := status x; priority := priority x; depends_on := depends_on x;
     blocks := blocks x; started_at := started_at x; completed_at := v;
     estimated_minutes := estimated_minutes x; actual_minutes := actual_minutes x;
     checkpoint := checkpoint x; output := output x; error := error x;
     assigned_agent := assigned_agent x; retry_count := retry_count x;
     max_retries := max_retries x; tags := tags x |}.

Definition set_actual_minutes (v : option Z) (x : t) : t :=
  {| id := id x; stage := stage x; title := title x; description := description x;
     status := status x; priority := priority x; depends_on := depends_on x;
     blocks := blocks x; started_at := started_at x; completed_at := completed_at x;
     estimated_minutes := estimated_minutes x; actual_minutes := v;
     checkpoint := checkpoint x; output := output x; error := error x;
     assigned_agent := assigned_agent x; retry_count := retry_count x;
     max_retries := max_retries x; tags := tags x |}.

Definition set_checkpoint (v : option TaskCheckpoint.t) (x : t) : t :=
  {| id := id x; stage := stage x; title := title x; description := description x;
     status := status x; priority := priority x; depends_on := depends_on x;
     blocks := blocks x; started_at := started_at x; completed_at := completed_at x;
     estimated_minutes := estimated_minutes x; actual_minutes := actual_minutes x;
     checkpoint := v; output := output x; error := error x;
     assigned_agent := assigned_agent x; retry_count := retry_count x;
     max_retries := max_retries x; tags := tags x |}.

Definition set_output (v : option dict) (x : t) : t :=
  {| id := id x; stage := stage x; title := title x; description := description x;
     status := status x; priority := priority x; depends_on := depends_on x;
     blocks := blocks x; started_at := started_at x; completed_at := completed_at x;
     estimated_minutes := estimated_minutes x; actual_minutes := actual_minutes x;
     checkpoint := checkpoint x; output := v; error := error x;
     assigned_agent := assigned_agent x; retry_count := retry_count x;
     max_retries := max_retries x; tags := tags x |}.

Definition set_error (v : option string) (x : t) : t :=
  {| id := id x; stage := stage x; title := title x; description := description x;
     status := status x; priority := priority x; depends_on := depends_on x;
     blocks := blocks x; started_at := started_at x; completed_at := completed_at x;
     estimated_minutes := estimated_minutes x; actual_minutes := actual_minutes x;
     checkpoint := checkpoint x; output := output x; error := v;
     assigned_agent := assigned_agent x; retry_count := retry_count x;
     max_retries := max_retries x; tags := tags x |}.

Definition set_retry_count (v : Z) (x : t) : t :=
  {| id := id x; stage := stage x; title := title x; description := description x;
     status := status x; priority := priority x; depends_on := depends_on x;
     blocks := blocks x; started_at := started_at x; completed_at := completed_at x;
     estimated_minutes := estimated_minutes x; actual_minutes := actual_minutes x;
     checkpoint := checkpoint x; output := output x; error := error x;
     assigned_agent := assigned_agent x; retry_count := v; max_retries := max_retries x;
     tags := tags x |}.
End Task.

Module TaskList.
Record t := mk {
  id : string;
  name : string;
  description : option string;
  created_at : datetime;
  updated_at : datetime;
  created_by : string;
  pipeline : string;
  tasks : list Task.t;
  session_id : option string;
  last_active_task_id : option string;
  global_context : dict
}.

Definition set_updated_at (v : datetime) (x : t) : t :=
  {| id := id x; name := name x; description := description x;
     created_at := created_at x; updated_at := v; created_by := created_by x;
     pipeline := pipeline x; tasks := tasks x; session_id := session_id x;
     last_active_task_id := last_active_task_id x; global_context := global_context x
     |}.

Definition set_tasks (v : list Task.t) (x : t) : t :=
  {| id := id x; name := name x; description := description x;
     created_at := created_at x; updated_at := updated_at x; created_by := created_by x;
     pipeline := pipeline x; tasks := v; session_id := session_id x;
     last_active_task_id := last_active_task_id x; global_context := global_context x
     |}.

Definition set_last_active_task_id (v : option string) (x : t) : t :=
  {| id := id x; name := name x; description := description x;
     created_at := created_at x; updated_at := updated_at x; created_by := created_by x;
     pipeline := pipeline x; tasks := tasks x; session_id := session_id x;
     last_active_task_id := v; global_context := global_context x |}.

Definition completed_count (x : t) : nat :=
  length (filter (λ task, Task.status task = TaskStatus.COMPLETED) (tasks x)).

Definition progress_pct (x : t) : Z :=
  match tasks x with
  | [] => 0%Z
  | _ => percent (completed_count x) (length (tasks x))
  end.

Definition status_summary (x : t) : list (string * Z) :=
  (λ s, (TaskStatus.value s,
         Z.of_nat (length (filter (λ task, Task.status task = s) (tasks x)))))
    <$> TaskStatus.all.
End TaskList.

(** ** The 12-stage pipeline template *)

Record stage_def := {
  sd_stage : string;
  sd_title : string;
  sd_description : option string;
  sd_depends_on : option (list string);
  sd_assigned_agent : option string;
  sd_estimated_minutes : option Z
}.

Definition stage (st ti de : string) (deps : option (list string)) (ag : string)
    (mins : Z) : stage_def :=
  {| sd_stage := st; sd_title := ti; sd_description := Some de;
     sd_depends_on := deps; sd_assigned_agent := Some ag;
     sd_estimated_minutes := Some mins |}.

Definition BIDDEED_PIPELINE_STAGES : list stage_def := [
  stage "discovery" "Auction Discovery"
    "Fetch auction calendar from RealForeclose" None "scraper_agent" 5;
  stage "scraping" "Property Data Scraping"
    "Pull BCPAO parcel data, photos, and details" (Some ["discovery"])
    "scraper_agent" 15;
  stage "title_search" "Title Search"
    "Search AcclaimWeb for recorded documents" (Some ["scraping"])
    "scraper_agent" 20;
  stage "lien_priority" "Lien Priority Analysis"
    "Determine lien positions and survival analysis" (Some ["title_search"])
    "analysis_agent" 15;
  stage "tax_certs" "Tax Certificate Check"
    "Check RealTDM for outstanding tax certificates" (Some ["scraping"])
    "scraper_agent" 10;
  stage "demographics" "Demographics Analysis"
    "Pull Census API data for neighborhood context" (Some ["scraping"])
    "analysis_agent" 5;
  stage "ml_score" "ML Scoring"
    "Run XGBoost model for third-party probability"
    (Some ["lien_priority"; "demographics"]) "ml_agent" 5;
  stage "max_bid" "Max Bid Calculation"
    "Calculate (ARV×70%)-Repairs-$10K-MIN($25K,15%ARV)"
    (Some ["ml_score"; "tax_certs"]) "analysis_agent" 5;
  stage "decision_log" "Decision Logging"
    "Generate BID/REVIEW/SKIP recommendations" (Some ["max_bid"])
    "analysis_agent" 5;
  stage "report" "Report Generation"
    "Create DOCX reports with BCPAO photos" (Some ["decision_log"])
    "report_agent" 10;
  stage "disposition" "Disposition Tracking"
    "Track auction outcomes and update history" (Some ["report"])
    "operations_agent" 5;
  stage "archive" "Archive Storage"
    "Store completed analysis in Supabase" (Some ["disposition"])
    "operations_agent" 5
].

(** [f"t{n:02d}"] *)
Definition task_id_of_nat (n : nat) : string :=
  if decide (n < 10) then "t0" +:+ pretty n else "t" +:+ pretty n.

(** [Task(id=..., stage=..., title=..., description=..., assigned_agent=...,
    estimated_minutes=...)]: every other field at its default. *)
Definition new_task (i : nat) (sd : stage_def) : Task.t :=
  {| Task.id := task_id_of_nat (i + 1);
     Task.stage := sd_stage sd;
     Task.title := sd_title sd;
     Task.description := sd_description sd;
     Task.status := TaskStatus.PENDING;
     Task.priority := TaskPriority.MEDIUM;
     Task.depends_on := [];
     Task.blocks := [];
     Task.started_at := None;
     Task.completed_at := None;
     Task.estimated_minutes := sd_estimated_minutes sd;
     Task.actual_minutes := None;
     Task.checkpoint := None;
     Task.output := None;
     Task.error := None;
     Task.assigned_agent := sd_assigned_agent sd;
     Task.retry_count := 0;
     Task.max_retries := 3;
     Task.tags := [] |}.

(** First loop: the tasks in template order and the [stage -> task id]
    map; a later binding of a stage name replaces an earlier one, so the
    newest binding is kept in front. *)
Definition instantiate_stages (stages : list stage_def)
    : list Task.t * list (string * string) :=
  foldl (λ '(tasks, task_id_map) '(i, sd),
           let task := new_task i sd in
           (tasks ++ [task], (sd_stage sd, Task.id task) :: task_id_map))
        ([], []) (imap (λ i sd, (i, sd)) stages).

(** Second loop: [task.depends_on = [task_id_map[dep] for dep in ...]];
    [next(...)] raises on a stage that is not in the table, the map lookup
    on a prerequisite that is not. *)
Definition resolve_dependencies (stages : list stage_def)
    (task_id_map : list (string * string)) (task : Task.t) : result Task.t :=
  sd ← of_option (ValueError "StopIteration")
         (snd <$> list_find (λ s, sd_stage s = Task.stage task) stages);
  match sd_depends_on sd with
  | None => Ok task
  | Some deps =>
      ids ← mapM (λ dep, of_option (KeyError dep) (dict_get dep task_id_map)) deps;
      Ok (Task.set_depends_on ids task)
  end.

(** Third loop, one inner step: [dep_task.blocks.append(task.id)] unless
    it is there already, on the first task whose id is [dep_id]. *)
Definition add_block (task_id dep_id : string) (tasks : list Task.t)
    : result (list Task.t) :=
  '(j, dep_task) ← of_option (ValueError "StopIteration")
                     (list_find (λ t, Task.id t = dep_id) tasks);
  if decide (task_id ∈ Task.blocks dep_task) then Ok tasks
  else Ok (<[j := Task.set_blocks (Task.blocks dep_task ++ [task_id]) dep_task]> tasks).

Definition calculate_blocks (tasks : list Task.t) : result (list Task.t) :=
  foldl (λ acc i,
           tasks ← acc;
           match tasks !! i with
           | None => Ok tasks
           | Some task =>
               foldl (λ acc dep_id, tasks ← acc; add_block (Task.id task) dep_id tasks)
                     (Ok tasks) (Task.depends_on task)
           end)
        (Ok tasks) (seq 0 (length tasks)).

(** [create_biddeed_task_list]; [list_id], [created] and [updated] are what
    the default factories of [id], [created_at] and [updated_at] return. *)
Definition create_biddeed_task_list (list_id : string) (created updated : datetime)
    (auction_date : string) (property_count : Z) (session_id : option string)
    : result TaskList.t :=
  let '(tasks, task_id_map) := instantiate_stages BIDDEED_PIPELINE_STAGES in
  tasks ← mapM (resolve_dependencies BIDDEED_PIPELINE_STAGES task_id_map) tasks;
  tasks ← calculate_blocks tasks;
  Ok {| TaskList.id := list_id;
        TaskList.name := "auction-" +:+ auction_date;
        TaskList.description :=
          Some ("BidDeed.AI foreclosure analysis pipeline for " +:+ auction_date);
        TaskList.created_at := created;
        TaskList.updated_at := updated;
        TaskList.created_by := "claude-ai";
        TaskList.pipeline := "biddeed-12-stage";
        TaskList.tasks := tasks;
        TaskList.session_id := session_id;
        TaskList.last_active_task_id := None;
        TaskList.global_context :=
          [("auction_date", JStr auction_date);
           ("property_count", JInt property_count);
           ("county", JStr "brevard")] |}.

(** ** Manager state and results *)

(** What [json.load] makes of a file: it raises, or returns a value. *)
Inductive file :=
| Unparseable
| Document (data : json).

(** The directory maps a list id to the file [{id}.json]; [ticks] counts
    the calls of [utcnow] so far. *)
Record TaskManager := {
  tasks_dir : gmap string file;
  _current_task_list : option TaskList.t;
  ticks : nat
}.

Definition set_current (cur : option TaskList.t) (m : TaskManager) : TaskManager :=
  {| tasks_dir := tasks_dir m; _current_task_list := cur; ticks := ticks m |}.

(** The task at position [i] of the current list. *)
Definition task_at (m : TaskManager) (i : nat) : option Task.t :=
  tl ← _current_task_list m; TaskList.tasks tl !! i.

(** What the default factories [uuid4] and [utcnow] return when a loaded
    document leaves a field out. *)
Record factories := {
  uuid8 : string;
  uuid12 : string;
  utcnow : datetime
}.

(** One row of [list_task_lists]. *)
Record entry := {
  e_id : json;
  e_name : json;
  e_progress : string;
  e_updated_at : json;
  e_status : string
}.

(** The result of [resume]: an error message or the bundle. *)
Record resume_bundle := {
  task_list : TaskList.t;
  resume_task : option Task.t;
  checkpoint : option TaskCheckpoint.t;
  next_tasks : list Task.t;
  progress : Z;
  status_summary : list (string * Z)
}.

Inductive resume_result :=
| ResumeError (error : string)
| Resumed (bundle : resume_bundle).

(** The calls of the state machine. *)
Inductive op :=
| Start (task_id : string)
| Checkpoint (task_id : string) (progress_pct : Z) (current_item : option string)
    (items_completed items_total : Z) (context : option dict) (notes : option string)
| Complete (task_id : string) (output : option dict)
| Fail (task_id error : string) (retry : bool).

(** ** Sample data

    A concrete environment and small task lists, on which the statements
    below are instantiated. *)

Definition sample_clock (k : nat) : datetime := Z.of_nat k.

Definition sample_isoformat (d : datetime) : string :=
  NilZero.string_of_int (Z.to_int d).

Definition sample_fromisoformat (s : string) : option datetime :=
  Z.of_int <$> NilZero.int_of_string s.

Definition sample_repr (j : json) : string := "[...]".

(** [Task(id=id, stage=id, title=id, depends_on=deps, status=status)] *)
Definition sample_task (id : string) (deps : list string) (status : TaskStatus.t)
    : Task.t :=
  {| Task.id := id; Task.stage := id; Task.title := id; Task.description := None;
     Task.status := status; Task.priority := TaskPriority.MEDIUM;
     Task.depends_on := deps; Task.blocks := []; Task.started_at := None;
     Task.completed_at := None; Task.estimated_minutes := None;
     Task.actual_minutes := None; Task.checkpoint := None; Task.output := None;
     Task.error := None; Task.assigned_agent := None; Task.retry_count := 0;
     Task.max_retries := 3; Task.tags := [] |}.

(** [TaskList(id="L", name="sample", tasks=tasks, last_active_task_id=last)] *)
Definition sample_list (tasks : list Task.t) (last : option string) : TaskList.t :=
  {| TaskList.id := "L"; TaskList.name := "sample"; TaskList.description := None;
     TaskList.created_at := 0%Z; TaskList.updated_at := 0%Z;
     TaskList.created_by := "claude-ai"; TaskList.pipeline := "biddeed-12-stage";
     TaskList.tasks := tasks; TaskList.session_id := None;
     TaskList.last_active_task_id := last; TaskList.global_context := [] |}.

(** A task in progress, with a checkpoint that carries a context map. *)
Definition sample_checkpointed (id : string) : Task.t :=
  Task.set_checkpoint
    (Some {| TaskCheckpoint.timestamp := 5%Z;
             TaskCheckpoint.progress_pct := 50;
             TaskCheckpoint.current_item := Some "parcel_123";
             TaskCheckpoint.items_completed := 11;
             TaskCheckpoint.items_total := 23;
             TaskCheckpoint.context :=
               [("page", JInt 2); ("seen", JList [JStr "parcel_122"; JNull]);
                ("flags", JDict [("dry_run", JBool true)])];
             TaskCheckpoint.notes := None |})
    (sample_task id [] TaskStatus.IN_PROGRESS).

(** A list with [completed] finished tasks followed by [pending] others. *)
Definition sample_progress (completed pending : nat) : TaskList.t :=
  sample_list (replicate completed (sample_task "a" [] TaskStatus.COMPLETED)
               ++ replicate pending (sample_task "b" [] TaskStatus.PENDING)) None.

Definition sample_json_dumps (indent : Z) (j : json) : string := "{...}".

Definition sample_json_loads (s : string) : option json :=
  if String.eqb s "{}" then Some (JDict []) else None.

(** Two tasks, the second waiting for the first. *)
Definition sample_pair (first second : TaskStatus.t) : TaskList.t :=
  sample_list [sample_task "a" [] first; sample_task "b" ["a"] second] None.

Definition sample_factories : factories :=
  {| uuid8 := "00000000"; uuid12 := "000000000000"; utcnow := 0%Z |}.

(** A manager on an empty directory, and one that holds a list in memory. *)
Definition empty_manager : TaskManager :=
  {| tasks_dir := ∅; _current_task_list := None; ticks := 0 |}.

Definition manager_of (tl : TaskList.t) : TaskManager :=
  {| tasks_dir := ∅; _current_task_list := Some tl; ticks := 0 |}.


(** ** The engine ([manager.py])

    What the engine takes from its environment is a parameter:
    - [clock k] is the value of the [k]-th call of [datetime.utcnow()];
    - [isoformat] and [fromisoformat] are the ISO 8601 text of a datetime in
      a JSON document and its parser;
    - [strftime d] is [d.strftime('%Y%m%d-%H%M%S')];
    - [py_repr j] is [str(j)] on a list or a dict. *)

Section Engine.
Set Default Proof Using "Type".

Variable clock : nat → datetime.
Variable isoformat : datetime → string.
Variable fromisoformat : string → option datetime.
Variable strftime : datetime → string.
Variable py_repr : json → string.

(** *** Documents: [model_dump(mode='json')] *)

Definition dump_option {A} (f : A → json) (o : option A) : json :=
  match o with None => JNull | Some a => f a end.

Definition dump_datetime (d : datetime) : json := JStr (isoformat d).

Definition dump_strings (l : list string) : json := JList (JStr <$> l).

Definition dump_checkpoint (c : TaskCheckpoint.t) : json :=
  JDict [
    ("timestamp", dump_datetime (TaskCheckpoint.timestamp c));
    ("progress_pct", JInt (TaskCheckpoint.progress_pct c));
    ("current_item", dump_option JStr (TaskCheckpoint.current_item c));
    ("items_completed", JInt (TaskCheckpoint.items_completed c));
    ("items_total", JInt (TaskCheckpoint.items_total c));
    ("context", JDict (TaskCheckpoint.context c));
    ("notes", dump_option JStr (TaskCheckpoint.notes c))
  ].

Definition dump_task (t : Task.t) : json :=
  JDict [
    ("id", JStr (Task.id t));
    ("stage", JStr (Task.stage t));
    ("title", JStr (Task.title t));
    ("description", dump_option JStr (Task.description t));
    ("status", JStr (TaskStatus.value (Task.status t)));
    ("priority", JStr (TaskPriority.value (Task.priority t)));
    ("depends_on", dump_strings (Task.depends_on t));
    ("blocks", dump_strings (Task.blocks t));
    ("started_at", dump_option dump_datetime (Task.started_at t));
    ("completed_at", dump_option dump_datetime (Task.completed_at t));
    ("estimated_minutes", dump_option JInt (Task.estimated_minutes t));
    ("actual_minutes", dump_option JInt (Task.actual_minutes t));
    ("checkpoint", dump_option dump_checkpoint (Task.checkpoint t));
    ("output", dump_option JDict (Task.output t));
    ("error", dump_option JStr (Task.error t));
    ("assigned_agent", dump_option JStr (Task.assigned_agent t));
    ("retry_count", JInt (Task.retry_count t));
    ("max_retries", JInt (Task.max_retries t));
    ("tags", dump_strings (Task.tags t))
  ].

Definition model_dump (tl : TaskList.t) : json :=
  JDict [
    ("id", JStr (TaskList.id tl));
    ("name", JStr (TaskList.name tl));
    ("description", dump_option JStr (TaskList.description tl));
    ("created_at", dump_datetime (TaskList.created_at tl));
    ("updated_at", dump_datetime (TaskList.updated_at tl));
    ("created_by", JStr (TaskList.created_by tl));
    ("pipeline", JStr (TaskList.pipeline tl));
    ("tasks", JList (dump_task <$> TaskList.tasks tl));
    ("session_id", dump_option JStr (TaskList.session_id tl));
    ("last_active_task_id", dump_option JStr (TaskList.last_active_task_id tl));
    ("global_context", JDict (TaskList.global_context tl))
  ].

(** *** Validation: the [TaskList] constructor on a loaded dict

    [None] is pydantic's [ValidationError].  A key that is absent takes the
    field's default; the defaults that a factory computes ([uuid4],
    [utcnow]) are read from [factories].  Each field accepts the JSON type
    that [model_dump] writes for it; the coercions of pydantic's lax mode
    (digits in a string for an [int], a number for a [datetime]) are not
    modelled, and keys that are no field are ignored. *)

Definition parse_str (j : json) : option string :=
  match j with JStr s => Some s | _ => None end.

Definition parse_int (j : json) : option Z :=
  match j with JInt z => Some z | _ => None end.

Definition parse_datetime (j : json) : option datetime :=
  match j with JStr s => fromisoformat s | _ => None end.

Definition parse_dict (j : json) : option dict :=
  match j with JDict kv => Some kv | _ => None end.

Definition parse_list {A} (p : json → option A) (j : json) : option (list A) :=
  match j with JList l => mapM p l | _ => None end.

Definition parse_optional {A} (p : json → option A) (j : json) : option (option A) :=
  match j with JNull => Some None | _ => Some <$> p j end.

Definition parse_status (j : json) : option TaskStatus.t :=
  parse_str j ≫= TaskStatus.of_value.

Definition parse_priority (j : json) : option TaskPriority.t :=
  parse_str j ≫= TaskPriority.of_value.

(** A field with a default, and a required field. *)
Definition field {A} (data : dict) (key : string) (p : json → option A) (default : A)
    : option A :=
  match dict_get key data with None => Some default | Some j => p j end.

Definition required {A} (data : dict) (key : string) (p : json → option A) : option A :=
  dict_get key data ≫= p.

Definition parse_checkpoint (f : factories) (j : json) : option TaskCheckpoint.t :=
  data ← parse_dict j;
  timestamp ← field data "timestamp" parse_datetime (utcnow f);
  progress_pct ← field data "progress_pct" parse_int 0%Z;
  guard (TaskCheckpoint.valid_progress progress_pct = true);;
  current_item ← field data "current_item" (parse_optional parse_str) None;
  items_completed ← field data "items_completed" parse_int 0%Z;
  items_total ← field data "items_total" parse_int 0%Z;
  context ← field data "context" parse_dict [];
  notes ← field data "notes" (parse_optional parse_str) None;
  Some (TaskCheckpoint.mk timestamp progress_pct current_item items_completed
          items_total context notes).

Definition parse_task (f : factories) (j : json) : option Task.t :=
  data ← parse_dict j;
  id ← field data "id" parse_str (uuid8 f);
  stage ← required data "stage" parse_str;
  title ← required data "title" parse_str;
  description ← field data "description" (parse_optional parse_str) None;
  status ← field data "status" parse_status TaskStatus.PENDING;
  priority ← field data "priority" parse_priority TaskPriority.MEDIUM;
  depends_on ← field data "depends_on" (parse_list parse_str) [];
  blocks ← field data "blocks" (parse_list parse_str) [];
  started_at ← field data "started_at" (parse_optional parse_datetime) None;
  completed_at ← field data "completed_at" (parse_optional parse_datetime) None;
  estimated_minutes ← field data "estimated_minutes" (parse_optional parse_int) None;
  actual_minutes ← field data "actual_minutes" (parse_optional parse_int) None;
  checkpoint ← field data "checkpoint" (parse_optional (parse_checkpoint f)) None;
  output ← field data "output" (parse_optional parse_dict) None;
  error ← field data "error" (parse_optional parse_str) None;
  assigned_agent ← field data "assigned_agent" (parse_optional parse_str) None;
  retry_count ← field data "retry_count" parse_int 0%Z;
  max_retries ← field data "max_retries" parse_int 3%Z;
  tags ← field data "tags" (parse_list parse_str) [];
  Some (Task.mk id stage title description status priority depends_on blocks
          started_at completed_at estimated_minutes actual_minutes checkpoint
          output error assigned_agent retry_count max_retries tags).

Definition parse_task_list (f : factories) (data : dict) : option TaskList.t :=
  id ← field data "id" parse_str (uuid12 f);
  name ← required data "name" parse_str;
  description ← field data "description" (parse_optional parse_str) None;
  created_at ← field data "created_at" parse_datetime (utcnow f);
  updated_at ← field data "updated_at" parse_datetime (utcnow f);
  created_by ← field data "created_by" parse_str "claude-ai";
  pipeline ← field data "pipeline" parse_str "biddeed-12-stage";
  tasks ← field data "tasks" (parse_list (parse_task f)) [];
  session_id ← field data "session_id" (parse_optional parse_str) None;
  last_active_task_id ← field data "last_active_task_id" (parse_optional parse_str) None;
  global_context ← field data "global_context" parse_dict [];
  Some (TaskList.mk id name description created_at updated_at created_by pipeline
          tasks session_id last_active_task_id global_context).

(** [datetime.utcnow()] *)
Definition now (m : TaskManager) : datetime * TaskManager :=
  (clock (ticks m),
   {| tasks_dir := tasks_dir m; _current_task_list := _current_task_list m;
      ticks := S (ticks m) |}).

(** *** Persistence *)

(** [save] stamps the list object it is given and writes it; the stamped
    list is returned next to the manager, because the caller's object is
    the one that was stamped. *)
Definition save (m : TaskManager) (task_list : TaskList.t) : TaskManager * TaskList.t :=
  let '(t, m) := now m in
  let task_list := TaskList.set_updated_at t task_list in
  ({| tasks_dir := <[TaskList.id task_list := Document (model_dump task_list)]> (tasks_dir m);
      _current_task_list := _current_task_list m;
      ticks := ticks m |},
   task_list).

(** [self.save(self._current_task_list)] after the current list was
    mutated into [task_list]: one object, so the stamp shows in it. *)
Definition save_current (m : TaskManager) (task_list : TaskList.t) : TaskManager :=
  let '(m, task_list) := save m task_list in
  set_current (Some task_list) m.

Definition load (f : factories) (m : TaskManager) (task_list_id : string)
    : result (TaskManager * option TaskList.t) :=
  match tasks_dir m !! task_list_id with
  | None => Ok (m, None)
  | Some Unparseable => Raise JSONDecodeError
  | Some (Document (JDict data)) =>
      task_list ← of_option ValidationError (parse_task_list f data);
      Ok (set_current (Some task_list) m, Some task_list)
  | Some (Document _) => Raise TypeError
  end.

(** *** Listing *)

(** [data.get("tasks", [])] *)
Definition get_tasks (data : json) : result json :=
  match data with
  | JDict kv => Ok (default (JList []) (dict_get "tasks" kv))
  | _ => Raise AttributeError
  end.

(** [t.get("status")] for every [t] in [tasks]: iterating a dict or a
    string yields strings, which have no [get]; a number is not iterable. *)
Definition task_statuses (tasks : json) : result (list json) :=
  match tasks with
  | JList l =>
      mapM (λ t, match t with
                 | JDict kv => Ok (default JNull (dict_get "status" kv))
                 | _ => Raise AttributeError
                 end) l
  | JDict _ | JStr _ => Raise AttributeError
  | _ => Raise TypeError
  end.

Definition has_status (v : string) (status : json) : bool := py_eq status (JStr v).

Definition _calc_progress (data : json) : result Z :=
  tasks ← get_tasks data;
  if negb (truthy tasks) then Ok 0%Z
  else
    statuses ← task_statuses tasks;
    Ok (percent (length (filter (λ s, has_status "completed" s = true) statuses))
                (length statuses)).

Definition _get_overall_status (data : json) : result string :=
  tasks ← get_tasks data;
  if negb (truthy tasks) then Ok "empty"
  else
    statuses ← task_statuses tasks;
    if forallb (has_status "completed") statuses then Ok "completed"
    else if existsb (has_status "in_progress") statuses then Ok "in_progress"
    else if existsb (has_status "failed") statuses then Ok "has_failures"
    else Ok "pending".

(** The body of the [try] for one file. *)
Definition entry_of (f : file) : result entry :=
  match f with
  | Unparseable => Raise JSONDecodeError
  | Document data =>
      id ← getitem data "id";
      name ← getitem data "name";
      progress ← _calc_progress data;
      updated_at ← getitem data "updated_at";
      status ← _get_overall_status data;
      Ok {| e_id := id; e_name := name; e_progress := pretty progress +:+ "%";
            e_updated_at := updated_at; e_status := status |}
  end.

(** [sorted(..., key=lambda x: x["updated_at"], reverse=True)]: a stable
    sort, largest key first, that raises [TypeError] when it compares two
    keys that have no order.  Each entry is inserted behind the entries
    whose key is not smaller. *)
Fixpoint insert_desc (x : entry) (l : list entry) : result (list entry) :=
  match l with
  | [] => Ok [x]
  | y :: l' =>
      lt ← of_option TypeError (py_lt (e_updated_at y) (e_updated_at x));
      if lt : bool then Ok (x :: y :: l')
      else l'' ← insert_desc x l'; Ok (y :: l'')
  end.

Definition sorted_desc (l : list entry) : result (list entry) :=
  foldl (λ acc x, sorted ← acc; insert_desc x sorted) (Ok []) l.

(** The listing of the files in the order [glob] yields them. *)
Definition list_files (files : list file) : result (list entry) :=
  sorted_desc (omap (λ f, caught (entry_of f)) files).

Definition list_task_lists (m : TaskManager) : result (list entry) :=
  list_files (snd <$> map_to_list (tasks_dir m)).

(** *** Helpers *)

(** The first task with that id, and its position in the list. *)
Definition _get_task (cur : option TaskList.t) (task_id : string) : option (nat * Task.t) :=
  match cur with
  | None => None
  | Some task_list => list_find (λ task, Task.id task = task_id) (TaskList.tasks task_list)
  end.

(** [dep_task and dep_task.status != TaskStatus.COMPLETED] *)
Definition is_blocking (cur : option TaskList.t) (dep_id : string) : bool :=
  match _get_task cur dep_id with
  | Some (_, dep_task) => negb (bool_decide (Task.status dep_task = TaskStatus.COMPLETED))
  | None => false
  end.

Definition _get_blocking_dependencies (cur : option TaskList.t) (task : Task.t)
    : list string :=
  filter (λ dep_id, is_blocking cur dep_id = true) (Task.depends_on task).

Definition _get_ready_tasks (cur : option TaskList.t) : list Task.t :=
  match cur with
  | None => []
  | Some task_list =>
      filter (λ task, Task.status task = TaskStatus.PENDING
                      ∧ _get_blocking_dependencies cur task = [])
             (TaskList.tasks task_list)
  end.

(** Assignment to the task object at position [i] of the list. *)
Definition update_task (i : nat) (task : Task.t) (task_list : TaskList.t) : TaskList.t :=
  TaskList.set_tasks (<[i := task]> (TaskList.tasks task_list)) task_list.

(** One iteration of the loop of [_update_blocked_tasks], on position [i]. *)
Definition unblock_at (task_list : TaskList.t) (i : nat) : TaskList.t :=
  match TaskList.tasks task_list !! i with
  | Some task =>
      if decide (Task.status task = TaskStatus.BLOCKED
                 ∧ _get_blocking_dependencies (Some task_list) task = [])
      then update_task i (Task.set_status TaskStatus.PENDING task) task_list
      else task_list
  | None => task_list
  end.

Definition _update_blocked_tasks (task_list : TaskList.t) : TaskList.t :=
  foldl unblock_at task_list (seq 0 (length (TaskList.tasks task_list))).

(** A given, non-empty string (the truth value of an [Optional[str]]). *)
Definition given (o : option string) : option string :=
  match o with
  | Some s => if String.eqb s "" then None else Some s
  | None => None
  end.

Definition _generate_session_id (m : TaskManager) : string * TaskManager :=
  let '(t, m) := now m in ("session-" +:+ strftime t, m).

(** *** Task operations *)

Definition no_list {A} : result A := Raise (ValueError "No task list loaded").

Definition create_biddeed_pipeline (m : TaskManager) (list_id auction_date : string)
    (property_count : Z) (session_id : option string)
    : result (TaskManager * TaskList.t) :=
  let '(session, m) := match given session_id with
                       | Some s => (s, m)
                       | None => _generate_session_id m
                       end in
  let '(created, m) := now m in
  let '(updated, m) := now m in
  task_list ← create_biddeed_task_list list_id created updated auction_date
                 property_count (Some session);
  let '(m, task_list) := save m task_list in
  Ok (set_current (Some task_list) m, task_list).

Definition start_task (m : TaskManager) (task_id : string)
    : result (TaskManager * option Task.t) :=
  match _current_task_list m with
  | None => no_list
  | Some task_list =>
      match _get_task (Some task_list) task_id with
      | None => Ok (m, None)
      | Some (i, task) =>
          match _get_blocking_dependencies (Some task_list) task with
          | _ :: _ =>
              let task := Task.set_status TaskStatus.BLOCKED task in
              Ok (save_current m (update_task i task task_list), Some task)
          | [] =>
              let task := Task.set_status TaskStatus.IN_PROGRESS task in
              let '(t, m) := now m in
              let task := Task.set_started_at (Some t) task in
              let '(t, m) := now m in
              let task := Task.set_checkpoint (Some (TaskCheckpoint.at_progress t 0)) task in
              let task_list :=
                TaskList.set_last_active_task_id (Some task_id)
                  (update_task i task task_list) in
              Ok (save_current m task_list, Some task)
          end
      end
  end.

Definition update_checkpoint (m : TaskManager) (task_id : string) (progress_pct : Z)
    (current_item : option string) (items_completed items_total : Z)
    (context : option dict) (notes : option string) : result TaskManager :=
  match _current_task_list m with
  | None => no_list
  | Some task_list =>
      match _get_task (Some task_list) task_id with
      | None => Ok m
      | Some (i, task) =>
          if TaskCheckpoint.valid_progress progress_pct then
            let '(t, m) := now m in
            let checkpoint :=
              {| TaskCheckpoint.timestamp := t;
                 TaskCheckpoint.progress_pct := progress_pct;
                 TaskCheckpoint.current_item := current_item;
                 TaskCheckpoint.items_completed := items_completed;
                 TaskCheckpoint.items_total := items_total;
                 TaskCheckpoint.context := default [] context;
                 TaskCheckpoint.notes := notes |} in
            let task := Task.set_checkpoint (Some checkpoint) task in
            Ok (save_current m (update_task i task task_list))
          else Raise ValidationError
      end
  end.

(** [int((completed_at - started_at).total_seconds() / 60)]: whole
    minutes, truncated toward zero, of a difference in microseconds. *)
Definition minutes_between (started_at completed_at : datetime) : Z :=
  ((completed_at - started_at) ÷ 60000000)%Z.

Definition complete_task (m : TaskManager) (task_id : string) (output : option dict)
    : result (TaskManager * option Task.t) :=
  match _current_task_list m with
  | None => no_list
  | Some task_list =>
      match _get_task (Some task_list) task_id with
      | None => Ok (m, None)
      | Some (i, task) =>
          let task := Task.set_status TaskStatus.COMPLETED task in
          let '(t, m) := now m in
          let task := Task.set_completed_at (Some t) task in
          let task := Task.set_output output task in
          let task :=
            match Task.started_at task with
            | Some started => Task.set_actual_minutes (Some (minutes_between started t)) task
            | None => task
            end in
          let '(t, m) := now m in
          let task := Task.set_checkpoint (Some (TaskCheckpoint.at_progress t 100)) task in
          let task_list := _update_blocked_tasks (update_task i task task_list) in
          Ok (save_current m task_list, TaskList.tasks task_list !! i)
      end
  end.

Definition fail_task (m : TaskManager) (task_id error : string) (retry : bool)
    : result (TaskManager * option Task.t) :=
  match _current_task_list m with
  | None => no_list
  | Some task_list =>
      match _get_task (Some task_list) task_id with
      | None => Ok (m, None)
      | Some (i, task) =>
          let task := Task.set_retry_count (Task.retry_count task + 1)%Z task in
          let task :=
            if retry && (Task.retry_count task <? Task.max_retries task)%Z
            then Task.set_error (Some error) task
            else Task.set_error (Some error) (Task.set_status TaskStatus.FAILED task) in
          Ok (save_current m (update_task i task task_list), Some task)
      end
  end.

(** *** Crash recovery *)

(** [str(x)] of the ["id"] of a listing entry. *)
Definition py_str (j : json) : string :=
  match j with
  | JStr s => s
  | JInt z => pretty z
  | JBool true => "True"
  | JBool false => "False"
  | JNull => "None"
  | _ => py_repr j
  end.

(** The body of [resume] once the id is known. *)
Definition resume_list (f : factories) (m : TaskManager) (task_list_id : string)
    : result (TaskManager * resume_result) :=
  '(m, loaded) ← load f m task_list_id;
  match loaded with
  | None => Ok (m, ResumeError ("Task list not found: " +:+ task_list_id))
  | Some task_list =>
      let cur := _current_task_list m in
      (* First priority: last active task *)
      let '(resume_task, checkpoint) :=
        match given (TaskList.last_active_task_id task_list) with
        | Some last =>
            match _get_task cur last with
            | Some (_, task) =>
                (Some task,
                 if decide (Task.status task = TaskStatus.IN_PROGRESS)
                 then Task.checkpoint task else None)
            | None => (None, None)
            end
        | None => (None, None)
        end in
      (* Second priority: any in_progress task *)
      let '(resume_task, checkpoint) :=
        match resume_task with
        | Some _ => (resume_task, checkpoint)
        | None =>
            match list_find (λ task, Task.status task = TaskStatus.IN_PROGRESS)
                    (TaskList.tasks task_list) with
            | Some (_, task) => (Some task, Task.checkpoint task)
            | None => (resume_task, checkpoint)
            end
        end in
      Ok (m, Resumed {| task_list := task_list;
                        resume_task := resume_task;
                        checkpoint := checkpoint;
                        next_tasks := _get_ready_tasks cur;
                        progress := TaskList.progress_pct task_list;
                        status_summary := TaskList.status_summary task_list |})
  end.

Definition resume (f : factories) (m : TaskManager) (task_list_id : option string)
    : result (TaskManager * resume_result) :=
  match given task_list_id with
  | Some task_list_id => resume_list f m task_list_id
  | None =>
      task_lists ← list_task_lists m;
      match task_lists with
      | [] => Ok (m, ResumeError "No task lists found")
      | first :: _ => resume_list f m (py_str (e_id first))
      end
  end.

(** *** Runs of the engine *)

Definition step (m : TaskManager) (o : op) : result TaskManager :=
  match o with
  | Start task_id => fst <$> start_task m task_id
  | Checkpoint task_id p item done total context notes =>
      update_checkpoint m task_id p item done total context notes
  | Complete task_id output => fst <$> complete_task m task_id output
  | Fail task_id error retry => fst <$> fail_task m task_id error retry
  end.

(** A call that raises leaves the manager as it was. *)
Definition step_or_stay (m : TaskManager) (o : op) : TaskManager :=
  match step m o with Ok m' => m' | Raise _ => m end.

Definition run (m : TaskManager) (ops : list op) : TaskManager :=
  foldl step_or_stay m ops.

(** *** Reports

    [json_dumps n j] is [json.dumps(j, indent=n)]. *)

Variable json_dumps : Z → json → string.

(** The line feed that joins the lines of a report. *)
Definition newline : string := String (Ascii.ascii_of_nat 10) EmptyString.

(** [s * k]: [k] copies of [s], none when [k] is not positive. *)
Definition py_repeat (s : string) (k : Z) : string :=
  String.concat "" (replicate (Z.to_nat k) s).

(** [str(x)] of an [Optional[str]] in an f-string. *)
Definition py_str_opt (o : option string) : string := default "None" o.

Definition status_icon (s : TaskStatus.t) : string :=
  match s with
  | TaskStatus.PENDING => "⬜"
  | TaskStatus.IN_PROGRESS => "🔵"
  | TaskStatus.BLOCKED => "🟡"
  | TaskStatus.COMPLETED => "✅"
  | TaskStatus.FAILED => "❌"
  | TaskStatus.SKIPPED => "⏭️"
  | TaskStatus.DEFERRED => "📅"
  end.

(** The line of one task in [get_status_report]. *)
Definition report_line (task : Task.t) : string :=
  let icon := status_icon (Task.status task) in
  let deps :=
    if decide (Task.status task = TaskStatus.BLOCKED)
    then " (blocked by: " +:+ py_repr (dump_strings (Task.depends_on task)) +:+ ")"
    else "" in
  let checkpoint_info :=
    match Task.checkpoint task with
    | Some checkpoint =>
        if decide (Task.status task = TaskStatus.IN_PROGRESS)
        then " [" +:+ pretty (TaskCheckpoint.progress_pct checkpoint) +:+ "%]"
        else ""
    | None => ""
    end in
  "  " +:+ icon +:+ " [" +:+ Task.id task +:+ "] " +:+ Task.title task
  +:+ checkpoint_info +:+ deps.

(** The [lines] of [get_status_report]. *)
Definition status_report_lines (tl : TaskList.t) : list string :=
  ["📋 " +:+ TaskList.name tl;
   "Progress: " +:+ py_repeat "█" (TaskList.progress_pct tl / 10)
   +:+ py_repeat "░" (10 - TaskList.progress_pct tl / 10)
   +:+ " " +:+ pretty (TaskList.progress_pct tl) +:+ "%";
   "";
   "Tasks:"]
  ++ (report_line <$> TaskList.tasks tl).

Definition get_status_report (m : TaskManager) : string :=
  match _current_task_list m with
  | None => "No task list loaded"
  | Some tl => String.concat newline (status_report_lines tl)
  end.

(** The [lines] of [get_resume_prompt], from the bundle of [resume]. *)
Definition resume_prompt_lines (result : resume_bundle) : list string :=
  let task_list := task_list result in
  [py_repeat "=" 60;
   "📋 SINGLE SOURCE OF TRUTH - SESSION RESUME";
   py_repeat "=" 60;
   "Task List: " +:+ TaskList.name task_list;
   "Progress: " +:+ pretty (TaskList.progress_pct task_list) +:+ "%";
   "Status: " +:+ py_repr (JDict ((λ kv, (kv.1, JInt kv.2)) <$> status_summary result));
   ""]
  ++ match resume_task result with
     | Some resume_task =>
         ["🔄 RESUME TASK:";
          "   ID: " +:+ Task.id resume_task;
          "   Title: " +:+ Task.title resume_task;
          "   Stage: " +:+ Task.stage resume_task;
          "   Agent: " +:+ py_str_opt (Task.assigned_agent resume_task)]
         ++ match checkpoint result with
            | Some checkpoint =>
                ["   Progress: " +:+ pretty (TaskCheckpoint.progress_pct checkpoint)
                 +:+ "%";
                 "   Current Item: "
                 +:+ py_str_opt (TaskCheckpoint.current_item checkpoint);
                 "   Completed: "
                 +:+ pretty (TaskCheckpoint.items_completed checkpoint) +:+ "/"
                 +:+ pretty (TaskCheckpoint.items_total checkpoint)]
                ++ match TaskCheckpoint.context checkpoint with
                   | [] => []
                   | context => ["   Context: " +:+ json_dumps 6 (JDict context)]
                   end
            | None => []
            end
         ++ [""]
     | None => []
     end
  ++ match next_tasks result with
     | [] => []
     | next_tasks =>
         ["▶️ READY TO START:"]
         ++ ((λ task, "   - [" +:+ Task.id task +:+ "] " +:+ Task.title task +:+ " ("
                      +:+ py_str_opt (Task.assigned_agent task) +:+ ")")
               <$> take 5 next_tasks)
         ++ [""]
     end
  ++ [py_repeat "=" 60;
      "Commands: start_task(id), complete_task(id), update_checkpoint(id, pct)";
      py_repeat "=" 60].

(** [get_resume_prompt] calls [resume] without an id, so that it loads a
    list; the manager it leaves is returned with the text. *)
Definition get_resume_prompt (f : factories) (m : TaskManager)
    : result (TaskManager * string) :=
  '(m, result) ← resume f m None;
  match result with
  | ResumeError _ =>
      Ok (m, "No task list found. Create new with: manager.create_biddeed_pipeline('2026-01-28')")
  | Resumed result => Ok (m, String.concat newline (resume_prompt_lines result))
  end.

(** *** The command line ([cli.py])

    [main] from the parsed arguments on: the lines it prints, in order, and
    the value it returns; an exception that leaves [main] is the [Raise]
    of the result.  [json_loads s] is [json.loads(s)], [None] when it
    raises; [help_text] is what [print_help] prints.  The branch of
    [complete] is not modelled: it can assign a JSON value that is not an
    object to [output], which a [Task.t] cannot hold. *)

Variable json_loads : string → option json.
Variable help_text : string.

Inductive command :=
| CmdCreate (date : string) (count : Z)
| CmdResume (task_list_id : option string)
| CmdStatus (task_list_id : option string) (as_json : bool)
| CmdStart (task_id : string) (task_list_id : option string)
| CmdCheckpoint (task_id : string) (progress : Z) (item : option string)
    (completed total : Z) (context : option string) (task_list_id : option string)
| CmdFail (task_id error : string) (no_retry : bool) (task_list_id : option string)
| CmdList (as_json : bool).

(** [TaskManager(tasks_dir=tasks_dir)] on a directory with these files. *)
Definition fresh_manager (files : gmap string file) (ticks0 : nat) : TaskManager :=
  {| tasks_dir := files; _current_task_list := None; ticks := ticks0 |}.

(** The first lines of [start], [checkpoint] and [fail]: the id given with
    [--list], else the id of the first row of the listing, and [load] on it
    when it is truthy (the result of [load] is dropped). *)
Definition load_selected (f : factories) (m : TaskManager) (task_list_id : option string)
    : result TaskManager :=
  match given task_list_id with
  | Some task_list_id => fst <$> load f m task_list_id
  | None =>
      task_lists ← list_task_lists m;
      match task_lists with
      | first :: _ =>
          if truthy (e_id first) then fst <$> load f m (py_str (e_id first))
          else Ok m
      | [] => Ok m
      end
  end.

(** [update_checkpoint] with the [context] that [json.loads] returned: a
    falsy value gives the empty context, and a truthy value that is not an
    object is rejected by the constructor of the checkpoint, which is only
    reached when the task was found. *)
Definition update_checkpoint_json (m : TaskManager) (task_id : string) (progress_pct : Z)
    (current_item : option string) (items_completed items_total : Z)
    (context : option json) : result TaskManager :=
  match context with
  | Some (JDict context) =>
      update_checkpoint m task_id progress_pct current_item items_completed
        items_total (Some context) None
  | Some context =>
      if truthy context then
        match _current_task_list m with
        | None => no_list
        | Some task_list =>
            match _get_task (Some task_list) task_id with
            | None => Ok m
            | Some _ => Raise ValidationError
            end
        end
      else
        update_checkpoint m task_id progress_pct current_item items_completed
          items_total None None
  | None =>
      update_checkpoint m task_id progress_pct current_item items_completed
        items_total None None
  end.

Definition entry_json (e : entry) : json :=
  JDict [("id", e_id e); ("name", e_name e); ("progress", JStr (e_progress e));
         ("updated_at", e_updated_at e); ("status", JStr (e_status e))].

Definition main (f : factories) (dir : string) (files : gmap string file)
    (ticks0 : nat) (args : option command)
    : result (TaskManager * list string * Z) :=
  match args with
  | None => Ok (fresh_manager files ticks0, [help_text], 1%Z)
  | Some command =>
      let manager := fresh_manager files ticks0 in
      match command with
      | CmdCreate date count =>
          '(manager, task_list) ←
            create_biddeed_pipeline manager (uuid12 f) date count None;
          Ok (manager,
              ["✅ Created: " +:+ TaskList.id task_list;
               "   Name: " +:+ TaskList.name task_list;
               "   Tasks: " +:+ pretty (length (TaskList.tasks task_list));
               "   File: " +:+ dir +:+ "/" +:+ TaskList.id task_list +:+ ".json"],
              0%Z)
      | CmdResume task_list_id =>
          '(manager, result) ← resume f manager task_list_id;
          match result with
          | ResumeError error => Ok (manager, ["❌ " +:+ error], 1%Z)
          | Resumed _ =>
              '(manager, prompt) ← get_resume_prompt f manager;
              Ok (manager, [prompt], 0%Z)
          end
      | CmdStatus task_list_id as_json =>
          selected ←
            match given task_list_id with
            | Some task_list_id => Ok (Some task_list_id)
            | None =>
                task_lists ← list_task_lists manager;
                match task_lists with
                | [] => Ok None
                | first :: _ => Ok (Some (py_str (e_id first)))
                end
            end;
          match selected with
          | None => Ok (manager, ["No task lists found"], 1%Z)
          | Some task_list_id =>
              '(manager, task_list) ← load f manager task_list_id;
              match task_list with
              | None => Ok (manager, ["Task list not found: " +:+ task_list_id], 1%Z)
              | Some task_list =>
                  if as_json : bool
                  then Ok (manager, [json_dumps 2 (model_dump task_list)], 0%Z)
                  else Ok (manager, [get_status_report manager], 0%Z)
              end
          end
      | CmdStart task_id task_list_id =>
          manager ← load_selected f manager task_list_id;
          '(manager, task) ← start_task manager task_id;
          match task with
          | Some task =>
              if decide (Task.status task = TaskStatus.BLOCKED)
              then Ok (manager,
                       ["⛔ Task " +:+ Task.id task +:+ " is blocked by: "
                        +:+ py_repr (dump_strings (Task.depends_on task))], 0%Z)
              else Ok (manager, ["▶️ Started: " +:+ Task.title task], 0%Z)
          | None => Ok (manager, ["❌ Task not found: " +:+ task_id], 1%Z)
          end
      | CmdCheckpoint task_id progress item completed total context task_list_id =>
          manager ← load_selected f manager task_list_id;
          context ←
            match given context with
            | Some text => Some <$> of_option JSONDecodeError (json_loads text)
            | None => Ok None
            end;
          manager ← update_checkpoint_json manager task_id progress item completed
                      total context;
          Ok (manager,
              ["💾 Checkpoint saved: " +:+ task_id +:+ " at " +:+ pretty progress
               +:+ "%"], 0%Z)
      | CmdFail task_id error no_retry task_list_id =>
          manager ← load_selected f manager task_list_id;
          '(manager, task) ← fail_task manager task_id error (negb no_retry);
          match task with
          | Some task =>
              if decide (Task.status task = TaskStatus.FAILED)
              then Ok (manager, ["❌ Failed permanently: " +:+ Task.title task], 0%Z)
              else Ok (manager,
                       ["⚠️ Failed (retry " +:+ pretty (Task.retry_count task) +:+ "/"
                        +:+ pretty (Task.max_retries task) +:+ "): "
                        +:+ Task.title task], 0%Z)
          | None => Ok (manager, ["❌ Task not found: " +:+ task_id], 1%Z)
          end
      | CmdList as_json =>
          task_lists ← list_task_lists manager;
          if as_json : bool
          then Ok (manager, [json_dumps 2 (JList (entry_json <$> task_lists))], 0%Z)
          else
            match task_lists with
            | [] => Ok (manager, ["No task lists found"], 0%Z)
            | _ =>
                Ok (manager,
                    ["📋 Task Lists:"; py_repeat "-" 60]
                    ++ mjoin ((λ tl,
                         ["  [" +:+ py_str (e_id tl) +:+ "] " +:+ py_str (e_name tl);
                          "      Progress: " +:+ e_progress tl +:+ " | Status: "
                          +:+ e_status tl;
                          "      Updated: " +:+ py_str (e_updated_at tl)])
                        <$> task_lists)
                    ++ [py_repeat "-" 60], 0%Z)
            end
      end
  end.

(** *** Predicates of the statements *)

(** The condition in the words of the specification: every id in
    [depends_on] names a task of the list, and that task is completed. *)
Definition all_dependencies_completed (tl : TaskList.t) (task : Task.t) : Prop :=
  ∀ dep_id, dep_id ∈ Task.depends_on task →
    ∃ j dep, _get_task (Some tl) dep_id = Some (j, dep) ∧
             Task.status dep = TaskStatus.COMPLETED.

(** Some id in [depends_on] names a task of the list that is not
    completed: an incomplete dependency. *)
Definition has_incomplete_dependency (tl : TaskList.t) (task : Task.t) : Prop :=
  ∃ dep_id j dep, dep_id ∈ Task.depends_on task ∧
    _get_task (Some tl) dep_id = Some (j, dep) ∧
    Task.status dep ≠ TaskStatus.COMPLETED.

(** What the scan of [_update_blocked_tasks] does to one task. *)
Definition unblocked (tl : TaskList.t) (task : Task.t) : Task.t :=
  if decide (Task.status task = TaskStatus.BLOCKED
             ∧ _get_blocking_dependencies (Some tl) task = [])
  then Task.set_status TaskStatus.PENDING task else task.

(** What a lookup of dependencies reads of a task. *)
Definition dependency_view (task : Task.t) : string * bool :=
  (Task.id task, bool_decide (Task.status task = TaskStatus.COMPLETED)).


(** What one call [o], made when the clock reads [t], may do to a task:
    each of the four fields is as before, or was written by the call
    that owns it, on the task the call names. *)
Definition touched (o : op) (t : datetime) (before after : Task.t) : Prop :=
  Task.id after = Task.id before ∧
  (Task.started_at after = Task.started_at before ∨
   o = Start (Task.id before) ∧
   Task.status after = TaskStatus.IN_PROGRESS ∧
   Task.started_at after = Some t) ∧
  (Task.completed_at after = Task.completed_at before ∨
   ∃ out, o = Complete (Task.id before) out ∧
          Task.status after = TaskStatus.COMPLETED ∧
          Task.completed_at after = Some t ∧
          Task.started_at after = Task.started_at before) ∧
  (Task.error after = Task.error before ∨
   ∃ e r, o = Fail (Task.id before) e r ∧ Task.error after = Some e) ∧
  (Task.output after = Task.output before ∨
   ∃ out, o = Complete (Task.id before) out ∧ Task.output after = out).


(** A list that the schema accepts: the progress of every checkpoint is
    within the bounds of its field. *)
Definition valid_task (task : Task.t) : Prop :=
  ∀ c, Task.checkpoint task = Some c →
       TaskCheckpoint.valid_progress (TaskCheckpoint.progress_pct c) = true.

Definition valid_task_list (tl : TaskList.t) : Prop :=
  Forall valid_task (TaskList.tasks tl).


(** The resume target in the words of the specification: the task that
    [last_active_task_id] names if it is in progress, otherwise the first
    task in list order that is in progress, otherwise none. *)
Definition first_in_progress (tl : TaskList.t) : option Task.t :=
  snd <$> list_find (λ task, Task.status task = TaskStatus.IN_PROGRESS)
            (TaskList.tasks tl).

Definition resume_target_spec (tl : TaskList.t) : option Task.t :=
  match TaskList.last_active_task_id tl ≫= _get_task (Some tl) with
  | Some (_, task) =>
      if decide (Task.status task = TaskStatus.IN_PROGRESS) then Some task
      else first_in_progress tl
  | None => first_in_progress tl
  end.


(** A listing in which no entry is followed by one with a larger
    [updated_at], and entries whose [updated_at] is a string, as [save]
    writes it. *)
Definition descending (l : list entry) : Prop :=
  Sorted (λ x y, py_lt (e_updated_at x) (e_updated_at y) = Some false) l.

Definition string_key (e : entry) : Prop := ∃ s, e_updated_at e = JStr s.

(** The overall status of a list, and the row of the listing for it. *)
Definition overall_status (tl : TaskList.t) : string :=
  let has s := λ task, bool_decide (Task.status task = s) in
  match TaskList.tasks tl with
  | [] => "empty"
  | tasks =>
      if forallb (has TaskStatus.COMPLETED) tasks then "completed"
      else if existsb (has TaskStatus.IN_PROGRESS) tasks then "in_progress"
      else if existsb (has TaskStatus.FAILED) tasks then "has_failures"
      else "pending"
  end.

Definition entry_for (tl : TaskList.t) : entry :=
  {| e_id := JStr (TaskList.id tl);
     e_name := JStr (TaskList.name tl);
     e_progress := pretty (TaskList.progress_pct tl) +:+ "%";
     e_updated_at := JStr (isoformat (TaskList.updated_at tl));
     e_status := overall_status tl |}.

(** The progress in the words of the specification's test:
    [round(100 * completed_count / total_count)], the nearest integer, a
    tie going to the even one, and 0 for an empty list. *)
Definition round_ratio (a b : Z) : Z :=
  let q := (a / b)%Z in
  let r := (a mod b)%Z in
  if (2 * r <? b)%Z then q
  else if (b <? 2 * r)%Z then (q + 1)%Z
  else if Z.even q then q else (q + 1)%Z.

Definition progress_pct_spec (tl : TaskList.t) : Z :=
  match TaskList.tasks tl with
  | [] => 0%Z
  | _ => round_ratio (100 * Z.of_nat (TaskList.completed_count tl))
                     (Z.of_nat (length (TaskList.tasks tl)))
  end.

(** The fields of a task and of a list that no call of the engine assigns. *)
Definition static_fields (task : Task.t) :=
  (Task.id task, Task.stage task, Task.title task, Task.description task,
   Task.priority task, Task.depends_on task, Task.blocks task,
   Task.estimated_minutes task, Task.assigned_agent task, Task.max_retries task,
   Task.tags task).

Definition list_static_fields (tl : TaskList.t) :=
  (TaskList.id tl, TaskList.name tl, TaskList.description tl, TaskList.created_at tl,
   TaskList.created_by tl, TaskList.pipeline tl, TaskList.session_id tl,
   TaskList.global_context tl).

(** The task id a call names, and whether a call is [fail_task] on an id. *)
Definition op_task_id (o : op) : string :=
  match o with
  | Start task_id => task_id
  | Checkpoint task_id _ _ _ _ _ _ => task_id
  | Complete task_id _ => task_id
  | Fail task_id _ _ => task_id
  end.

Definition is_fail_of (task_id : string) (o : op) : bool :=
  match o with
  | Fail task_id' _ _ => bool_decide (task_id' = task_id)
  | _ => false
  end.

(** The list in memory is the one in the file of its id. *)
Definition persisted (m : TaskManager) (tl : TaskList.t) : Prop :=
  _current_task_list m = Some tl ∧
  tasks_dir m !! TaskList.id tl = Some (Document (model_dump tl)).

(** What a call may do to a task besides the fields it never assigns: a
    checkpoint within the bounds stays within them. *)
Definition kept (before after : Task.t) : Prop :=
  static_fields after = static_fields before ∧
  (valid_task before → valid_task after).

(** The reals behind the floats: a power of two, the value of a positive
    finite float, and the place of a real [X] against a mantissa carried
    with its round and sticky bits (the integer part of [X] is the mantissa,
    the two bits say where the fraction lies around one half). *)
Definition pw (e : Z) : R := powerRZ 2 e.

Definition F2R (m : positive) (e : Z) : R := (IZR (Zpos m) * powerRZ 2 e)%R.

Definition located (X : R) (mrs : shr_record) : Prop :=
  let f := (X - IZR (shr_m mrs))%R in
  (0 <= shr_m mrs)%Z ∧ (0 <= f < 1)%R ∧
  (shr_r mrs = false → (f < 1/2)%R) ∧ (shr_r mrs = true → (1/2 <= f)%R) ∧
  (shr_r mrs = false → shr_s mrs = false → f = 0%R) ∧
  (shr_r mrs = true → shr_s mrs = false → f = (1/2)%R).


(** ** Properties of the engine *)

(** *** Finding and replacing a task *)

Lemma _get_task_Some (tl : TaskList.t) (task_id : string) (i : nat) (task : Task.t) :
  _get_task (Some tl) task_id = Some (i, task) ↔
  TaskList.tasks tl !! i = Some task ∧ Task.id task = task_id ∧
  ∀ j other, TaskList.tasks tl !! j = Some other → j < i → Task.id other ≠ task_id.
Proof. unfold _get_task. rewrite list_find_Some. reflexivity. Qed.

Lemma _get_task_None (tl : TaskList.t) (task_id : string) :
  _get_task (Some tl) task_id = None ↔
  ∀ task, task ∈ TaskList.tasks tl → Task.id task ≠ task_id.
Proof.
  unfold _get_task. rewrite list_find_None, Forall_forall. reflexivity.
Qed.

(** A lookup sees only the ids, position by position. *)
Lemma list_find_id_ext (l l' : list Task.t) (task_id : string) :
  Task.id <$> l = Task.id <$> l' →
  fst <$> list_find (λ task, Task.id task = task_id) l
  = fst <$> list_find (λ task, Task.id task = task_id) l'.
Proof.
  revert l'. induction l as [|x l IH]; intros [|y l'] Heq; simplify_eq/=; [done|].
  rewrite H. destruct (decide (Task.id y = task_id)); [done|].
  specialize (IH _ H0).
  destruct (list_find _ l) as [[]|], (list_find _ l') as [[]|]; simplify_eq/=; done.
Qed.

Lemma _get_task_update (tl : TaskList.t) (task_id : string) (i : nat)
    (task task' : Task.t) :
  _get_task (Some tl) task_id = Some (i, task) →
  Task.id task' = task_id →
  _get_task (Some (update_task i task' tl)) task_id = Some (i, task').
Proof.
  rewrite !_get_task_Some. intros (Hi & Hid & Hlt) Hid'. simpl.
  assert (i < length (TaskList.tasks tl)) by (eapply lookup_lt_Some; eauto).
  split; [by apply list_lookup_insert_eq|]. split; [done|].
  intros j other Hj Hji. rewrite list_lookup_insert_ne in Hj by lia. eauto.
Qed.

(** *** What [save] leaves behind *)

Lemma save_current_list (m : TaskManager) (tl : TaskList.t) :
  _current_task_list (save_current m tl)
  = Some (TaskList.set_updated_at (clock (ticks m)) tl).
Proof. reflexivity. Qed.

Lemma save_current_dir (m : TaskManager) (tl : TaskList.t) :
  tasks_dir (save_current m tl)
  = <[TaskList.id tl :=
        Document (model_dump (TaskList.set_updated_at (clock (ticks m)) tl))]>
      (tasks_dir m).
Proof. reflexivity. Qed.

Lemma save_current_ticks (m : TaskManager) (tl : TaskList.t) :
  ticks (save_current m tl) = S (ticks m).
Proof. reflexivity. Qed.

Lemma _get_task_stamped (t : datetime) (tl : TaskList.t) (task_id : string) :
  _get_task (Some (TaskList.set_updated_at t tl)) task_id = _get_task (Some tl) task_id.
Proof. reflexivity. Qed.

Lemma _get_task_saved (m : TaskManager) (tl : TaskList.t) (task_id : string) (i : nat)
    (task task' : Task.t) :
  _get_task (Some tl) task_id = Some (i, task) →
  Task.id task' = Task.id task →
  _get_task (_current_task_list (save_current m (update_task i task' tl))) task_id
  = Some (i, task').
Proof.
  intros Hget Hid. rewrite save_current_list, _get_task_stamped.
  apply (_get_task_update _ _ _ task); [done|].
  apply _get_task_Some in Hget. destruct Hget as (_ & <- & _). done.
Qed.

(** *** [fail_task]: the retry policy *)

Lemma fail_task_found (m : TaskManager) (tl : TaskList.t) (task_id error : string)
    (retry : bool) (i : nat) (task : Task.t) :
  _current_task_list m = Some tl →
  _get_task (Some tl) task_id = Some (i, task) →
  ∃ task',
    fail_task m task_id error retry
    = Ok (save_current m (update_task i task' tl), Some task') ∧
    Task.id task' = Task.id task ∧
    Task.retry_count task' = (Task.retry_count task + 1)%Z ∧
    Task.max_retries task' = Task.max_retries task ∧
    Task.error task' = Some error ∧
    Task.output task' = Task.output task ∧
    Task.started_at task' = Task.started_at task ∧
    Task.completed_at task' = Task.completed_at task ∧
    Task.status task' =
      (if retry && (Task.retry_count task + 1 <? Task.max_retries task)%Z
       then Task.status task else TaskStatus.FAILED).
Proof.
  intros Hcur Hget. unfold fail_task. rewrite Hcur, Hget. simpl.
  eexists. split; [reflexivity|].
  destruct (retry && _); simpl; auto 10.
Qed.

(** One call, with the manager it leaves behind. *)
Lemma fail_task_once (m : TaskManager) (tl : TaskList.t) (task_id error : string)
    (retry : bool) (i : nat) (task : Task.t) :
  _current_task_list m = Some tl →
  _get_task (Some tl) task_id = Some (i, task) →
  ∃ m' tl' task',
    fail_task m task_id error retry = Ok (m', Some task') ∧
    _current_task_list m' = Some tl' ∧
    _get_task (Some tl') task_id = Some (i, task') ∧
    Task.retry_count task' = (Task.retry_count task + 1)%Z ∧
    Task.max_retries task' = Task.max_retries task ∧
    Task.error task' = Some error ∧
    Task.status task' =
      (if retry && (Task.retry_count task + 1 <? Task.max_retries task)%Z
       then Task.status task else TaskStatus.FAILED).
Proof.
  intros Hcur Hget.
  destruct (fail_task_found m tl task_id error retry i task Hcur Hget)
    as (task' & Hrun & Hid & Hcount & Hmax & Herr & _ & _ & _ & Hst).
  eexists _, _, task'. split; [exact Hrun|].
  split; [apply save_current_list|].
  split; [|by auto].
  rewrite <- save_current_list. by apply (_get_task_saved _ _ _ _ task).
Qed.

(** C4.  Every call of [fail_task] on a task of the loaded list adds
    exactly one to [retry_count] and records the error; the status becomes
    [failed] when the new [retry_count] has reached [max_retries] or retry
    was disabled, and is left as it was otherwise.  With [max_retries = 3]
    and no failure so far, three calls with [retry=True] count 1, 2, 3, the
    status unchanged after the first two and [failed] after the third. *)
Theorem fail_task_retry_policy (m : TaskManager) (tl : TaskList.t) (task_id : string)
    (i : nat) (task : Task.t) :
  _current_task_list m = Some tl →
  _get_task (Some tl) task_id = Some (i, task) →
  (∀ error retry, ∃ m' tl' task',
      fail_task m task_id error retry = Ok (m', Some task') ∧
      _current_task_list m' = Some tl' ∧
      _get_task (Some tl') task_id = Some (i, task') ∧
      Task.retry_count task' = (Task.retry_count task + 1)%Z ∧
      Task.max_retries task' = Task.max_retries task ∧
      Task.error task' = Some error ∧
      ((Task.retry_count task' >= Task.max_retries task')%Z ∨ retry = false →
       Task.status task' = TaskStatus.FAILED) ∧
      (¬ ((Task.retry_count task' >= Task.max_retries task')%Z ∨ retry = false) →
       Task.status task' = Task.status task)) ∧
  (Task.retry_count task = 0%Z → Task.max_retries task = 3%Z →
   ∀ e1 e2 e3, ∃ m1 t1 m2 t2 m3 t3,
      fail_task m task_id e1 true = Ok (m1, Some t1) ∧
      fail_task m1 task_id e2 true = Ok (m2, Some t2) ∧
      fail_task m2 task_id e3 true = Ok (m3, Some t3) ∧
      Task.retry_count t1 = 1%Z ∧ Task.status t1 = Task.status task ∧
      Task.retry_count t2 = 2%Z ∧ Task.status t2 = Task.status task ∧
      Task.retry_count t3 = 3%Z ∧ Task.status t3 = TaskStatus.FAILED).
Proof.
  intros Hcur Hget. split.
  - intros error retry.
    destruct (fail_task_once m tl task_id error retry i task Hcur Hget)
      as (m' & tl' & task' & Hrun & Hcur' & Hget' & Hcount & Hmax & Herr & Hst).
    exists m', tl', task'. repeat (split; [done|]).
    rewrite Hst, Hcount, Hmax. split.
    + intros [Hge | ->]; [|done].
      destruct (Z.ltb_spec (Task.retry_count task + 1) (Task.max_retries task));
        [lia|by rewrite andb_false_r].
    + intros Hno. destruct retry; [|exfalso; apply Hno; by right].
      destruct (Z.ltb_spec (Task.retry_count task + 1) (Task.max_retries task));
        [done|]. exfalso. apply Hno. left. lia.
  - intros H0 H3 e1 e2 e3.
    destruct (fail_task_once m tl task_id e1 true i task Hcur Hget)
      as (m1 & tl1 & t1 & Hrun1 & Hcur1 & Hget1 & Hc1 & Hm1 & _ & Hs1).
    destruct (fail_task_once m1 tl1 task_id e2 true i t1 Hcur1 Hget1)
      as (m2 & tl2 & t2 & Hrun2 & Hcur2 & Hget2 & Hc2 & Hm2 & _ & Hs2).
    destruct (fail_task_once m2 tl2 task_id e3 true i t2 Hcur2 Hget2)
      as (m3 & tl3 & t3 & Hrun3 & _ & _ & Hc3 & Hm3 & _ & Hs3).
    exists m1, t1, m2, t2, m3, t3. repeat (split; [done|]).
    rewrite H0 in Hc1, Hs1. rewrite H3 in Hm1, Hs1.
    rewrite Hc1 in Hc2, Hs2. rewrite Hm1 in Hm2, Hs2.
    rewrite Hc2 in Hc3, Hs3. rewrite Hm2 in Hs3.
    simpl in Hc1, Hs1, Hc2, Hs2, Hc3, Hs3. rewrite Hs2, Hs1. done.
Qed.

(** *** Blocking dependencies *)

Lemma is_blocking_true (tl : TaskList.t) (dep_id : string) :
  is_blocking (Some tl) dep_id = true ↔
  ∃ j dep, _get_task (Some tl) dep_id = Some (j, dep) ∧
           Task.status dep ≠ TaskStatus.COMPLETED.
Proof.
  unfold is_blocking. destruct (_get_task (Some tl) dep_id) as [[j dep]|].
  - rewrite negb_true_iff, bool_decide_eq_false. split; [eauto|].
    by intros (? & ? & [= <- <-] & ?).
  - split; [done|]. by intros (? & ? & ? & _).
Qed.

Lemma blocking_nonempty (tl : TaskList.t) (task : Task.t) :
  _get_blocking_dependencies (Some tl) task ≠ [] ↔ has_incomplete_dependency tl task.
Proof.
  unfold _get_blocking_dependencies, has_incomplete_dependency. split.
  - intros Hne. destruct (filter _ _) as [|dep_id l] eqn:Hf; [done|].
    assert (Hin : dep_id ∈ filter (λ d, is_blocking (Some tl) d = true)
                               (Task.depends_on task))
      by (rewrite Hf; left).
    apply list_elem_of_filter in Hin as [Hb Hin].
    apply is_blocking_true in Hb as (j & dep & ? & ?). eauto 10.
  - intros (dep_id & j & dep & Hin & Hget & Hst) Hnil.
    assert (Hin' : dep_id ∈ filter (λ d, is_blocking (Some tl) d = true)
                                (Task.depends_on task)).
    { apply list_elem_of_filter. split; [|done]. apply is_blocking_true. eauto. }
    rewrite Hnil in Hin'. by apply not_elem_of_nil in Hin'.
Qed.

Lemma blocking_empty (tl : TaskList.t) (task : Task.t) :
  _get_blocking_dependencies (Some tl) task = [] ↔ ¬ has_incomplete_dependency tl task.
Proof.
  rewrite <- blocking_nonempty.
  destruct (_get_blocking_dependencies (Some tl) task).
  - split; [|done]. intros _ H. by apply H.
  - split; [done|]. intros H. exfalso. by apply H.
Qed.

Lemma all_completed_not_incomplete (tl : TaskList.t) (task : Task.t) :
  all_dependencies_completed tl task → ¬ has_incomplete_dependency tl task.
Proof.
  intros Hall (dep_id & j & dep & Hin & Hget & Hst).
  destruct (Hall _ Hin) as (j' & dep' & Hget' & Hst'). congruence.
Qed.

(** On a list whose dependency ids all name tasks, the two conditions
    are the same. *)
Lemma not_incomplete_all_completed (tl : TaskList.t) (task : Task.t) :
  (∀ dep_id, dep_id ∈ Task.depends_on task → is_Some (_get_task (Some tl) dep_id)) →
  ¬ has_incomplete_dependency tl task → all_dependencies_completed tl task.
Proof.
  intros Hex Hno dep_id Hin. destruct (Hex _ Hin) as [[j dep] Hget].
  exists j, dep. split; [done|].
  destruct (decide (Task.status dep = TaskStatus.COMPLETED)); [done|].
  exfalso. apply Hno. by exists dep_id, j, dep.
Qed.

(** *** [start_task] *)

Lemma start_task_blocked (m : TaskManager) (tl : TaskList.t) (task_id : string)
    (i : nat) (task : Task.t) :
  _current_task_list m = Some tl →
  _get_task (Some tl) task_id = Some (i, task) →
  _get_blocking_dependencies (Some tl) task ≠ [] →
  start_task m task_id
  = Ok (save_current m (update_task i (Task.set_status TaskStatus.BLOCKED task) tl),
        Some (Task.set_status TaskStatus.BLOCKED task)).
Proof.
  intros Hcur Hget Hb. unfold start_task. rewrite Hcur, Hget.
  by destruct (_get_blocking_dependencies (Some tl) task).
Qed.

(** The task as [start_task] leaves it when nothing blocks it. *)
Lemma start_task_started (m : TaskManager) (tl : TaskList.t) (task_id : string)
    (i : nat) (task : Task.t) :
  _current_task_list m = Some tl →
  _get_task (Some tl) task_id = Some (i, task) →
  _get_blocking_dependencies (Some tl) task = [] →
  ∃ m1 task',
    task' = Task.set_checkpoint
              (Some (TaskCheckpoint.at_progress (clock (S (ticks m))) 0))
              (Task.set_started_at (Some (clock (ticks m)))
                 (Task.set_status TaskStatus.IN_PROGRESS task)) ∧
    ticks m1 = S (S (ticks m)) ∧ tasks_dir m1 = tasks_dir m ∧
    start_task m task_id
    = Ok (save_current m1
            (TaskList.set_last_active_task_id (Some task_id) (update_task i task' tl)),
          Some task').
Proof.
  intros Hcur Hget Hb. unfold start_task. rewrite Hcur, Hget, Hb. simpl.
  eexists _, _. split; [reflexivity|]. split; [|split]; [| |reflexivity]; done.
Qed.

(** C1, as the code has it.  [start_task] on a task of the loaded list puts
    it in [in_progress] exactly when no id in its [depends_on] names a
    task of the list that is not completed, and in [blocked] otherwise,
    returning it in that state; an id that names no task of the list does
    not block.  On a list whose dependency ids all name tasks, this is the
    condition that every dependency is a completed task of the list. *)
Theorem start_task_gate (m : TaskManager) (tl : TaskList.t) (task_id : string)
    (i : nat) (task : Task.t) :
  _current_task_list m = Some tl →
  _get_task (Some tl) task_id = Some (i, task) →
  ∃ m' tl' task',
    start_task m task_id = Ok (m', Some task') ∧
    _current_task_list m' = Some tl' ∧
    _get_task (Some tl') task_id = Some (i, task') ∧
    (Task.status task' = TaskStatus.IN_PROGRESS ↔ ¬ has_incomplete_dependency tl task) ∧
    (has_incomplete_dependency tl task → Task.status task' = TaskStatus.BLOCKED) ∧
    ((∀ dep_id, dep_id ∈ Task.depends_on task →
        is_Some (_get_task (Some tl) dep_id)) →
     (Task.status task' = TaskStatus.IN_PROGRESS ↔ all_dependencies_completed tl task) ∧
     (¬ all_dependencies_completed tl task → Task.status task' = TaskStatus.BLOCKED)).
Proof.
  intros Hcur Hget.
  assert (Hdec : ∀ task' : Task.t,
    (Task.status task' = TaskStatus.IN_PROGRESS ↔ ¬ has_incomplete_dependency tl task) →
    (has_incomplete_dependency tl task → Task.status task' = TaskStatus.BLOCKED) →
    (∀ dep_id, dep_id ∈ Task.depends_on task →
        is_Some (_get_task (Some tl) dep_id)) →
    (Task.status task' = TaskStatus.IN_PROGRESS ↔ all_dependencies_completed tl task) ∧
    (¬ all_dependencies_completed tl task → Task.status task' = TaskStatus.BLOCKED)).
  { intros task' Hiff Hblk Hex. split.
    - rewrite Hiff. split; [by apply not_incomplete_all_completed|].
      apply all_completed_not_incomplete.
    - intros Hnot. apply Hblk.
      destruct (decide (_get_blocking_dependencies (Some tl) task = [])) as [He|Hne].
      + exfalso. apply Hnot, not_incomplete_all_completed; [done|].
        by apply blocking_empty.
      + by apply blocking_nonempty. }
  destruct (decide (_get_blocking_dependencies (Some tl) task = [])) as [He|Hne].
  - destruct (start_task_started m tl task_id i task Hcur Hget He)
      as (m1 & task' & -> & _ & _ & Hrun).
    eexists _, _, _. split; [exact Hrun|]. split; [apply save_current_list|].
    apply blocking_empty in He.
    assert (Hgate : ∀ s, (s = s ↔ ¬ has_incomplete_dependency tl task)
                         ∧ (has_incomplete_dependency tl task → s = TaskStatus.BLOCKED))
      by (intros s; split; [split|]; done).
    split; [|split; [|split]].
    + rewrite _get_task_stamped. apply (_get_task_update _ _ _ task); [|].
      * apply _get_task_Some. apply _get_task_Some in Hget.
        destruct Hget as (Hi & Hid & Hlt). simpl. done.
      * simpl. apply _get_task_Some in Hget. by destruct Hget as (_ & ? & _).
    + simpl. apply Hgate.
    + simpl. apply (Hgate TaskStatus.IN_PROGRESS).
    + apply Hdec; simpl; apply Hgate.
  - rewrite (start_task_blocked m tl task_id i task Hcur Hget Hne).
    eexists _, _, _. split; [reflexivity|]. split; [apply save_current_list|].
    pose proof Hne as Hinc. apply blocking_nonempty in Hinc.
    split; [|split; [|split]].
    + rewrite <- save_current_list. by apply (_get_task_saved _ _ _ _ task).
    + simpl. split; [done|]. intros Hno. by destruct Hno.
    + done.
    + apply Hdec; simpl; [|done]. split; [done|]. intros Hno. by destruct Hno.
Qed.

(** C10.  [start_task] on a task that has an incomplete dependency changes
    one field of that task, its status, which becomes [blocked]: the other
    fields, the other tasks and the list's [last_active_task_id] are as
    before, and the list is written to its file by this call. *)
Theorem start_task_blocked_frame (m : TaskManager) (tl : TaskList.t) (task_id : string)
    (i : nat) (task : Task.t) :
  _current_task_list m = Some tl →
  _get_task (Some tl) task_id = Some (i, task) →
  has_incomplete_dependency tl task →
  ∃ m' tl' task',
    start_task m task_id = Ok (m', Some task') ∧
    _current_task_list m' = Some tl' ∧
    TaskList.tasks tl' = <[i := task']> (TaskList.tasks tl) ∧
    task' = Task.set_status TaskStatus.BLOCKED task ∧
    Task.status task' = TaskStatus.BLOCKED ∧
    Task.started_at task' = Task.started_at task ∧
    Task.completed_at task' = Task.completed_at task ∧
    Task.checkpoint task' = Task.checkpoint task ∧
    Task.output task' = Task.output task ∧
    Task.error task' = Task.error task ∧
    Task.retry_count task' = Task.retry_count task ∧
    TaskList.last_active_task_id tl' = TaskList.last_active_task_id tl ∧
    tasks_dir m' !! TaskList.id tl = Some (Document (model_dump tl')).
Proof.
  intros Hcur Hget Hinc. apply blocking_nonempty in Hinc.
  rewrite (start_task_blocked m tl task_id i task Hcur Hget Hinc).
  eexists _, _, _. split; [reflexivity|]. split; [apply save_current_list|].
  repeat (split; [reflexivity|]).
  rewrite save_current_dir. simpl. by rewrite lookup_insert_eq.
Qed.

(** *** The unblocking scan *)

Lemma list_find_view (l l' : list Task.t) (task_id : string) :
  dependency_view <$> l = dependency_view <$> l' →
  match list_find (λ task, Task.id task = task_id) l,
        list_find (λ task, Task.id task = task_id) l' with
  | Some (i, x), Some (j, y) => i = j ∧ dependency_view x = dependency_view y
  | None, None => True
  | _, _ => False
  end.
Proof.
  revert l'. induction l as [|x l IH]; intros [|y l'] Heq; simplify_eq/=; [done|].
  rewrite H. destruct (decide (Task.id y = task_id)).
  { split; [done|]. unfold dependency_view. by rewrite H, H1. }
  specialize (IH _ H0).
  destruct (list_find _ l) as [[]|], (list_find _ l') as [[]|]; simpl; try done.
  destruct IH as [-> ?]. done.
Qed.

Lemma is_blocking_view (a b : TaskList.t) (dep_id : string) :
  dependency_view <$> TaskList.tasks a = dependency_view <$> TaskList.tasks b →
  is_blocking (Some a) dep_id = is_blocking (Some b) dep_id.
Proof.
  intros Heq. unfold is_blocking, _get_task.
  pose proof (list_find_view _ _ dep_id Heq) as H.
  destruct (list_find _ (TaskList.tasks a)) as [[i x]|],
           (list_find _ (TaskList.tasks b)) as [[j y]|]; try done.
  destruct H as [_ H]. unfold dependency_view in H. injection H as _ H. by rewrite H.
Qed.

Lemma blocking_view (a b : TaskList.t) (task : Task.t) :
  dependency_view <$> TaskList.tasks a = dependency_view <$> TaskList.tasks b →
  _get_blocking_dependencies (Some a) task = _get_blocking_dependencies (Some b) task.
Proof.
  intros Heq. unfold _get_blocking_dependencies.
  apply list_filter_iff. intros dep_id. by rewrite (is_blocking_view a b).
Qed.

Lemma unblocked_view (tl : TaskList.t) (task : Task.t) :
  dependency_view (unblocked tl task) = dependency_view task.
Proof.
  unfold unblocked. case_decide as H; [|done]. destruct H as [H _].
  unfold dependency_view. simpl. rewrite H. done.
Qed.

(** The scan, task by task: the loop reads the list it is changing, and
    what it reads there is not changed by it. *)
Lemma scan_prefix (tl : TaskList.t) (k : nat) :
  k ≤ length (TaskList.tasks tl) →
  foldl unblock_at tl (seq 0 k)
  = TaskList.set_tasks
      ((unblocked tl <$> take k (TaskList.tasks tl)) ++ drop k (TaskList.tasks tl)) tl.
Proof.
  induction k as [|k IH]; intros Hk.
  - simpl. rewrite drop_0. by destruct tl.
  - rewrite seq_S, foldl_app, IH by lia. simpl.
    destruct (lookup_lt_is_Some_2 (TaskList.tasks tl) k) as [task Hlook]; [lia|].
    set (cur := TaskList.set_tasks _ tl).
    assert (Hview : dependency_view <$> TaskList.tasks cur
                    = dependency_view <$> TaskList.tasks tl).
    { subst cur. simpl. rewrite fmap_app, <- list_fmap_compose.
      rewrite (list_fmap_ext (dependency_view ∘ unblocked tl) dependency_view)
        by (intros; apply unblocked_view).
      by rewrite <- fmap_app, take_drop. }
    assert (Hcur : TaskList.tasks cur !! k = Some task).
    { subst cur. simpl. rewrite lookup_app_r; rewrite length_fmap, length_take; [|lia].
      rewrite lookup_drop. replace (k + (k - k `min` length (TaskList.tasks tl)))
        with k by lia. done. }
    unfold unblock_at. rewrite Hcur.
    rewrite (blocking_view cur tl task Hview).
    rewrite (take_S_r _ _ _ Hlook), fmap_app, <- app_assoc. simpl.
    assert (Hins : ∀ t', <[k := t']> (TaskList.tasks cur)
              = (unblocked tl <$> take k (TaskList.tasks tl))
                ++ t' :: drop (S k) (TaskList.tasks tl)).
    { intros t'. subst cur. simpl.
      rewrite insert_app_r_alt; rewrite length_fmap, length_take; [|lia].
      replace (k - k `min` length (TaskList.tasks tl)) with 0 by lia.
      by rewrite (drop_S _ _ _ Hlook). }
    unfold unblocked at 2. case_decide as Hdec.
    + unfold update_task. rewrite Hins. done.
    + subst cur. simpl. by rewrite (drop_S _ _ _ Hlook).
Qed.

Lemma _update_blocked_tasks_map (tl : TaskList.t) :
  _update_blocked_tasks tl
  = TaskList.set_tasks (unblocked tl <$> TaskList.tasks tl) tl.
Proof.
  unfold _update_blocked_tasks. rewrite scan_prefix by done.
  by rewrite firstn_all, drop_all, app_nil_r.
Qed.




Lemma scan_view (tl : TaskList.t) :
  dependency_view <$> TaskList.tasks (_update_blocked_tasks tl)
  = dependency_view <$> TaskList.tasks tl.
Proof.
  rewrite _update_blocked_tasks_map. simpl. rewrite <- list_fmap_compose.
  apply list_fmap_ext. intros. apply unblocked_view.
Qed.

(** *** [complete_task] *)

Lemma complete_task_found (m : TaskManager) (tl : TaskList.t) (task_id : string)
    (output : option dict) (i : nat) (task : Task.t) :
  _current_task_list m = Some tl →
  _get_task (Some tl) task_id = Some (i, task) →
  ∃ m1 done,
    ticks m1 = S (S (ticks m)) ∧ tasks_dir m1 = tasks_dir m ∧
    complete_task m task_id output
    = Ok (save_current m1 (_update_blocked_tasks (update_task i done tl)),
          TaskList.tasks (_update_blocked_tasks (update_task i done tl)) !! i) ∧
    Task.id done = Task.id task ∧
    Task.depends_on done = Task.depends_on task ∧
    Task.status done = TaskStatus.COMPLETED ∧
    Task.completed_at done = Some (clock (ticks m)) ∧
    Task.started_at done = Task.started_at task ∧
    Task.output done = output ∧
    Task.error done = Task.error task ∧
    Task.retry_count done = Task.retry_count task.
Proof.
  intros Hcur Hget. unfold complete_task. rewrite Hcur, Hget. simpl.
  eexists _, _. split; [|split; [|split; [reflexivity|]]]; [done..|].
  destruct (Task.started_at task) eqn:Hs; simpl; rewrite ?Hs; auto 10.
Qed.


(** *** What one call changes *)

Lemma touched_refl (o : op) (t : datetime) (task : Task.t) : touched o t task task.
Proof. unfold touched. auto 10. Qed.

Lemma touched_unblocked (o : op) (t : datetime) (tl : TaskList.t) (task : Task.t) :
  touched o t task (unblocked tl task).
Proof. unfold unblocked. case_decide; [|apply touched_refl]. unfold touched. simpl. auto 10. Qed.

Lemma Forall2_replace {A} (R : A → A → Prop) (l : list A) (i : nat) (x y : A) :
  (∀ z, R z z) → l !! i = Some x → R x y → Forall2 R l (<[i := y]> l).
Proof.
  intros Hrefl Hi Hxy. rewrite <- (list_insert_id l i x) at 1 by done.
  apply Forall2_insert; [|done]. by apply Forall_Forall2_diag, Forall_forall.
Qed.

Lemma start_task_touched (m m' : TaskManager) (tl : TaskList.t) (task_id : string)
    (r : option Task.t) :
  start_task m task_id = Ok (m', r) →
  _current_task_list m = Some tl →
  ∃ tl', _current_task_list m' = Some tl' ∧
         Forall2 (touched (Start task_id) (clock (ticks m)))
                 (TaskList.tasks tl) (TaskList.tasks tl').
Proof.
  intros Hrun Hcur.
  destruct (_get_task (Some tl) task_id) as [[i task]|] eqn:Hget.
  - pose proof Hget as Hfound. apply _get_task_Some in Hfound.
    destruct Hfound as (Hi & Hid & _).
    destruct (decide (_get_blocking_dependencies (Some tl) task = [])) as [He|Hne].
    + destruct (start_task_started m tl task_id i task Hcur Hget He)
        as (m1 & task' & -> & _ & _ & Hrun').
      rewrite Hrun' in Hrun. injection Hrun as <- _.
      eexists. split; [apply save_current_list|]. simpl.
      apply (Forall2_replace _ _ _ task); [apply touched_refl|done|].
      unfold touched. simpl. rewrite Hid. auto 10.
    + rewrite (start_task_blocked m tl task_id i task Hcur Hget Hne) in Hrun.
      injection Hrun as <- _.
      eexists. split; [apply save_current_list|]. simpl.
      apply (Forall2_replace _ _ _ task); [apply touched_refl|done|].
      unfold touched. simpl. auto 10.
  - unfold start_task in Hrun. rewrite Hcur, Hget in Hrun. injection Hrun as <- _.
    exists tl. split; [done|]. apply Forall_Forall2_diag, Forall_forall.
    intros. apply touched_refl.
Qed.

Lemma update_checkpoint_touched (m m' : TaskManager) (tl : TaskList.t)
    (task_id : string) (p : Z) (item : option string) (n total : Z)
    (context : option dict) (notes : option string) :
  update_checkpoint m task_id p item n total context notes = Ok m' →
  _current_task_list m = Some tl →
  ∃ tl', _current_task_list m' = Some tl' ∧
         Forall2 (touched (Checkpoint task_id p item n total context notes)
                    (clock (ticks m)))
                 (TaskList.tasks tl) (TaskList.tasks tl').
Proof.
  intros Hrun Hcur. unfold update_checkpoint in Hrun. rewrite Hcur in Hrun.
  destruct (_get_task (Some tl) task_id) as [[i task]|] eqn:Hget.
  - apply _get_task_Some in Hget. destruct Hget as (Hi & Hid & _).
    destruct (TaskCheckpoint.valid_progress p); [|done].
    simpl in Hrun. injection Hrun as <-.
    eexists. split; [apply save_current_list|]. simpl.
    apply (Forall2_replace _ _ _ task); [apply touched_refl|done|].
    unfold touched. simpl. auto 10.
  - injection Hrun as <-. exists tl. split; [done|].
    apply Forall_Forall2_diag, Forall_forall. intros. apply touched_refl.
Qed.

Lemma complete_task_touched (m m' : TaskManager) (tl : TaskList.t) (task_id : string)
    (output : option dict) (r : option Task.t) :
  complete_task m task_id output = Ok (m', r) →
  _current_task_list m = Some tl →
  ∃ tl', _current_task_list m' = Some tl' ∧
         Forall2 (touched (Complete task_id output) (clock (ticks m)))
                 (TaskList.tasks tl) (TaskList.tasks tl').
Proof.
  intros Hrun Hcur.
  destruct (_get_task (Some tl) task_id) as [[i task]|] eqn:Hget.
  - destruct (complete_task_found m tl task_id output i task Hcur Hget)
      as (m1 & done & _ & _ & Hrun' & Hid & _ & Hst & Hc & Hs & Ho & He & _).
    rewrite Hrun' in Hrun. injection Hrun as <- _.
    apply _get_task_Some in Hget. destruct Hget as (Hi & Htid & _).
    eexists. split; [apply save_current_list|]. simpl.
    rewrite _update_blocked_tasks_map. simpl.
    apply Forall2_fmap_r.
    apply (Forall2_replace (λ x y, touched _ _ x (unblocked _ y)) _ _ task);
      [intros; apply touched_unblocked|done|].
    unfold unblocked. rewrite decide_False by (intros [? _]; congruence).
    unfold touched. rewrite Hid, Hs, Hc, He, Ho, Hst, Htid. eauto 15.
  - unfold complete_task in Hrun. rewrite Hcur, Hget in Hrun. injection Hrun as <- _.
    exists tl. split; [done|]. apply Forall_Forall2_diag, Forall_forall.
    intros. apply touched_refl.
Qed.

Lemma fail_task_touched (m m' : TaskManager) (tl : TaskList.t) (task_id error : string)
    (retry : bool) (r : option Task.t) :
  fail_task m task_id error retry = Ok (m', r) →
  _current_task_list m = Some tl →
  ∃ tl', _current_task_list m' = Some tl' ∧
         Forall2 (touched (Fail task_id error retry) (clock (ticks m)))
                 (TaskList.tasks tl) (TaskList.tasks tl').
Proof.
  intros Hrun Hcur.
  destruct (_get_task (Some tl) task_id) as [[i task]|] eqn:Hget.
  - destruct (fail_task_found m tl task_id error retry i task Hcur Hget)
      as (task' & Hrun' & Hid & _ & _ & Herr & Hout & Hs & Hc & _).
    rewrite Hrun' in Hrun. injection Hrun as <- _.
    apply _get_task_Some in Hget. destruct Hget as (Hi & Htid & _).
    eexists. split; [apply save_current_list|]. simpl.
    apply (Forall2_replace _ _ _ task); [apply touched_refl|done|].
    unfold touched. rewrite Hid, Hs, Hc, Herr, Hout, Htid. eauto 15.
  - unfold fail_task in Hrun. rewrite Hcur, Hget in Hrun. injection Hrun as <- _.
    exists tl. split; [done|]. apply Forall_Forall2_diag, Forall_forall.
    intros. apply touched_refl.
Qed.

Lemma step_touched (m m' : TaskManager) (o : op) (tl : TaskList.t) :
  step m o = Ok m' →
  _current_task_list m = Some tl →
  ∃ tl', _current_task_list m' = Some tl' ∧
         Forall2 (touched o (clock (ticks m))) (TaskList.tasks tl) (TaskList.tasks tl').
Proof.
  intros Hstep Hcur. destruct o; simpl in Hstep.
  - destruct (start_task m task_id) as [[m1 r]|] eqn:Hrun; [|done].
    injection Hstep as <-. by eapply start_task_touched.
  - by eapply update_checkpoint_touched.
  - destruct (complete_task m task_id output) as [[m1 r]|] eqn:Hrun; [|done].
    injection Hstep as <-. by eapply complete_task_touched.
  - destruct (fail_task m task_id error retry) as [[m1 r]|] eqn:Hrun; [|done].
    injection Hstep as <-. by eapply fail_task_touched.
Qed.

(** *** Timestamps *)


(** *** Payloads *)

(** Along a run, an error was put there by [fail_task] and an output by
    [complete_task], on a task of that id. *)
Definition payloads_traced (ops : list op) (tl : TaskList.t) : Prop :=
  ∀ task, task ∈ TaskList.tasks tl →
    (is_Some (Task.error task) → ∃ e r, Fail (Task.id task) e r ∈ ops) ∧
    (is_Some (Task.output task) → ∃ out, Complete (Task.id task) (Some out) ∈ ops).

Lemma payloads_traced_mono (ops ops' : list op) (tl : TaskList.t) :
  ops ⊆ ops' → payloads_traced ops tl → payloads_traced ops' tl.
Proof.
  intros Hsub Hinv task Hin. destruct (Hinv task Hin) as [He Ho]. split.
  - intros H. destruct (He H) as (e & r & ?). eauto.
  - intros H. destruct (Ho H) as (out & ?). eauto.
Qed.

Lemma payloads_traced_step (m m' : TaskManager) (o : op) (ops : list op)
    (tl : TaskList.t) :
  step m o = Ok m' →
  _current_task_list m = Some tl →
  payloads_traced ops tl →
  ∃ tl', _current_task_list m' = Some tl' ∧ payloads_traced (ops ++ [o]) tl'.
Proof.
  intros Hstep Hcur Hinv.
  destruct (step_touched m m' o tl Hstep Hcur) as (tl' & Hcur' & Hall).
  exists tl'. split; [done|]. intros after Hin.
  apply list_elem_of_lookup in Hin as [j Hj].
  destruct (Forall2_lookup_r _ _ _ _ _ Hall Hj) as (before & Hj' & Ht).
  destruct Ht as (Hid & _ & _ & He & Ho).
  assert (Hbefore : before ∈ TaskList.tasks tl) by (by eapply list_elem_of_lookup_2).
  destruct (Hinv before Hbefore) as [Heb Hob]. rewrite Hid. split.
  - destruct He as [->|(e & r & -> & _)].
    + intros H. destruct (Heb H) as (e & r & ?). exists e, r.
      apply elem_of_app. by left.
    + intros _. exists e, r. apply elem_of_app. right. by apply list_elem_of_singleton.
  - destruct Ho as [->|(out & -> & Hout)].
    + intros H. destruct (Hob H) as (out & ?). exists out.
      apply elem_of_app. by left.
    + rewrite Hout. intros [d ->]. exists d.
      apply elem_of_app. right. by apply list_elem_of_singleton.
Qed.

Lemma payloads_traced_run (ops : list op) (m : TaskManager) (done : list op)
    (tl : TaskList.t) :
  _current_task_list m = Some tl →
  payloads_traced done tl →
  ∃ tl', _current_task_list (run m ops) = Some tl' ∧
         payloads_traced (done ++ ops) tl'.
Proof.
  revert m done tl. induction ops as [|o ops IH]; intros m done tl Hcur Hinv.
  - exists tl. by rewrite app_nil_r.
  - change (run m (o :: ops)) with (run (step_or_stay m o) ops).
    unfold step_or_stay.
    replace (done ++ o :: ops) with ((done ++ [o]) ++ ops) by by rewrite <- app_assoc.
    destruct (step m o) as [m'|] eqn:Hstep.
    + destruct (payloads_traced_step m m' o done tl Hstep Hcur Hinv)
        as (tl1 & Hcur1 & Hinv1).
      by apply (IH m' _ tl1).
    + apply (IH m _ tl); [done|].
      eapply payloads_traced_mono; [|done]. by apply list_subseteq_app_l.
Qed.

Lemma create_biddeed_task_list_fresh (list_id : string) (created updated : datetime)
    (auction_date : string) (property_count : Z) (session_id : option string) :
  ∃ tl,
    create_biddeed_task_list list_id created updated auction_date property_count
      session_id = Ok tl ∧
    TaskList.id tl = list_id ∧
    length (TaskList.tasks tl) = 12 ∧
    Forall (λ task, Task.status task = TaskStatus.PENDING ∧
                    Task.error task = None ∧ Task.output task = None ∧
                    Task.started_at task = None ∧ Task.completed_at task = None)
           (TaskList.tasks tl).
Proof.
  eexists. split; [vm_compute; reflexivity|]. simpl.
  split; [done|]. split; [done|]. repeat constructor.
Qed.

Lemma create_biddeed_pipeline_fresh (m m0 : TaskManager) (list_id auction_date : string)
    (property_count : Z) (session_id : option string) (tl0 : TaskList.t) :
  create_biddeed_pipeline m list_id auction_date property_count session_id
  = Ok (m0, tl0) →
  _current_task_list m0 = Some tl0 ∧
  tasks_dir m0 !! list_id = Some (Document (model_dump tl0)) ∧
  Forall (λ task, Task.status task = TaskStatus.PENDING ∧
                  Task.error task = None ∧ Task.output task = None ∧
                  Task.started_at task = None ∧ Task.completed_at task = None)
         (TaskList.tasks tl0).
Proof.
  unfold create_biddeed_pipeline. intros Hrun.
  destruct (match given session_id with
            | Some s => (s, m) | None => _generate_session_id m end)
    as [session m1].
  unfold now in Hrun. cbn -[create_biddeed_task_list] in Hrun.
  destruct (create_biddeed_task_list_fresh list_id (clock (ticks m1))
              (clock (S (ticks m1))) auction_date property_count (Some session))
    as (tl & Hcreate & Hid & _ & Hfresh).
  rewrite Hcreate in Hrun. simpl in Hrun. injection Hrun as <- <-.
  split; [done|]. split; [|done]. simpl. rewrite Hid. apply lookup_insert_eq.
Qed.

(** C8, as the code has it.  In every state that calls of [start_task],
    [update_checkpoint], [complete_task] and [fail_task] reach from a
    freshly created pipeline, a task carries an error only if [fail_task]
    was called on its id, and an output only if [complete_task] was called
    on its id with an output.  So a completed task that never failed
    carries no error, and a failed task that was never completed with an
    output carries none; nothing clears a payload that an earlier call
    left. *)
Theorem payloads_follow_calls (m m0 : TaskManager) (list_id auction_date : string)
    (property_count : Z) (session_id : option string) (tl0 : TaskList.t)
    (ops : list op) :
  create_biddeed_pipeline m list_id auction_date property_count session_id
  = Ok (m0, tl0) →
  ∃ tl, _current_task_list (run m0 ops) = Some tl ∧
    ∀ task, task ∈ TaskList.tasks tl →
      (is_Some (Task.error task) → ∃ e r, Fail (Task.id task) e r ∈ ops) ∧
      (is_Some (Task.output task) →
       ∃ out, Complete (Task.id task) (Some out) ∈ ops) ∧
      (Task.status task = TaskStatus.COMPLETED →
       (∀ e r, Fail (Task.id task) e r ∉ ops) → Task.error task = None) ∧
      (Task.status task = TaskStatus.FAILED →
       (∀ out, Complete (Task.id task) (Some out) ∉ ops) → Task.output task = None).
Proof.
  intros Hcreate.
  destruct (create_biddeed_pipeline_fresh _ _ _ _ _ _ _ Hcreate)
    as (Hcur & _ & Hfresh).
  destruct (payloads_traced_run ops m0 [] tl0 Hcur) as (tl & Hrun & Hinv).
  { intros task Hin. rewrite Forall_forall in Hfresh.
    destruct (Hfresh task Hin) as (_ & -> & -> & _).
    split; intros [? [=]]. }
  exists tl. split; [done|]. intros task Hin.
  destruct (Hinv task Hin) as [He Ho]. simpl in He, Ho.
  split; [done|]. split; [done|]. split.
  - intros _ Hno. destruct (Task.error task) eqn:Herr; [|done].
    destruct He as (e & r & Hin'); [by eexists|]. by destruct (Hno e r).
  - intros _ Hno. destruct (Task.output task) eqn:Hout; [|done].
    destruct Ho as (out & Hin'); [by eexists|]. by destruct (Hno out).
Qed.

(** *** Listing *)

Lemma ltb_asym (s1 s2 : string) : String.ltb s1 s2 = true → String.ltb s2 s1 = false.
Proof.
  unfold String.ltb. rewrite (String.compare_antisym s2 s1).
  by destruct (String.compare s1 s2).
Qed.

Lemma insert_desc_strings (x : entry) (l : list entry) :
  string_key x → Forall string_key l → descending l →
  ∃ l', insert_desc x l = Ok l' ∧ l' ≡ₚ x :: l ∧ descending l' ∧
        (∀ y, HdRel (λ a b, py_lt (e_updated_at a) (e_updated_at b) = Some false) y l →
              py_lt (e_updated_at y) (e_updated_at x) = Some false →
              HdRel (λ a b, py_lt (e_updated_at a) (e_updated_at b) = Some false) y l').
Proof.
  intros [sx Hx] Hkeys Hsorted. induction l as [|y l IH]; simpl.
  - eexists. split; [reflexivity|]. split; [done|]. split.
    + by repeat constructor.
    + intros z _ Hz. by constructor.
  - apply Forall_cons in Hkeys as [[sy Hy] Hkeys].
    apply Sorted_inv in Hsorted as [Hsorted Hhd].
    assert (Hyx : py_lt (e_updated_at y) (e_updated_at x) = Some (String.ltb sy sx))
      by (by rewrite Hy, Hx).
    assert (Hxy : String.ltb sy sx = true →
                  py_lt (e_updated_at x) (e_updated_at y) = Some false)
      by (intros Hlt; rewrite Hx, Hy; simpl; by rewrite (ltb_asym _ _ Hlt)).
    rewrite Hyx. simpl. destruct (String.ltb sy sx) eqn:Hlt.
    + eexists. split; [reflexivity|]. split; [done|]. split.
      * apply Sorted_cons; [by apply Sorted_cons|]. apply HdRel_cons. by apply Hxy.
      * intros z _ Hz. by apply HdRel_cons.
    + destruct (IH Hkeys Hsorted) as (l' & Hins & Hperm & Hsorted' & Hhd').
      rewrite Hins. simpl. eexists. split; [reflexivity|]. split.
      * rewrite Hperm. apply perm_swap.
      * split.
        -- apply Sorted_cons; [done|]. by apply Hhd'.
        -- intros z Hz _. apply HdRel_inv in Hz. by apply HdRel_cons.
Qed.

(** Over entries stamped by [save] the sort does not raise, keeps every
    entry and puts the most recent first. *)
Lemma sorted_desc_strings (l : list entry) :
  Forall string_key l →
  ∃ l', sorted_desc l = Ok l' ∧ l' ≡ₚ l ∧ descending l'.
Proof.
  unfold sorted_desc. intros Hkeys.
  assert (Hgen : ∀ acc, Forall string_key acc → descending acc →
            ∃ l', foldl (λ acc x, sorted ← acc; insert_desc x sorted) (Ok acc) l = Ok l'
                  ∧ l' ≡ₚ acc ++ l ∧ descending l').
  { induction l as [|x l IH]; intros acc Hacc Hsorted; simpl.
    - exists acc. by rewrite app_nil_r.
    - apply Forall_cons in Hkeys as [Hx Hkeys].
      destruct (insert_desc_strings x acc Hx Hacc Hsorted)
        as (acc' & Hins & Hperm & Hsorted' & _).
      rewrite Hins.
      destruct (IH Hkeys acc') as (l' & Hrun & Hperm' & Hsorted'').
      + rewrite Forall_forall. intros e He. rewrite Hperm in He.
        apply elem_of_cons in He as [->|He]; [done|].
        rewrite Forall_forall in Hacc. by apply Hacc.
      + done.
      + exists l'. split; [done|]. split; [|done].
        rewrite Hperm', Hperm. apply Permutation_middle. }
  destruct (Hgen [] (Forall_nil_2 _)) as (l' & Hrun & Hperm & Hsorted); [constructor|].
  by exists l'.
Qed.

(** A file that [json.load] rejects leaves no trace in the listing. *)
Lemma list_files_skips_unparseable (before after : list file) :
  list_files (before ++ Unparseable :: after) = list_files (before ++ after).
Proof. unfold list_files. by rewrite !omap_app. Qed.

Lemma mapM_result_fmap {A B C} (f : B → result C) (g : A → B) (h : A → C)
    (l : list A) :
  (∀ x, f (g x) = Ok (h x)) → mapM f (g <$> l) = Ok (h <$> l).
Proof.
  intros Hfg. induction l as [|x l IH]; [done|]. rewrite !fmap_cons.
  change (mapM f (g x :: (g <$> l)))
    with (f (g x) ≫= λ y, mapM f (g <$> l) ≫= λ k, mret (y :: k)).
  by rewrite Hfg, IH.
Qed.

Lemma task_statuses_dump (tasks : list Task.t) :
  task_statuses (JList (dump_task <$> tasks))
  = Ok ((λ task, JStr (TaskStatus.value (Task.status task))) <$> tasks).
Proof. unfold task_statuses. by apply mapM_result_fmap. Qed.

Lemma has_status_value (s s' : TaskStatus.t) :
  has_status (TaskStatus.value s') (JStr (TaskStatus.value s)) = bool_decide (s = s').
Proof. by destruct s, s'. Qed.

Lemma count_dumped_status (s : TaskStatus.t) (tasks : list Task.t) :
  length (filter (λ j, has_status (TaskStatus.value s) j = true)
            ((λ task, JStr (TaskStatus.value (Task.status task))) <$> tasks))
  = length (filter (λ task, Task.status task = s) tasks).
Proof.
  induction tasks as [|task tasks IH]; [done|].
  rewrite fmap_cons, !filter_cons, has_status_value.
  destruct (decide (Task.status task = s)) as [Heq|Hne].
  - rewrite bool_decide_eq_true_2 by done. rewrite decide_True by done.
    simpl. by rewrite IH.
  - rewrite bool_decide_eq_false_2 by done. by rewrite decide_False by done.
Qed.

(** The progress that the listing derives from a document written by
    [save] is the [progress_pct] of the list. *)
Lemma _calc_progress_dump (tl : TaskList.t) :
  _calc_progress (model_dump tl) = Ok (TaskList.progress_pct tl).
Proof.
  unfold _calc_progress, TaskList.progress_pct, TaskList.completed_count.
  change (get_tasks (model_dump tl)) with
    (Ok (A:=json) (JList (dump_task <$> TaskList.tasks tl))).
  cbn [mbind result_bind]. rewrite task_statuses_dump. cbn [mbind result_bind].
  rewrite (count_dumped_status TaskStatus.COMPLETED), length_fmap.
  by destruct (TaskList.tasks tl).
Qed.

Lemma forallb_dumped_status (s : TaskStatus.t) (tasks : list Task.t) :
  forallb (has_status (TaskStatus.value s))
    ((λ task, JStr (TaskStatus.value (Task.status task))) <$> tasks)
  = forallb (λ task, bool_decide (Task.status task = s)) tasks.
Proof.
  induction tasks as [|task tasks IH]; [done|].
  rewrite fmap_cons. simpl. by rewrite has_status_value, IH.
Qed.

Lemma existsb_dumped_status (s : TaskStatus.t) (tasks : list Task.t) :
  existsb (has_status (TaskStatus.value s))
    ((λ task, JStr (TaskStatus.value (Task.status task))) <$> tasks)
  = existsb (λ task, bool_decide (Task.status task = s)) tasks.
Proof.
  induction tasks as [|task tasks IH]; [done|].
  rewrite fmap_cons. simpl. by rewrite has_status_value, IH.
Qed.

Lemma _get_overall_status_dump (tl : TaskList.t) :
  _get_overall_status (model_dump tl) = Ok (overall_status tl).
Proof.
  unfold _get_overall_status, overall_status.
  change (get_tasks (model_dump tl)) with
    (Ok (A:=json) (JList (dump_task <$> TaskList.tasks tl))).
  cbn [mbind result_bind]. rewrite task_statuses_dump. cbn [mbind result_bind].
  rewrite (forallb_dumped_status TaskStatus.COMPLETED),
    (existsb_dumped_status TaskStatus.IN_PROGRESS),
    (existsb_dumped_status TaskStatus.FAILED).
  destruct (TaskList.tasks tl) as [|task tasks]; [done|].
  change (negb (truthy (JList (dump_task <$> task :: tasks)))) with false.
  cbv iota.
  by repeat match goal with |- context [if ?b then _ else _] => destruct b end.
Qed.

(** The row for a document written by [save]. *)
Lemma entry_of_dump (tl : TaskList.t) :
  entry_of (Document (model_dump tl)) = Ok (entry_for tl).
Proof.
  unfold entry_of.
  change (getitem (model_dump tl) "id") with (Ok (A:=json) (JStr (TaskList.id tl))).
  change (getitem (model_dump tl) "name") with (Ok (A:=json) (JStr (TaskList.name tl))).
  change (getitem (model_dump tl) "updated_at")
    with (Ok (A:=json) (JStr (isoformat (TaskList.updated_at tl)))).
  by rewrite _calc_progress_dump, _get_overall_status_dump.
Qed.

Lemma omap_entry_dump (tl : TaskList.t) (files : list file) :
  omap (λ f, caught (entry_of f)) (Document (model_dump tl) :: files)
  = entry_for tl :: omap (λ f, caught (entry_of f)) files.
Proof.
  change (omap (λ f, caught (entry_of f)) (Document (model_dump tl) :: files))
    with (match caught (entry_of (Document (model_dump tl))) with
          | Some e => e :: omap (λ f, caught (entry_of f)) files
          | None => omap (λ f, caught (entry_of f)) files
          end).
  by rewrite entry_of_dump.
Qed.

(** The scenario of the listing: one document written by [save] and one
    file that does not parse give one row, for the document. *)
Lemma list_files_one_corrupted (tl : TaskList.t) :
  list_files [Document (model_dump tl); Unparseable] = Ok [entry_for tl] ∧
  list_files [Unparseable; Document (model_dump tl)] = Ok [entry_for tl].
Proof.
  split.
  - change [Document (model_dump tl); Unparseable]
      with ([Document (model_dump tl)] ++ Unparseable :: []).
    rewrite list_files_skips_unparseable. unfold list_files. simpl app.
    by rewrite omap_entry_dump.
  - change [Unparseable; Document (model_dump tl)]
      with ([] ++ Unparseable :: [Document (model_dump tl)]).
    rewrite list_files_skips_unparseable. unfold list_files. simpl app.
    by rewrite omap_entry_dump.
Qed.


(** What a file must be for the listing to keep it: a JSON object with an
    id, a name and an [updated_at], of any type. *)
Lemma entry_of_Ok (f : file) (e : entry) :
  entry_of f = Ok e →
  ∃ kv, f = Document (JDict kv) ∧
        dict_get "id" kv = Some (e_id e) ∧
        dict_get "name" kv = Some (e_name e) ∧
        dict_get "updated_at" kv = Some (e_updated_at e).
Proof.
  destruct f as [|[| | | | |kv]]; try done. unfold entry_of, getitem.
  intros H. exists kv. split; [done|].
  destruct (dict_get "id" kv) as [id|]; [|done].
  destruct (dict_get "name" kv) as [name|]; [|done].
  cbn [of_option mbind result_bind] in H.
  destruct (_calc_progress (JDict kv)) as [p|]; [|done].
  cbn [mbind result_bind] in H.
  destruct (dict_get "updated_at" kv) as [u|]; [|done].
  cbn [of_option mbind result_bind] in H.
  destruct (_get_overall_status (JDict kv)) as [st|]; [|done].
  cbn [mbind result_bind] in H. injection H as <-. done.
Qed.

(** C9, as the code has it.  The listing ([list_task_lists] is
    [list_files] on the files of the directory) drops every file whose row
    cannot be extracted and goes on.  When the [updated_at] of every
    remaining file is a string, as [save] writes it, the listing does not
    raise, has one row for each remaining file and no other, and no row is
    followed by a more recent one.  One document written by [save] next
    to one file that is not JSON gives one row, for the document. *)
Theorem list_files_tolerant (files : list file) :
  Forall string_key (omap (λ f, caught (entry_of f)) files) →
  (∃ rows, list_files files = Ok rows ∧
     rows ≡ₚ omap (λ f, caught (entry_of f)) files ∧
     (∀ e, e ∈ rows ↔ ∃ f, f ∈ files ∧ entry_of f = Ok e) ∧
     descending rows) ∧
  (∀ before after, files = before ++ Unparseable :: after →
     list_files files = list_files (before ++ after)) ∧
  (∀ tl, list_files [Document (model_dump tl); Unparseable] = Ok [entry_for tl] ∧
         list_files [Unparseable; Document (model_dump tl)] = Ok [entry_for tl]).
Proof.
  intros Hkeys. split; [|split].
  - destruct (sorted_desc_strings _ Hkeys) as (rows & Hrun & Hperm & Hsorted).
    exists rows. split; [done|]. split; [done|]. split; [|done].
    intros e. rewrite Hperm, list_elem_of_omap. split.
    + intros (f & Hin & Hf). exists f. split; [done|].
      by destruct (entry_of f); simplify_eq/=.
    + intros (f & Hin & Hf). exists f. split; [done|]. by rewrite Hf.
  - intros before after ->. apply list_files_skips_unparseable.
  - apply list_files_one_corrupted.
Qed.

(** *** Round trip through a document *)

Section RoundTrip.
Hypothesis fromisoformat_isoformat : ∀ d, fromisoformat (isoformat d) = Some d.

Lemma parse_dump_datetime (d : datetime) : parse_datetime (dump_datetime d) = Some d.
Proof using fromisoformat_isoformat. apply fromisoformat_isoformat. Qed.

Lemma parse_dump_strings (l : list string) :
  parse_list parse_str (dump_strings l) = Some l.
Proof. unfold parse_list, dump_strings. by apply mapM_fmap_Some. Qed.

Lemma parse_dump_optional {A} (p : json → option A) (d : A → json) (o : option A) :
  (∀ a, p (d a) = Some a) → (∀ a, d a ≠ JNull) →
  parse_optional p (dump_option d o) = Some o.
Proof.
  intros Hpd Hnull. destruct o as [a|]; [|done]. simpl.
  unfold parse_optional. specialize (Hnull a). specialize (Hpd a).
  destruct (d a); try done; by rewrite Hpd.
Qed.

Lemma parse_dump_status (s : TaskStatus.t) :
  parse_status (JStr (TaskStatus.value s)) = Some s.
Proof. by destruct s. Qed.

Lemma parse_dump_priority (p : TaskPriority.t) :
  parse_priority (JStr (TaskPriority.value p)) = Some p.
Proof. by destruct p. Qed.

Lemma parse_dump_checkpoint (f : factories) (c : TaskCheckpoint.t) :
  TaskCheckpoint.valid_progress (TaskCheckpoint.progress_pct c) = true →
  parse_checkpoint f (dump_checkpoint c) = Some c.
Proof using fromisoformat_isoformat.
  intros Hvalid. destruct c as [ts p item n total ctx notes]. simpl in Hvalid.
  unfold parse_checkpoint, dump_checkpoint, field. simpl.
  rewrite fromisoformat_isoformat. simpl.
  rewrite Hvalid. simpl.
  rewrite !(parse_dump_optional parse_str JStr) by done. done.
Qed.

Lemma parse_dump_optional_checkpoint (f : factories) (o : option TaskCheckpoint.t) :
  (∀ c, o = Some c →
        TaskCheckpoint.valid_progress (TaskCheckpoint.progress_pct c) = true) →
  parse_optional (parse_checkpoint f) (dump_option dump_checkpoint o) = Some o.
Proof using fromisoformat_isoformat.
  intros Hvalid. destruct o as [c|]; [|done].
  specialize (Hvalid c eq_refl). simpl. unfold parse_optional.
  by rewrite parse_dump_checkpoint.
Qed.

Ltac parse_fields :=
  repeat (first
    [ rewrite parse_dump_status
    | rewrite parse_dump_priority
    | rewrite (mapM_fmap_Some parse_str JStr) by done
    | rewrite (parse_dump_optional parse_datetime dump_datetime)
        by (done || apply parse_dump_datetime)
    | rewrite parse_dump_datetime
    | rewrite fromisoformat_isoformat
    | rewrite (parse_dump_optional parse_int JInt) by done
    | rewrite (parse_dump_optional parse_dict JDict) by done
    | rewrite (parse_dump_optional parse_str JStr) by done ];
    simpl).

Lemma parse_dump_task (f : factories) (task : Task.t) :
  valid_task task → parse_task f (dump_task task) = Some task.
Proof using fromisoformat_isoformat.
  intros Hvalid. destruct task. unfold valid_task in Hvalid. simpl in Hvalid.
  unfold parse_task, dump_task, field, required. simpl. parse_fields.
  rewrite parse_dump_optional_checkpoint by done. simpl. parse_fields. done.
Qed.

Lemma parse_dump_task_list (f : factories) (tl : TaskList.t) :
  valid_task_list tl →
  match model_dump tl with
  | JDict data => parse_task_list f data = Some tl
  | _ => False
  end.
Proof using fromisoformat_isoformat.
  intros Hvalid. destruct tl. unfold valid_task_list in Hvalid. simpl in Hvalid.
  unfold parse_task_list, model_dump, field, required. simpl. parse_fields.
  rewrite (mapM_fmap_Forall_Some (parse_task f) dump_task).
  - simpl. parse_fields. done.
  - eapply Forall_impl; [exact Hvalid|]. intros. by apply parse_dump_task.
Qed.

(** *** [resume] on a persisted list *)

(** What [resume] returns for a list whose document is in the directory:
    the first lookup decides the target whenever it finds a task, whatever
    the status of that task. *)
Lemma resume_persisted (f : factories) (m : TaskManager) (tl : TaskList.t) :
  valid_task_list tl →
  given (Some (TaskList.id tl)) = Some (TaskList.id tl) →
  tasks_dir m !! TaskList.id tl = Some (Document (model_dump tl)) →
  ∃ bundle,
    resume f m (Some (TaskList.id tl)) = Ok (set_current (Some tl) m, Resumed bundle) ∧
    task_list bundle = tl ∧
    resume_task bundle =
      match given (TaskList.last_active_task_id tl) ≫= _get_task (Some tl) with
      | Some (_, task) => Some task
      | None => first_in_progress tl
      end.
Proof using fromisoformat_isoformat.
  intros Hvalid Hid Hfile. unfold resume, resume_list, load. rewrite Hid, Hfile.
  pose proof (parse_dump_task_list f tl Hvalid) as Hparse.
  destruct (model_dump tl) as [| | | | |data]; try (by destruct Hparse).
  rewrite Hparse. simpl. unfold first_in_progress.
  destruct (given (TaskList.last_active_task_id tl)) as [last|]; simpl.
  - destruct (list_find _ (TaskList.tasks tl)) as [[i task]|]; simpl.
    + eexists. split; [reflexivity|]. done.
    + destruct (list_find _ (TaskList.tasks tl)) as [[i task]|];
        eexists; (split; [reflexivity|]); done.
  - destruct (list_find _ (TaskList.tasks tl)) as [[i task]|];
      eexists; (split; [reflexivity|]); done.
Qed.

(** Where the code and the specification agree: the last active task is
    in progress, or [last_active_task_id] names no task of the list. *)
Lemma resume_target_agrees (f : factories) (m : TaskManager) (tl : TaskList.t) :
  valid_task_list tl →
  given (Some (TaskList.id tl)) = Some (TaskList.id tl) →
  tasks_dir m !! TaskList.id tl = Some (Document (model_dump tl)) →
  given (TaskList.last_active_task_id tl) = TaskList.last_active_task_id tl →
  (∀ i task, TaskList.last_active_task_id tl ≫= _get_task (Some tl) = Some (i, task) →
             Task.status task = TaskStatus.IN_PROGRESS) →
  ∃ bundle,
    resume f m (Some (TaskList.id tl)) = Ok (set_current (Some tl) m, Resumed bundle) ∧
    resume_task bundle = resume_target_spec tl.
Proof using fromisoformat_isoformat.
  intros Hvalid Hid Hfile Hgiven Hstatus.
  destruct (resume_persisted f m tl Hvalid Hid Hfile) as (bundle & Hrun & _ & Htarget).
  exists bundle. split; [done|]. rewrite Htarget, Hgiven. unfold resume_target_spec.
  destruct (TaskList.last_active_task_id tl ≫= _get_task (Some tl))
    as [[i task]|] eqn:Hlast; [|done].
  by rewrite decide_True by eauto.
Qed.
End RoundTrip.

(** ** Further properties of the engine *)

(** *** What every call keeps *)

Lemma kept_refl (task : Task.t) : kept task task.
Proof. by split. Qed.

Lemma kept_trans (a b c : Task.t) : kept a b → kept b c → kept a c.
Proof.
  intros [Hs1 Hv1] [Hs2 Hv2]. split; [congruence|auto].
Qed.

Lemma kept_unblocked (tl : TaskList.t) (task : Task.t) : kept task (unblocked tl task).
Proof. unfold unblocked. case_decide; [|apply kept_refl]. by split. Qed.

Lemma valid_task_at_progress (t : datetime) (p : Z) (task : Task.t) :
  TaskCheckpoint.valid_progress p = true →
  valid_task (Task.set_checkpoint (Some (TaskCheckpoint.at_progress t p)) task).
Proof. intros Hp c [= <-]. exact Hp. Qed.

(** A call that finds its task saves a list that differs from the current
    one in the task, in the tasks the scan unblocks and in
    [last_active_task_id]; a call that does not find it changes nothing. *)
Lemma step_saves (m m' : TaskManager) (o : op) (tl : TaskList.t) :
  step m o = Ok m' →
  _current_task_list m = Some tl →
  match _get_task (Some tl) (op_task_id o) with
  | None => m' = m
  | Some (i, task) =>
      ∃ m1 tl1,
        m' = save_current m1 tl1 ∧
        tasks_dir m1 = tasks_dir m ∧
        list_static_fields tl1 = list_static_fields tl ∧
        Forall2 kept (TaskList.tasks tl) (TaskList.tasks tl1)
  end.
Proof.
  intros Hstep Hcur.
  destruct (_get_task (Some tl) (op_task_id o)) as [[i task]|] eqn:Hget.
  - pose proof Hget as Hfound. apply _get_task_Some in Hfound.
    destruct Hfound as (Hi & Hid & _).
    destruct o as [task_id|task_id p item n total context notes|task_id output
                  |task_id error retry]; simpl in Hstep; cbn [op_task_id] in Hget.
    + destruct (decide (_get_blocking_dependencies (Some tl) task = [])) as [He|Hne].
      * destruct (start_task_started m tl task_id i task Hcur Hget He)
          as (m1 & task' & -> & _ & Hdir & Hrun).
        rewrite Hrun in Hstep. injection Hstep as <-.
        eexists m1, _. split; [done|]. split; [done|]. split; [done|]. simpl.
        apply (Forall2_replace _ _ _ task); [apply kept_refl|done|].
        split; [done|]. intros _. by apply valid_task_at_progress.
      * rewrite (start_task_blocked m tl task_id i task Hcur Hget Hne) in Hstep.
        injection Hstep as <-.
        eexists m, _. split; [done|]. split; [done|]. split; [done|]. simpl.
        apply (Forall2_replace _ _ _ task); [apply kept_refl|done|]. by split.
    + unfold update_checkpoint in Hstep. rewrite Hcur, Hget in Hstep.
      destruct (TaskCheckpoint.valid_progress p) eqn:Hp; [|done].
      simpl in Hstep. injection Hstep as <-.
      eexists _, _. split; [done|]. split; [done|]. split; [done|]. simpl.
      apply (Forall2_replace _ _ _ task); [apply kept_refl|done|].
      split; [done|]. intros _ c [= <-]. exact Hp.
    + unfold complete_task in Hstep. rewrite Hcur, Hget in Hstep.
      simpl in Hstep. injection Hstep as <-.
      eexists _, _. split; [done|]. split; [done|].
      rewrite _update_blocked_tasks_map. split; [done|]. simpl.
      apply Forall2_fmap_r.
      apply (Forall2_replace (λ x y, kept x (unblocked _ y)) _ _ task);
        [intros; apply kept_unblocked|done|].
      eapply kept_trans; [|apply kept_unblocked].
      split; [by destruct (Task.started_at task)|].
      intros _. by apply valid_task_at_progress.
    + unfold fail_task in Hstep. rewrite Hcur, Hget in Hstep.
      simpl in Hstep. injection Hstep as <-.
      eexists _, _. split; [done|]. split; [done|]. split; [done|]. simpl.
      apply (Forall2_replace _ _ _ task); [apply kept_refl|done|].
      by destruct (retry && _).
  - destruct o; simpl in Hstep; cbn [op_task_id] in Hget.
    + unfold start_task in Hstep. rewrite Hcur, Hget in Hstep. by injection Hstep as <-.
    + unfold update_checkpoint in Hstep. rewrite Hcur, Hget in Hstep.
      by injection Hstep as <-.
    + unfold complete_task in Hstep. rewrite Hcur, Hget in Hstep.
      by injection Hstep as <-.
    + unfold fail_task in Hstep. rewrite Hcur, Hget in Hstep. by injection Hstep as <-.
Qed.

Lemma persisted_save_current (m : TaskManager) (tl : TaskList.t) :
  persisted (save_current m tl) (TaskList.set_updated_at (clock (ticks m)) tl).
Proof.
  split; [apply save_current_list|].
  rewrite save_current_dir. simpl. apply lookup_insert_eq.
Qed.

Lemma run_keeps (ops : list op) (m : TaskManager) (tl : TaskList.t) :
  _current_task_list m = Some tl →
  ∃ tl', _current_task_list (run m ops) = Some tl' ∧
         list_static_fields tl' = list_static_fields tl ∧
         Forall2 kept (TaskList.tasks tl) (TaskList.tasks tl') ∧
         (persisted m tl → persisted (run m ops) tl').
Proof.
  revert m tl. induction ops as [|o ops IH]; intros m tl Hcur.
  - exists tl. split; [done|]. split; [done|]. split; [|done].
    apply Forall_Forall2_diag, Forall_forall. intros. apply kept_refl.
  - change (run m (o :: ops)) with (run (step_or_stay m o) ops). unfold step_or_stay.
    destruct (step m o) as [m'|e] eqn:Hstep; [|by apply IH].
    pose proof (step_saves m m' o tl Hstep Hcur) as Hshape.
    destruct (_get_task (Some tl) (op_task_id o)) as [[i task]|]; [|subst m'; by apply IH].
    destruct Hshape as (m1 & tl1 & -> & Hdir & Hstatic & Hkept).
    destruct (IH (save_current m1 tl1) _ (save_current_list m1 tl1))
      as (tl' & Hcur' & Hstatic' & Hkept' & Hpers').
    exists tl'. split; [done|]. split; [by rewrite Hstatic'|].
    split; [|intros _; apply Hpers', persisted_save_current].
    eapply Forall2_trans; [|exact Hkept|exact Hkept']. apply kept_trans.
Qed.

(** The engine never edits the structure of a list: whatever calls are
    made, the list keeps its identity, and every task keeps its place, its
    id, its texts, its dependencies and its retry limit. *)
Theorem run_keeps_structure (m : TaskManager) (tl : TaskList.t) (ops : list op) :
  _current_task_list m = Some tl →
  ∃ tl', _current_task_list (run m ops) = Some tl' ∧
    list_static_fields tl' = list_static_fields tl ∧
    length (TaskList.tasks tl') = length (TaskList.tasks tl) ∧
    ∀ j before, TaskList.tasks tl !! j = Some before →
      ∃ after, TaskList.tasks tl' !! j = Some after ∧
               static_fields after = static_fields before.
Proof.
  intros Hcur. destruct (run_keeps ops m tl Hcur) as (tl' & Hcur' & Hstatic & Hkept & _).
  exists tl'. split; [done|]. split; [done|].
  split; [symmetry; by eapply Forall2_length|].
  intros j before Hj.
  destruct (Forall2_lookup_l _ _ _ _ _ Hkept Hj) as (after & Hj' & Hs & _). eauto.
Qed.

(** Every checkpoint the engine stores keeps the bounds of the schema:
    from a list whose checkpoints are within [0, 100], no sequence of
    calls reaches one that is not. *)
Theorem run_keeps_progress_bounds (m : TaskManager) (tl : TaskList.t) (ops : list op) :
  _current_task_list m = Some tl →
  valid_task_list tl →
  ∃ tl', _current_task_list (run m ops) = Some tl' ∧
    ∀ task c, task ∈ TaskList.tasks tl' → Task.checkpoint task = Some c →
      (0 ≤ TaskCheckpoint.progress_pct c ≤ 100)%Z.
Proof.
  intros Hcur Hvalid.
  destruct (run_keeps ops m tl Hcur) as (tl' & Hcur' & _ & Hkept & _).
  exists tl'. split; [done|]. intros task c Hin Hc.
  apply list_elem_of_lookup in Hin as [j Hj].
  destruct (Forall2_lookup_r _ _ _ _ _ Hkept Hj) as (before & Hj0 & _ & Hv).
  assert (Hb : valid_task before).
  { unfold valid_task_list in Hvalid. rewrite Forall_forall in Hvalid.
    apply Hvalid. by eapply list_elem_of_lookup_2. }
  specialize (Hv Hb c Hc). unfold TaskCheckpoint.valid_progress in Hv.
  apply andb_true_iff in Hv as [H0 H100]. lia.
Qed.

(** *** Calls on one task *)

(** A call that names no task of the loaded list returns [None] and does
    nothing: no field changes, nothing is written and the clock is not
    read.  [update_checkpoint] returns before it builds the checkpoint, so
    that even a progress outside [0, 100] goes unreported. *)
Theorem unknown_task_is_ignored (m : TaskManager) (tl : TaskList.t) (task_id : string)
    (p : Z) (item : option string) (n total : Z) (context output : option dict)
    (notes : option string) (error : string) (retry : bool) :
  _current_task_list m = Some tl →
  (∀ task, task ∈ TaskList.tasks tl → Task.id task ≠ task_id) →
  start_task m task_id = Ok (m, None) ∧
  update_checkpoint m task_id p item n total context notes = Ok m ∧
  complete_task m task_id output = Ok (m, None) ∧
  fail_task m task_id error retry = Ok (m, None).
Proof.
  intros Hcur Hnone. apply _get_task_None in Hnone.
  unfold start_task, update_checkpoint, complete_task, fail_task.
  by rewrite Hcur, Hnone.
Qed.

(** [start_task] on a task without an incomplete dependency, whatever its
    status was: the task goes to in progress, [started_at] is the clock,
    the checkpoint is replaced by a new one at 0 (an earlier checkpoint is
    lost), and the results of earlier calls stay; the list records the task
    as the last active one, no other task changes, and the list is saved. *)
Theorem start_task_started_frame (m : TaskManager) (tl : TaskList.t) (task_id : string)
    (i : nat) (task : Task.t) :
  _current_task_list m = Some tl →
  _get_task (Some tl) task_id = Some (i, task) →
  ¬ has_incomplete_dependency tl task →
  ∃ m' tl' task',
    start_task m task_id = Ok (m', Some task') ∧
    _current_task_list m' = Some tl' ∧
    TaskList.tasks tl' = <[i := task']> (TaskList.tasks tl) ∧
    TaskList.last_active_task_id tl' = Some task_id ∧
    TaskList.updated_at tl' = clock (S (S (ticks m))) ∧
    Task.status task' = TaskStatus.IN_PROGRESS ∧
    Task.started_at task' = Some (clock (ticks m)) ∧
    Task.checkpoint task'
    = Some (TaskCheckpoint.at_progress (clock (S (ticks m))) 0) ∧
    Task.completed_at task' = Task.completed_at task ∧
    Task.actual_minutes task' = Task.actual_minutes task ∧
    Task.output task' = Task.output task ∧
    Task.error task' = Task.error task ∧
    Task.retry_count task' = Task.retry_count task ∧
    static_fields task' = static_fields task ∧
    tasks_dir m' !! TaskList.id tl = Some (Document (model_dump tl')).
Proof.
  intros Hcur Hget Hdeps. apply blocking_empty in Hdeps.
  destruct (start_task_started m tl task_id i task Hcur Hget Hdeps)
    as (m1 & task' & -> & Hticks & Hdir & Hrun).
  eexists _, _, _. split; [exact Hrun|].
  split; [apply save_current_list|]. rewrite save_current_dir, Hticks. simpl.
  repeat (split; [reflexivity|]). apply lookup_insert_eq.
Qed.


(** *** Ready tasks and the unblocking scan *)

Lemma _get_task_unique (tl : TaskList.t) (task : Task.t) :
  NoDup (Task.id <$> TaskList.tasks tl) →
  task ∈ TaskList.tasks tl →
  ∃ i, _get_task (Some tl) (Task.id task) = Some (i, task).
Proof.
  intros Hnodup Hin. apply list_elem_of_lookup in Hin as [i Hi].
  exists i. apply _get_task_Some. split; [done|]. split; [done|].
  intros j other Hj Hlt Heq.
  assert (j = i); [|lia].
  eapply NoDup_lookup; [exact Hnodup| |];
    rewrite list_lookup_fmap; [by rewrite Hj|by rewrite Hi, Heq].
Qed.

(** The ready tasks are the pending tasks that [start_task] would start:
    in a list whose ids are distinct, a pending task is in
    [_get_ready_tasks] exactly when [start_task] on its id sets it in
    progress, and otherwise [start_task] sets it to blocked. *)
Theorem ready_tasks_start (m : TaskManager) (tl : TaskList.t) (task : Task.t) :
  _current_task_list m = Some tl →
  NoDup (Task.id <$> TaskList.tasks tl) →
  task ∈ TaskList.tasks tl →
  Task.status task = TaskStatus.PENDING →
  ∃ m' task',
    start_task m (Task.id task) = Ok (m', Some task') ∧
    (task ∈ _get_ready_tasks (Some tl) ↔ Task.status task' = TaskStatus.IN_PROGRESS) ∧
    (task ∉ _get_ready_tasks (Some tl) ↔ Task.status task' = TaskStatus.BLOCKED).
Proof.
  intros Hcur Hnodup Hin Hpending.
  destruct (_get_task_unique tl task Hnodup Hin) as [i Hget].
  assert (Hready : task ∈ _get_ready_tasks (Some tl)
                   ↔ _get_blocking_dependencies (Some tl) task = []).
  { unfold _get_ready_tasks. rewrite list_elem_of_filter.
    split; [by intros [[_ H] _]|intros H; by repeat split]. }
  destruct (decide (_get_blocking_dependencies (Some tl) task = [])) as [He|Hne].
  - destruct (start_task_started m tl _ i task Hcur Hget He)
      as (m1 & task' & -> & _ & _ & Hrun).
    eexists _, _. split; [exact Hrun|]. simpl. rewrite Hready.
    split; [by split|]. split; [intros Hn; by destruct Hn|done].
  - rewrite (start_task_blocked m tl _ i task Hcur Hget Hne).
    eexists _, _. split; [done|]. simpl. rewrite Hready.
    split; [by split|]. by split.
Qed.

(** The scan of [_update_blocked_tasks] only ever turns a blocked task
    into a pending one (it never blocks a task), it leaves no blocked task
    behind that has no incomplete dependency, and a second scan changes
    nothing. *)
Theorem update_blocked_tasks_settles (tl : TaskList.t) :
  let tl' := _update_blocked_tasks tl in
  _update_blocked_tasks tl' = tl' ∧
  Forall2 (λ before after,
             after = before ∨
             Task.status before = TaskStatus.BLOCKED ∧
             after = Task.set_status TaskStatus.PENDING before)
          (TaskList.tasks tl) (TaskList.tasks tl') ∧
  ∀ task, task ∈ TaskList.tasks tl' → Task.status task = TaskStatus.BLOCKED →
          has_incomplete_dependency tl' task.
Proof.
  intros tl'.
  assert (Hview : dependency_view <$> TaskList.tasks tl'
                  = dependency_view <$> TaskList.tasks tl) by apply scan_view.
  assert (Htasks : TaskList.tasks tl' = unblocked tl <$> TaskList.tasks tl).
  { unfold tl'. by rewrite _update_blocked_tasks_map. }
  assert (Hsame : ∀ task, unblocked tl' (unblocked tl task) = unblocked tl task).
  { intros task.
    destruct (decide (Task.status task = TaskStatus.BLOCKED
                      ∧ _get_blocking_dependencies (Some tl) task = [])) as [Hd|Hd].
    - assert (unblocked tl task = Task.set_status TaskStatus.PENDING task) as ->
        by (unfold unblocked; by rewrite decide_True).
      unfold unblocked. by rewrite decide_False by (intros [? _]; done).
    - assert (unblocked tl task = task) as ->
        by (unfold unblocked; by rewrite decide_False).
      unfold unblocked. rewrite (blocking_view tl' tl) by done.
      by rewrite decide_False. }
  split; [|split].
  - rewrite (_update_blocked_tasks_map tl'). rewrite Htasks, <- list_fmap_compose.
    rewrite (list_fmap_ext _ (unblocked tl) (TaskList.tasks tl))
      by (intros ? task _; apply Hsame).
    rewrite <- Htasks. clear. by destruct tl'.
  - rewrite Htasks. apply Forall2_fmap_r, Forall_Forall2_diag, Forall_forall.
    intros task _. simpl. unfold unblocked.
    destruct (decide _) as [[Hb _]|_]; [by right|by left].
  - intros task Hin Hblocked. rewrite Htasks in Hin.
    apply list_elem_of_fmap in Hin as (before & -> & _).
    apply blocking_nonempty. rewrite (blocking_view tl' tl) by done.
    unfold unblocked in *. case_decide as Hd; [done|].
    intros He. apply Hd. by split.
Qed.

(** *** The status summary *)

Lemma count_by_status (tasks : list Task.t) :
  foldr Z.add 0%Z
    ((λ s, Z.of_nat (length (filter (λ task, Task.status task = s) tasks)))
       <$> TaskStatus.all)
  = Z.of_nat (length tasks).
Proof.
  induction tasks as [|task tasks IH]; [done|].
  simpl in IH |- *. rewrite !filter_cons.
  destruct (Task.status task); simpl;
    repeat (rewrite decide_True by done || rewrite decide_False by done); simpl; lia.
Qed.

(** [status_summary] has one entry per status, in the order of the
    enumeration, that counts the tasks with that status; the counts add up
    to the number of tasks and the entry of ["completed"] is the count
    behind [progress_pct]. *)
Theorem status_summary_counts (tl : TaskList.t) :
  fst <$> TaskList.status_summary tl
  = ["pending"; "in_progress"; "blocked"; "completed"; "failed"; "skipped"; "deferred"] ∧
  (∀ s, dict_get (TaskStatus.value s) (TaskList.status_summary tl)
        = Some (Z.of_nat (length (filter (λ task, Task.status task = s)
                                    (TaskList.tasks tl))))) ∧
  foldr Z.add 0%Z (snd <$> TaskList.status_summary tl)
  = Z.of_nat (length (TaskList.tasks tl)) ∧
  dict_get "completed" (TaskList.status_summary tl)
  = Some (Z.of_nat (TaskList.completed_count tl)).
Proof.
  split; [done|]. split; [by intros []|]. split; [|done].
  unfold TaskList.status_summary. rewrite <- list_fmap_compose.
  apply count_by_status.
Qed.

(** *** Loading *)

Lemma parse_checkpoint_valid (f : factories) (j : json) (c : TaskCheckpoint.t) :
  parse_checkpoint f j = Some c →
  TaskCheckpoint.valid_progress (TaskCheckpoint.progress_pct c) = true.
Proof.
  unfold parse_checkpoint. intros H.
  destruct (parse_dict j) as [data|]; [simpl in H|done].
  destruct (field data "timestamp" _ _); [simpl in H|done].
  destruct (field data "progress_pct" _ _) as [p|]; [simpl in H|done].
  destruct (decide (TaskCheckpoint.valid_progress p = true)) as [Hp|Hp].
  - rewrite option_guard_True in H by done. simpl in H.
    repeat (match type of H with
            | context [field ?d ?k ?q ?x] => destruct (field d k q x); [simpl in H|done]
            end).
    by injection H as <-.
  - by rewrite option_guard_False in H.
Qed.

Lemma parse_task_valid (f : factories) (j : json) (task : Task.t) :
  parse_task f j = Some task → valid_task task.
Proof.
  unfold parse_task. intros H.
  destruct (parse_dict j) as [data|]; [simpl in H|done].
  destruct (field data "id" _ _); [simpl in H|done].
  destruct (required data "stage" _); [simpl in H|done].
  destruct (required data "title" _); [simpl in H|done].
  destruct (field data "description" _ _); [simpl in H|done].
  destruct (field data "status" _ _); [simpl in H|done].
  destruct (field data "priority" _ _); [simpl in H|done].
  destruct (field data "depends_on" _ _); [simpl in H|done].
  destruct (field data "blocks" _ _); [simpl in H|done].
  destruct (field data "started_at" _ _); [simpl in H|done].
  destruct (field data "completed_at" _ _); [simpl in H|done].
  destruct (field data "estimated_minutes" _ _); [simpl in H|done].
  destruct (field data "actual_minutes" _ _); [simpl in H|done].
  destruct (field data "checkpoint" _ _) as [cp|] eqn:Hcp; [simpl in H|done].
  destruct (field data "output" _ _); [simpl in H|done].
  destruct (field data "error" _ _); [simpl in H|done].
  destruct (field data "assigned_agent" _ _); [simpl in H|done].
  destruct (field data "retry_count" _ _); [simpl in H|done].
  destruct (field data "max_retries" _ _); [simpl in H|done].
  destruct (field data "tags" _ _); [simpl in H|done].
  injection H as <-. intros c Hc. simpl in Hc. subst cp.
  unfold field in Hcp. destruct (dict_get "checkpoint" data) as [jc|]; [|done].
  unfold parse_optional in Hcp. destruct jc; try done;
    (destruct (parse_checkpoint f _) as [c'|] eqn:Hparse; [|done]);
    injection Hcp as ->; by eapply parse_checkpoint_valid.
Qed.

Lemma parse_task_list_valid (f : factories) (data : dict) (tl : TaskList.t) :
  parse_task_list f data = Some tl →
  valid_task_list tl ∧ dict_get "name" data = Some (JStr (TaskList.name tl)).
Proof.
  unfold parse_task_list. intros H.
  destruct (field data "id" _ _); [simpl in H|done].
  destruct (required data "name" _) as [name|] eqn:Hname; [simpl in H|done].
  destruct (field data "description" _ _); [simpl in H|done].
  destruct (field data "created_at" _ _); [simpl in H|done].
  destruct (field data "updated_at" _ _); [simpl in H|done].
  destruct (field data "created_by" _ _); [simpl in H|done].
  destruct (field data "pipeline" _ _); [simpl in H|done].
  destruct (field data "tasks" _ _) as [tasks|] eqn:Htasks; [simpl in H|done].
  destruct (field data "session_id" _ _); [simpl in H|done].
  destruct (field data "last_active_task_id" _ _); [simpl in H|done].
  destruct (field data "global_context" _ _); [simpl in H|done].
  injection H as <-. split.
  - unfold valid_task_list. simpl. unfold field in Htasks.
    destruct (dict_get "tasks" data) as [jt|]; [|by injection Htasks as <-].
    destruct jt; try done. simpl in Htasks.
    apply mapM_Some in Htasks. apply Forall_forall. intros task Hin.
    apply list_elem_of_lookup in Hin as [i Hi].
    destruct (Forall2_lookup_r _ _ _ _ _ Htasks Hi) as (j & _ & Hparse).
    by eapply parse_task_valid.
  - simpl. unfold required in Hname.
    destruct (dict_get "name" data) as [jn|]; [|done]. simpl in Hname.
    destruct jn; try done. by injection Hname as ->.
Qed.

Lemma load_result (f : factories) (m m' : TaskManager) (task_list_id : string)
    (r : option TaskList.t) :
  load f m task_list_id = Ok (m', r) →
  tasks_dir m' = tasks_dir m ∧ ticks m' = ticks m ∧
  match r with
  | None => m' = m ∧ tasks_dir m !! task_list_id = None
  | Some tl =>
      _current_task_list m' = Some tl ∧
      (∃ data, tasks_dir m !! task_list_id = Some (Document (JDict data)) ∧
               dict_get "name" data = Some (JStr (TaskList.name tl))) ∧
      ∀ task c, task ∈ TaskList.tasks tl → Task.checkpoint task = Some c →
        (0 ≤ TaskCheckpoint.progress_pct c ≤ 100)%Z
  end.
Proof.
  unfold load. intros H.
  destruct (tasks_dir m !! task_list_id) as [[|data]|] eqn:Hfile; [done| |].
  - destruct data as [| | | | |data]; try done.
    destruct (parse_task_list f data) as [tl|] eqn:Hparse; [|done].
    simpl in H. injection H as <- <-. split; [done|]. split; [done|].
    apply parse_task_list_valid in Hparse as [Hvalid Hname].
    split; [done|]. split; [by exists data|].
    intros task c Hin Hc. unfold valid_task_list in Hvalid.
    rewrite Forall_forall in Hvalid. specialize (Hvalid task Hin c Hc).
    unfold TaskCheckpoint.valid_progress in Hvalid.
    apply andb_true_iff in Hvalid as [H0 H100]. lia.
  - by injection H as <- <-.
Qed.


(** *** What [resume] reads *)



(** *** Retries *)

Lemma insert_lookup_cases {A} (l : list A) (i j : nat) (x y before after : A) :
  l !! i = Some x → l !! j = Some before → <[i := y]> l !! j = Some after →
  j = i ∧ before = x ∧ after = y ∨ j ≠ i ∧ after = before.
Proof.
  intros Hi Hj Hj'. destruct (decide (j = i)) as [->|Hne].
  - left. rewrite list_lookup_insert_eq in Hj' by (by eapply lookup_lt_Some).
    split; [done|]. split; congruence.
  - right. rewrite list_lookup_insert_ne in Hj' by done. split; congruence.
Qed.

(** One call adds one to the retry count of the task it names when it is
    [fail_task], and leaves every other retry count as it is. *)
Lemma step_retry_count (m m' : TaskManager) (o : op) (tl : TaskList.t) :
  step m o = Ok m' →
  _current_task_list m = Some tl →
  ∃ tl', _current_task_list m' = Some tl' ∧
    ∀ j before after,
      TaskList.tasks tl !! j = Some before →
      TaskList.tasks tl' !! j = Some after →
      Task.retry_count after
      = (Task.retry_count before
         + if decide (fst <$> _get_task (Some tl) (op_task_id o) = Some j)
           then Z.b2z (is_fail_of (op_task_id o) o) else 0)%Z.
Proof.
  intros Hstep Hcur.
  destruct (_get_task (Some tl) (op_task_id o)) as [[i task]|] eqn:Hget.
  - pose proof Hget as Hfound. apply _get_task_Some in Hfound.
    destruct Hfound as (Hi & Hid & _).
    destruct o as [task_id|task_id p item n total context notes|task_id output
                  |task_id error retry]; simpl in Hstep; cbn [op_task_id] in Hget.
    + destruct (decide (_get_blocking_dependencies (Some tl) task = [])) as [He|Hne].
      * destruct (start_task_started m tl task_id i task Hcur Hget He)
          as (m1 & task' & -> & _ & Hdir & Hrun).
        rewrite Hrun in Hstep. injection Hstep as <-.
        eexists. split; [apply save_current_list|]. simpl.
        intros j before after Hj Hj'.
        destruct (insert_lookup_cases _ _ _ _ _ _ _ Hi Hj Hj')
          as [(-> & -> & ->)|(Hne & ->)]; simpl.
        -- rewrite decide_True by done. simpl. lia.
        -- rewrite decide_False by congruence. lia.
      * rewrite (start_task_blocked m tl task_id i task Hcur Hget Hne) in Hstep.
        injection Hstep as <-.
        eexists. split; [apply save_current_list|]. simpl.
        intros j before after Hj Hj'.
        destruct (insert_lookup_cases _ _ _ _ _ _ _ Hi Hj Hj')
          as [(-> & -> & ->)|(Hne' & ->)]; simpl.
        -- rewrite decide_True by done. simpl. lia.
        -- rewrite decide_False by congruence. lia.
    + unfold update_checkpoint in Hstep. rewrite Hcur, Hget in Hstep.
      destruct (TaskCheckpoint.valid_progress p) eqn:Hp; [|done].
      simpl in Hstep. injection Hstep as <-.
      eexists. split; [apply save_current_list|]. simpl.
      intros j before after Hj Hj'.
      destruct (insert_lookup_cases _ _ _ _ _ _ _ Hi Hj Hj')
        as [(-> & -> & ->)|(Hne & ->)]; simpl.
      * rewrite decide_True by done. simpl. lia.
      * rewrite decide_False by congruence. lia.
    + unfold complete_task in Hstep. rewrite Hcur, Hget in Hstep.
      simpl in Hstep. injection Hstep as <-.
      eexists. split; [apply save_current_list|]. simpl.
      rewrite _update_blocked_tasks_map. simpl.
      intros j before after Hj Hj'. rewrite list_lookup_fmap in Hj'.
      destruct (<[i := _]> (TaskList.tasks tl) !! j) as [mid|] eqn:Hmid; [|done].
      simpl in Hj'. injection Hj' as <-.
      assert (Hun : ∀ x y, Task.retry_count (unblocked x y) = Task.retry_count y).
      { intros x y. unfold unblocked. by destruct (decide _). }
      rewrite Hun.
      destruct (insert_lookup_cases _ _ _ _ _ _ _ Hi Hj Hmid)
        as [(-> & -> & ->)|(Hne & ->)]; simpl.
      * rewrite decide_True by done. simpl. destruct (Task.started_at task); simpl; lia.
      * rewrite decide_False by congruence. lia.
    + unfold fail_task in Hstep. rewrite Hcur, Hget in Hstep.
      simpl in Hstep. injection Hstep as <-.
      eexists. split; [apply save_current_list|]. simpl.
      intros j before after Hj Hj'.
      destruct (insert_lookup_cases _ _ _ _ _ _ _ Hi Hj Hj')
        as [(-> & -> & ->)|(Hne & ->)]; simpl.
      * rewrite decide_True by done. rewrite bool_decide_eq_true_2 by done.
        by destruct (retry && _).
      * rewrite decide_False by congruence. lia.
  - pose proof (step_saves m m' o tl Hstep Hcur) as Hsame. rewrite Hget in Hsame.
    subst m'. exists tl. split; [done|]. intros j before after Hj Hj'. simpl.
    assert (after = before) as -> by congruence. lia.
Qed.

Lemma fail_task_never_raises (m : TaskManager) (tl : TaskList.t) (task_id error : string)
    (retry : bool) :
  _current_task_list m = Some tl →
  ∃ m' r, fail_task m task_id error retry = Ok (m', r).
Proof.
  intros Hcur. unfold fail_task. rewrite Hcur.
  destruct (_get_task (Some tl) task_id) as [[i task]|]; eauto.
Qed.

Lemma _get_task_kept (tl tl' : TaskList.t) (task_id : string) (i : nat)
    (before after : Task.t) :
  Forall2 kept (TaskList.tasks tl) (TaskList.tasks tl') →
  _get_task (Some tl) task_id = Some (i, before) →
  TaskList.tasks tl' !! i = Some after →
  _get_task (Some tl') task_id = Some (i, after).
Proof.
  intros Hkept Hget Hafter.
  assert (Hids : Task.id <$> TaskList.tasks tl = Task.id <$> TaskList.tasks tl').
  { clear Hget Hafter. induction Hkept as [|x y l l' [Hs _] _ IH]; [done|].
    rewrite !fmap_cons, IH. f_equal. by injection Hs. }
  pose proof (list_find_id_ext _ _ task_id Hids) as Hfind.
  unfold _get_task in *. rewrite Hget in Hfind. simpl in Hfind.
  destruct (list_find _ (TaskList.tasks tl')) as [[j found]|] eqn:Hfound; [|done].
  simpl in Hfind. injection Hfind as <-.
  apply list_find_Some in Hfound as (Hj & _). congruence.
Qed.

(** The retry count of a task is the number of [fail_task] calls on its
    id: in any sequence of calls each such call adds one and nothing takes
    one away; [start_task] does not give a task its retries back. *)
Theorem retry_count_counts_failures (m : TaskManager) (tl : TaskList.t)
    (ops : list op) (i : nat) (task : Task.t) :
  _current_task_list m = Some tl →
  _get_task (Some tl) (Task.id task) = Some (i, task) →
  ∃ tl' task',
    _current_task_list (run m ops) = Some tl' ∧
    TaskList.tasks tl' !! i = Some task' ∧
    Task.retry_count task'
    = (Task.retry_count task
       + Z.of_nat (length (filter (λ o, is_fail_of (Task.id task) o = true) ops)))%Z.
Proof.
  revert m tl task. induction ops as [|o ops IH]; intros m tl task Hcur Hget.
  - exists tl, task. split; [done|]. apply _get_task_Some in Hget as (Hi & _).
    split; [done|]. simpl. lia.
  - change (run m (o :: ops)) with (run (step_or_stay m o) ops). unfold step_or_stay.
    rewrite filter_cons.
    destruct (step m o) as [m'|e] eqn:Hstep.
    + destruct (step_retry_count m m' o tl Hstep Hcur) as (tl1 & Hcur1 & Hretry).
      pose proof (step_saves m m' o tl Hstep Hcur) as Hshape.
      assert (Hkept : Forall2 kept (TaskList.tasks tl) (TaskList.tasks tl1)).
      { destruct (_get_task (Some tl) (op_task_id o)) as [[k found]|].
        - destruct Hshape as (m1 & tl1' & -> & _ & _ & Hkept).
          rewrite save_current_list in Hcur1. injection Hcur1 as <-. done.
        - subst m'. assert (tl1 = tl) as -> by congruence.
          apply Forall_Forall2_diag, Forall_forall. intros. apply kept_refl. }
      pose proof Hget as Hfound. apply _get_task_Some in Hfound as (Hi & Hid & _).
      destruct (Forall2_lookup_l _ _ _ _ _ Hkept Hi) as (after & Hafter & Hs & _).
      assert (Hid' : Task.id after = Task.id task) by (by injection Hs).
      destruct (IH m' tl1 after Hcur1) as (tl' & task' & Hcur' & Hi' & Hcount).
      { rewrite Hid'. by eapply _get_task_kept. }
      exists tl', task'. split; [done|]. split; [done|].
      rewrite Hcount, Hid', (Hretry i task after Hi Hafter).
      destruct o as [x|x ? ? ? ? ? ?|x ?|x ? ?]; cbn [op_task_id is_fail_of];
        try (rewrite (decide_False (P := false = true)) by done;
             destruct (decide _); simpl; lia).
      destruct (decide (x = Task.id task)) as [->|Hne].
      * rewrite Hget. rewrite decide_True by done.
        rewrite bool_decide_eq_true_2 by done. rewrite decide_True by done.
        simpl. lia.
      * rewrite (bool_decide_eq_false_2 _ Hne).
        rewrite (decide_False (P := false = true)) by done.
        destruct (decide _) as [Hj|_]; [|lia].
        destruct (_get_task (Some tl) x) as [[k found]|] eqn:Hx; [|done].
        simpl in Hj. injection Hj as ->.
        apply _get_task_Some in Hx as (Hk & Hxid & _). congruence.
    + assert (Hno : is_fail_of (Task.id task) o = false).
      { destruct o as [x|x ? ? ? ? ? ?|x ?|x err retry]; try done.
        destruct (fail_task_never_raises m tl x err retry Hcur) as (m' & r & Hok).
        simpl in Hstep. by rewrite Hok in Hstep. }
      rewrite decide_False by (by rewrite Hno). exact (IH m tl task Hcur Hget).
Qed.

(** *** The listing and the list *)

Lemma forallb_status (s : TaskStatus.t) (tasks : list Task.t) :
  forallb (λ task, bool_decide (Task.status task = s)) tasks = true ↔
  Forall (λ task, Task.status task = s) tasks.
Proof.
  induction tasks as [|task tasks IH]; simpl.
  - split; [constructor|done].
  - rewrite andb_true_iff, Forall_cons, IH, bool_decide_eq_true. done.
Qed.

Lemma existsb_status (s : TaskStatus.t) (tasks : list Task.t) :
  existsb (λ task, bool_decide (Task.status task = s)) tasks = true ↔
  Exists (λ task, Task.status task = s) tasks.
Proof.
  induction tasks as [|task tasks IH]; simpl.
  - split; [done|by intros H%Exists_nil].
  - rewrite orb_true_iff, Exists_cons, IH, bool_decide_eq_true. done.
Qed.

(** The listing reads a saved document as the list reads itself: the row
    of a document written by [save] carries the id, the name and the
    [updated_at] of the list, its progress is the list's [progress_pct],
    and its status is ["empty"] for no task, ["completed"] when every task
    is completed, else ["in_progress"] when some task is in progress, else
    ["has_failures"] when some task has failed, else ["pending"] (so a list
    of completed and skipped tasks reads ["pending"]). *)
Theorem listing_row_of_saved_list (tl : TaskList.t) :
  let has s := Exists (λ task, Task.status task = s) (TaskList.tasks tl) in
  let all_completed :=
    Forall (λ task, Task.status task = TaskStatus.COMPLETED) (TaskList.tasks tl) in
  ∃ row,
    entry_of (Document (model_dump tl)) = Ok row ∧
    _calc_progress (model_dump tl) = Ok (TaskList.progress_pct tl) ∧
    e_id row = JStr (TaskList.id tl) ∧
    e_name row = JStr (TaskList.name tl) ∧
    e_updated_at row = JStr (isoformat (TaskList.updated_at tl)) ∧
    e_progress row = pretty (TaskList.progress_pct tl) +:+ "%" ∧
    (TaskList.tasks tl = [] → e_status row = "empty") ∧
    (TaskList.tasks tl ≠ [] → all_completed → e_status row = "completed") ∧
    (has TaskStatus.IN_PROGRESS → e_status row = "in_progress") ∧
    (¬ has TaskStatus.IN_PROGRESS → has TaskStatus.FAILED →
     e_status row = "has_failures") ∧
    (TaskList.tasks tl ≠ [] → ¬ all_completed → ¬ has TaskStatus.IN_PROGRESS →
     ¬ has TaskStatus.FAILED → e_status row = "pending").
Proof.
  intros has all_completed. exists (entry_for tl).
  split; [apply entry_of_dump|]. split; [apply _calc_progress_dump|].
  do 4 (split; [done|]). unfold entry_for, overall_status. cbn [e_status].
  assert (Hin : has TaskStatus.IN_PROGRESS → ¬ all_completed).
  { unfold has, all_completed. rewrite Exists_exists, Forall_forall.
    intros (task & Hin & Hst) Hall. specialize (Hall task Hin). congruence. }
  assert (Hfa : has TaskStatus.FAILED → ¬ all_completed).
  { unfold has, all_completed. rewrite Exists_exists, Forall_forall.
    intros (task & Hin' & Hst) Hall. specialize (Hall task Hin'). congruence. }
  unfold has, all_completed in *. clear has all_completed.
  destruct (TaskList.tasks tl) as [|task tasks] eqn:Htasks.
  { split; [done|]. split; [done|].
    split; [by intros H%Exists_nil|]. split; [by intros _ H%Exists_nil|done]. }
  cbv beta iota zeta. set (l := task :: tasks) in *.
  split; [done|].
  destruct (forallb _ l) eqn:Hall.
  { apply forallb_status in Hall.
    split; [done|]. split; [intros H; by destruct (Hin H)|].
    split; [intros _ H; by destruct (Hfa H)|]. intros _ H. by destruct H. }
  assert (Hnall : ¬ Forall (λ task, Task.status task = TaskStatus.COMPLETED) l).
  { intros H%forallb_status. congruence. }
  split; [intros _ H; by destruct Hnall|].
  destruct (existsb (λ task, bool_decide (Task.status task = TaskStatus.IN_PROGRESS)) l)
    eqn:Hprog.
  { apply existsb_status in Hprog. split; [done|].
    split; [intros H; by destruct H|]. intros _ _ H. by destruct H. }
  assert (Hnprog : ¬ Exists (λ task, Task.status task = TaskStatus.IN_PROGRESS) l).
  { intros H%existsb_status. congruence. }
  split; [intros H; by destruct Hnprog|].
  destruct (existsb (λ task, bool_decide (Task.status task = TaskStatus.FAILED)) l)
    eqn:Hfail.
  { apply existsb_status in Hfail. split; [done|]. intros _ _ _ H. by destruct H. }
  split; [|done]. intros _ H%existsb_status. congruence.
Qed.

(** *** The pipeline that [create_biddeed_task_list] builds *)

(** Whatever its arguments, [create_biddeed_task_list] returns a list
    (none of its three loops raises on the template) of twelve pending
    tasks with the ids [t01] to [t12] in template order.  Every id in a
    [depends_on] is the id of an earlier task of the list, so that no
    dependency is dangling or circular; [blocks] is the converse of
    [depends_on]; and the only task ready to start is the first one. *)
Theorem created_pipeline_is_well_formed (list_id : string) (created updated : datetime)
    (auction_date : string) (property_count : Z) (session_id : option string) :
  ∃ tl,
    create_biddeed_task_list list_id created updated auction_date property_count
      session_id = Ok tl ∧
    Task.id <$> TaskList.tasks tl
    = ["t01"; "t02"; "t03"; "t04"; "t05"; "t06"; "t07"; "t08"; "t09"; "t10"; "t11";
       "t12"] ∧
    Task.stage <$> TaskList.tasks tl = sd_stage <$> BIDDEED_PIPELINE_STAGES ∧
    Forall (λ task, Task.status task = TaskStatus.PENDING) (TaskList.tasks tl) ∧
    (∀ i task dep_id,
       TaskList.tasks tl !! i = Some task → dep_id ∈ Task.depends_on task →
       ∃ j dep, _get_task (Some tl) dep_id = Some (j, dep) ∧ j < i) ∧
    (∀ a b, a ∈ TaskList.tasks tl → b ∈ TaskList.tasks tl →
       Task.id b ∈ Task.blocks a ↔ Task.id a ∈ Task.depends_on b) ∧
    Task.id <$> _get_ready_tasks (Some tl) = ["t01"].
Proof.
  eexists. split; [vm_compute; reflexivity|].
  split; [reflexivity|]. split; [reflexivity|].
  split; [repeat constructor|].
  split; [|split; [|reflexivity]].
  - intros i task dep_id Hi Hdep. unfold _get_task.
    cbn [TaskList.tasks] in *.
    do 12 (destruct i as [|i];
           [injection Hi as <-; cbn [Task.depends_on] in Hdep;
            repeat (apply elem_of_cons in Hdep as [->|Hdep]);
            first [by apply elem_of_nil in Hdep
                  |eexists _, _; split; [vm_compute; reflexivity|lia]]|]).
    done.
  - cbn [TaskList.tasks].
    match goal with
    | |- ∀ a b, a ∈ ?l → b ∈ ?l → _ =>
        assert (Hall : Forall (λ a, Forall (λ b, Task.id b ∈ Task.blocks a
                                                ↔ Task.id a ∈ Task.depends_on b) l) l)
          by (apply (bool_decide_unpack _); vm_compute; exact I)
    end.
    intros a b Ha Hb. rewrite Forall_forall in Hall. specialize (Hall a Ha).
    rewrite Forall_forall in Hall. exact (Hall b Hb).
Qed.

(** *** Recovery after any run *)

Section Recovery.
Hypothesis fromisoformat_isoformat : ∀ d, fromisoformat (isoformat d) = Some d.

Lemma load_persisted (f : factories) (m m2 : TaskManager) (tl : TaskList.t) :
  valid_task_list tl →
  tasks_dir m !! TaskList.id tl = Some (Document (model_dump tl)) →
  tasks_dir m2 = tasks_dir m →
  load f m2 (TaskList.id tl) = Ok (set_current (Some tl) m2, Some tl).
Proof using fromisoformat_isoformat.
  intros Hvalid Hfile Hdir. unfold load. rewrite Hdir, Hfile.
  pose proof (parse_dump_task_list fromisoformat_isoformat f tl Hvalid) as Hparse.
  simpl in Hparse |- *. by rewrite Hparse.
Qed.




(** *** The list that [resume] picks *)







(** *** The command line *)



(** On a directory without files: [list] says so and returns 0, [status]
    and [resume] say so and return 1, and [start], [checkpoint] and [fail]
    do not return: the [ValueError] of the engine leaves [main]. *)
Theorem main_on_an_empty_directory (f : factories) (dir : string) (ticks0 : nat)
    (task_id error : string) (as_json no_retry : bool) (progress completed total : Z)
    (item : option string) :
  let m := fresh_manager ∅ ticks0 in
  main f dir ∅ ticks0 (Some (CmdList false)) = Ok (m, ["No task lists found"], 0%Z) ∧
  main f dir ∅ ticks0 (Some (CmdStatus None as_json))
  = Ok (m, ["No task lists found"], 1%Z) ∧
  main f dir ∅ ticks0 (Some (CmdResume None))
  = Ok (m, ["❌ No task lists found"], 1%Z) ∧
  main f dir ∅ ticks0 (Some (CmdStart task_id None))
  = Raise (ValueError "No task list loaded") ∧
  main f dir ∅ ticks0 (Some (CmdCheckpoint task_id progress item completed total None
                               None))
  = Raise (ValueError "No task list loaded") ∧
  main f dir ∅ ticks0 (Some (CmdFail task_id error no_retry None))
  = Raise (ValueError "No task list loaded").
Proof using Type.
  assert (Hlist : list_task_lists (fresh_manager ∅ ticks0) = Ok []).
  { unfold list_task_lists. simpl. by rewrite map_to_list_empty. }
  intros m. unfold main, load_selected, resume. simpl. rewrite Hlist. done.
Qed.

(** [ssot checkpoint] on a task id that the loaded list does not have
    prints that the checkpoint was saved and returns 0, although nothing
    was written: the directory is as before, whatever the progress is. *)
Theorem main_checkpoint_unknown_task (f : factories) (dir : string)
    (files : gmap string file) (ticks0 : nat) (task_id : string) (progress : Z)
    (item : option string) (completed total : Z) (context : option string)
    (task_list_id : option string) (m1 : TaskManager) (tl : TaskList.t) :
  load_selected f (fresh_manager files ticks0) task_list_id = Ok m1 →
  _current_task_list m1 = Some tl →
  (∀ task, task ∈ TaskList.tasks tl → Task.id task ≠ task_id) →
  (∀ text, given context = Some text → is_Some (json_loads text)) →
  main f dir files ticks0
    (Some (CmdCheckpoint task_id progress item completed total context task_list_id))
  = Ok (m1, ["💾 Checkpoint saved: " +:+ task_id +:+ " at " +:+ pretty progress +:+ "%"],
        0%Z) ∧
  tasks_dir m1 = files.
Proof using Type.
  intros Hload Hcur Hnone Hjson. apply _get_task_None in Hnone.
  assert (Hdir : tasks_dir m1 = files).
  { unfold load_selected in Hload.
    assert (Hl : ∀ m id m', fst <$> load f m id = Ok m' → tasks_dir m' = tasks_dir m).
    { intros m id m' H. destruct (load f m id) as [[m2 r]|] eqn:Hl; [|done].
      simpl in H. injection H as <-. by apply load_result in Hl as [? _]. }
    destruct (given task_list_id); [by apply Hl in Hload|].
    destruct (list_task_lists _) as [[|first rows]|]; simpl in Hload;
      [by injection Hload as <-| |done].
    destruct (truthy (e_id first)); [by apply Hl in Hload|by injection Hload as <-]. }
  split; [|done]. unfold main. rewrite Hload.
  assert (Hupd : ∀ c, update_checkpoint_json m1 task_id progress item completed total c
                      = Ok m1).
  { intros c. unfold update_checkpoint_json, update_checkpoint.
    rewrite Hcur, Hnone. destruct c as [[]|]; try done; by destruct (truthy _). }
  destruct (given context) as [text|] eqn:Hctx; cbn -[update_checkpoint_json].
  - destruct (Hjson text eq_refl) as [j ->]. cbn -[update_checkpoint_json].
    by rewrite Hupd.
  - by rewrite Hupd.
Qed.


Lemma created_list_facts (list_id : string) (created updated u : datetime)
    (auction_date : string) (property_count : Z) (session_id : option string) :
  ∃ tl,
    create_biddeed_task_list list_id created updated auction_date property_count
      session_id = Ok tl ∧
    TaskList.id tl = list_id ∧
    valid_task_list (TaskList.set_updated_at u tl) ∧
    TaskList.last_active_task_id tl = None ∧
    list_find (λ task, Task.status task = TaskStatus.IN_PROGRESS) (TaskList.tasks tl)
    = None ∧
    Task.id <$> _get_ready_tasks (Some (TaskList.set_updated_at u tl)) = ["t01"] ∧
    TaskList.progress_pct (TaskList.set_updated_at u tl) = 0%Z.
Proof using Type.
  eexists. split; [vm_compute; reflexivity|].
  split; [reflexivity|]. split; [repeat constructor; intros c [=]|].
  split; [reflexivity|]. split; [vm_compute; reflexivity|].
  split; vm_compute; reflexivity.
Qed.

(** A pipeline that was just created can be resumed.  After
    [create_biddeed_pipeline], a manager started on the same directory
    that calls [resume] on the id of the new list gets the list that
    [create_biddeed_pipeline] returned, with no task to resume, no
    checkpoint, a progress of 0, and the first stage as the only task that
    is ready to start. *)
Theorem created_pipeline_resumes (f : factories) (m : TaskManager)
    (list_id auction_date : string) (property_count : Z)
    (session_id : option string) :
  list_id ≠ "" →
  ∃ m0 tl0,
    create_biddeed_pipeline m list_id auction_date property_count session_id
    = Ok (m0, tl0) ∧
    ∀ m2, tasks_dir m2 = tasks_dir m0 →
      ∃ bundle,
        resume f m2 (Some list_id) = Ok (set_current (Some tl0) m2, Resumed bundle) ∧
        task_list bundle = tl0 ∧
        resume_task bundle = None ∧
        checkpoint bundle = None ∧
        Task.id <$> next_tasks bundle = ["t01"] ∧
        progress bundle = 0%Z.
Proof using fromisoformat_isoformat.
  intros Hid. unfold create_biddeed_pipeline.
  destruct (match given session_id with
            | Some s => (s, m) | None => _generate_session_id m end)
    as [session m1].
  unfold now. cbn -[create_biddeed_task_list].
  destruct (created_list_facts list_id (clock (ticks m1)) (clock (S (ticks m1)))
              (clock (S (S (ticks m1)))) auction_date property_count (Some session))
    as (tl & -> & Htl & Hvalid & Hlast & Hfind & Hready & Hzero).
  simpl. eexists _, _. split; [reflexivity|].
  set (tl0 := TaskList.set_updated_at (clock (S (S (ticks m1)))) tl) in *.
  intros m2 Hdir.
  assert (Hload : load f m2 list_id = Ok (set_current (Some tl0) m2, Some tl0)).
  { rewrite <- Htl.
    apply (load_persisted f (set_current (Some tl0)
             {| tasks_dir := <[TaskList.id tl0 := Document (model_dump tl0)]>
                               (tasks_dir m1);
                _current_task_list := _current_task_list m1;
                ticks := S (S (S (ticks m1))) |}) m2 tl0 Hvalid);
      [apply lookup_insert_eq|exact Hdir]. }
  unfold resume, given. rewrite (proj2 (String.eqb_neq _ _) Hid).
  unfold resume_list. rewrite Hload. cbn -[_get_ready_tasks TaskList.progress_pct].
  change (TaskList.last_active_task_id tl0) with (TaskList.last_active_task_id tl).
  change (TaskList.tasks tl0) with (TaskList.tasks tl).
  rewrite Hlast, Hfind. cbn -[_get_ready_tasks TaskList.progress_pct].
  eexists. split; [reflexivity|]. cbn -[_get_ready_tasks TaskList.progress_pct].
  by rewrite Hready, Hzero.
Qed.

End Recovery.

End Engine.

(** ** Progress in double precision

    [progress_pct] is [int((completed / len(tasks)) * 100)]: a division and
    a multiplication of binary64 floats, each rounded to nearest, and a
    truncation.  The roundings are followed on the reals. *)

Section DoublePrecision.
Local Open Scope R_scope.

(** *** Shifting with round and sticky bits *)

Lemma IZR_xO p : IZR (Zpos p~0) = 2 * IZR (Zpos p).
Proof. rewrite Pos2Z.inj_xO, mult_IZR. reflexivity. Qed.

Lemma IZR_xI p : IZR (Zpos p~1) = 2 * IZR (Zpos p) + 1.
Proof. rewrite Pos2Z.inj_xI, plus_IZR, mult_IZR. reflexivity. Qed.

(** One shift to the right halves the real and keeps it located. *)
Lemma shr_1_located X mrs : located X mrs → located (X / 2) (shr_1 mrs).
Proof.
  destruct mrs as [m r s]. unfold located. simpl.
  intros (Hm & Hf & Hr0 & Hr1 & Hs0 & Hs1).
  destruct m as [|[p|p|]|p]; try lia; simpl;
    try rewrite (IZR_xO p) in *; try rewrite (IZR_xI p) in *;
    (split; [lia|]);
    destruct r, s; simpl;
    repeat match goal with
           | H : ?a = ?a -> _ |- _ => specialize (H eq_refl)
           | H : true = false -> _ |- _ => clear H
           | H : false = true -> _ |- _ => clear H
           end;
    repeat split; intros; try discriminate; try lra.
Qed.

Lemma powerRZ_xO p : powerRZ 2 (Zpos p~0) = powerRZ 2 (Zpos p) * powerRZ 2 (Zpos p).
Proof.
  replace (Zpos p~0) with (Zpos p + Zpos p)%Z by lia.
  apply powerRZ_add. lra.
Qed.

Lemma powerRZ_xI p :
  powerRZ 2 (Zpos p~1) = 2 * (powerRZ 2 (Zpos p) * powerRZ 2 (Zpos p)).
Proof.
  replace (Zpos p~1) with (1 + (Zpos p + Zpos p))%Z by lia.
  rewrite !powerRZ_add by lra. rewrite powerRZ_1. reflexivity.
Qed.

Lemma iter_pos_located p : ∀ X mrs,
  located X mrs → located (X / powerRZ 2 (Zpos p)) (SpecFloat.iter_pos shr_1 p mrs).
Proof.
  induction p as [p IH|p IH|]; intros X mrs H; simpl SpecFloat.iter_pos.
  - replace (X / powerRZ 2 (Zpos p~1))
      with (X / 2 / powerRZ 2 (Zpos p) / powerRZ 2 (Zpos p)).
    + apply IH, IH, shr_1_located, H.
    + rewrite powerRZ_xI. pose proof (powerRZ_lt 2 (Zpos p)). field. lra.
  - replace (X / powerRZ 2 (Zpos p~0))
      with (X / powerRZ 2 (Zpos p) / powerRZ 2 (Zpos p)).
    + apply IH, IH, H.
    + rewrite powerRZ_xO. pose proof (powerRZ_lt 2 (Zpos p)). field. lra.
  - rewrite powerRZ_1. apply shr_1_located, H.
Qed.

(** Rounding to nearest, ties to even, moves a located real by at most
    one half. *)
Lemma round_nearest_even_located X mrs :
  located X mrs →
  let m1 := round_nearest_even (shr_m mrs) (loc_of_shr_record mrs) in
  (m1 = shr_m mrs ∨ m1 = (shr_m mrs + 1)%Z) ∧ Rabs (IZR m1 - X) <= 1/2.
Proof.
  destruct mrs as [m r s]. unfold located. simpl.
  intros (Hm & Hf & Hr0 & Hr1 & Hs0 & Hs1).
  destruct r, s; simpl;
    repeat match goal with
           | H : ?a = ?a -> _ |- _ => specialize (H eq_refl)
           | H : true = false -> _ |- _ => clear H
           | H : false = true -> _ |- _ => clear H
           end.
  - split; [auto|]. rewrite plus_IZR. apply Rabs_le. lra.
  - destruct (Z.even m); (split; [auto|]); rewrite ?plus_IZR; apply Rabs_le; lra.
  - split; [auto|]. apply Rabs_le. lra.
  - split; [auto|]. apply Rabs_le. lra.
Qed.

(** *** Powers of two *)

Lemma pw_pos e : 0 < pw e.
Proof. apply powerRZ_lt. lra. Qed.

Lemma pw_add a b : pw (a + b) = pw a * pw b.
Proof. apply powerRZ_add. lra. Qed.

Lemma pw_0 : pw 0 = 1.
Proof. reflexivity. Qed.

Lemma pw_1 : pw 1 = 2.
Proof. apply powerRZ_1. Qed.

Lemma pw_succ e : pw (e + 1) = 2 * pw e.
Proof. rewrite pw_add, pw_1. ring. Qed.

Lemma pw_ge_1 e : (0 <= e)%Z → 1 <= pw e.
Proof.
  intros He. destruct e as [|p|p]; [rewrite pw_0; lra| |lia].
  unfold pw. simpl. apply pow_R1_Rle. lra.
Qed.

Lemma pw_le a b : (a <= b)%Z → pw a <= pw b.
Proof.
  intros H. replace b with (a + (b - a))%Z by lia. rewrite pw_add.
  pose proof (pw_pos a). pose proof (pw_ge_1 (b - a) ltac:(lia)). nra.
Qed.

Lemma pw_lt a b : (a < b)%Z → pw a < pw b.
Proof.
  intros H. replace b with (b - 1 + 1)%Z by lia. rewrite pw_succ.
  pose proof (pw_le a (b - 1) ltac:(lia)). pose proof (pw_pos a). lra.
Qed.

Lemma pw_pos_IZR p : pw (Zpos p) = IZR (Z.pow_pos 2 p).
Proof. symmetry. apply Zpower_pos_powerRZ. Qed.

(** *** The number of binary digits *)

Lemma digits2_pos_bounds p :
  pw (Zpos (digits2_pos p) - 1) <= IZR (Zpos p) < pw (Zpos (digits2_pos p)).
Proof.
  induction p as [p IH|p IH|]; simpl digits2_pos.
  - rewrite Pos2Z.inj_succ. rewrite (IZR_xI p).
    replace (Z.succ (Zpos (digits2_pos p)) - 1)%Z with (Zpos (digits2_pos p) - 1 + 1)%Z by lia.
    unfold Z.succ. rewrite !pw_succ.
    assert (IZR (Zpos p) + 1 <= pw (Zpos (digits2_pos p))).
    { rewrite pw_pos_IZR in *. rewrite <- plus_IZR. apply IZR_le.
      destruct IH as [_ IH]. apply lt_IZR in IH. lia. }
    lra.
  - rewrite Pos2Z.inj_succ. rewrite (IZR_xO p).
    replace (Z.succ (Zpos (digits2_pos p)) - 1)%Z with (Zpos (digits2_pos p) - 1 + 1)%Z by lia.
    unfold Z.succ. rewrite !pw_succ. lra.
  - change (pw 0 <= IZR 1 < pw 1). rewrite pw_0, pw_1. lra.
Qed.

Lemma digits2_pos_unique p d :
  pw (d - 1) <= IZR (Zpos p) < pw d → Zpos (digits2_pos p) = d.
Proof.
  intros [Hlo Hhi]. destruct (digits2_pos_bounds p) as [Hlo' Hhi'].
  destruct (Z.lt_trichotomy (Zpos (digits2_pos p)) d) as [Hlt|[Heq|Hgt]]; [|exact Heq|].
  - pose proof (pw_le (Zpos (digits2_pos p)) (d - 1) ltac:(lia)). lra.
  - pose proof (pw_le d (Zpos (digits2_pos p) - 1) ltac:(lia)). lra.
Qed.

Lemma emin_64 : emin 53 1024 = (-1074)%Z.
Proof. reflexivity. Qed.

(** The first shift of [binary_round_aux]. *)
Lemma shr_fexp_located (mx : positive) (ex : Z) (lx : location) (X : R) :
  let d := Zpos (digits2_pos mx) in
  (53 <= d)%Z → (-1074 <= d + ex - 53)%Z →
  located X (shr_record_of_loc (Zpos mx) lx) →
  ∃ mrs,
    shr_fexp 53 1024 (Zpos mx) ex lx = (mrs, (ex + (d - 53))%Z) ∧
    located (X / pw (d - 53)) mrs.
Proof.
  intros d Hd Hrange Hloc. unfold shr_fexp, fexp. rewrite emin_64.
  change (Zdigits2 (Zpos mx)) with d.
  rewrite Z.max_l by lia.
  replace (d + ex - 53 - ex)%Z with (d - 53)%Z by lia.
  destruct (d - 53)%Z as [|p|p] eqn:Hk; [| |lia].
  - exists (shr_record_of_loc (Zpos mx) lx). split.
    + unfold shr. f_equal. lia.
    + rewrite pw_0. replace (X / 1) with X by field. exact Hloc.
  - exists (SpecFloat.iter_pos shr_1 p (shr_record_of_loc (Zpos mx) lx)). split.
    + reflexivity.
    + apply iter_pos_located, Hloc.
Qed.

(** *** One rounding to 53 bits *)

Lemma shr_m_of_loc m l : shr_m (shr_record_of_loc m l) = m.
Proof. destruct l as [|[]]; reflexivity. Qed.

Lemma pw_52 : pw 52 = IZR 4503599627370496.
Proof. rewrite pw_pos_IZR. reflexivity. Qed.

Lemma pw_53 : pw 53 = IZR 9007199254740992.
Proof. rewrite pw_pos_IZR. reflexivity. Qed.

Lemma pw_m53_52 : pw (-53) * pw 52 = / 2.
Proof.
  rewrite <- pw_add. change (-53 + 52)%Z with (- (1))%Z. unfold pw.
  rewrite powerRZ_neg', powerRZ_1. reflexivity.
Qed.

Lemma located_exact m : (0 <= m)%Z → located (IZR m) (Build_shr_record m false false).
Proof.
  intros Hm. unfold located. simpl. replace (IZR m - IZR m) with 0 by ring.
  repeat split; intros; try discriminate; try lia; lra.
Qed.

(** A mantissa of at least 53 bits, in the normal range, rounds to a
    53-bit mantissa; the error is at most [2^-53] of the result. *)
Lemma binary_round_aux_spec (mx : positive) (ex : Z) (lx : location) (X : R) :
  let d := Zpos (digits2_pos mx) in
  (53 <= d)%Z → (-1074 <= d + ex - 53)%Z → (d + ex - 53 < 971)%Z →
  located X (shr_record_of_loc (Zpos mx) lx) →
  ∃ m e,
    binary_round_aux 53 1024 false (Zpos mx) ex lx = S754_finite false m e ∧
    Zpos (digits2_pos m) = 53%Z ∧
    (ex + (d - 53) <= e <= ex + (d - 53) + 1)%Z ∧
    Rabs (F2R m e - X * pw ex) <= pw (-53) * F2R m e.
Proof.
  intros d Hd Hlo Hhi Hloc.
  destruct (shr_fexp_located mx ex lx X Hd Hlo Hloc) as (mrs & Hshr & Hloc').
  fold d in Hshr, Hloc'.
  unfold binary_round_aux. rewrite Hshr.
  set (k := (d - 53)%Z) in *. set (e' := (ex + k)%Z) in *.
  destruct (round_nearest_even_located _ _ Hloc') as [Hm1 Herr].
  set (m1 := round_nearest_even (shr_m mrs) (loc_of_shr_record mrs)) in *.
  set (Y := X / pw k) in *.
  (* the exact value lies between the powers of two of its digits *)
  assert (HX : IZR (Zpos mx) <= X < IZR (Zpos mx) + 1).
  { destruct Hloc as (_ & Hf & _). rewrite shr_m_of_loc in Hf. lra. }
  assert (Hdig : pw (d - 1) <= IZR (Zpos mx) /\ IZR (Zpos mx) + 1 <= pw d).
  { destruct (digits2_pos_bounds mx) as [H1 H2]. fold d in H1, H2. split; [exact H1|].
    unfold d in *. rewrite pw_pos_IZR in *. rewrite <- plus_IZR. apply IZR_le.
    apply lt_IZR in H2. lia. }
  assert (HY : pw 52 <= Y < pw 53).
  { pose proof (pw_pos k) as Hk. unfold Y.
    replace (d - 1)%Z with (52 + k)%Z in Hdig by (unfold k; lia).
    replace d with (53 + k)%Z in Hdig by (unfold k; lia).
    rewrite !pw_add in Hdig. split.
    - apply Rmult_le_reg_r with (pw k); [exact Hk|].
      replace (X / pw k * pw k) with X by (field; lra). lra.
    - apply Rmult_lt_reg_r with (pw k); [exact Hk|].
      replace (X / pw k * pw k) with X by (field; lra). lra. }
  assert (Hm' : (4503599627370496 <= shr_m mrs <= 9007199254740991)%Z).
  { destruct Hloc' as (_ & Hf & _). fold Y in Hf. rewrite pw_52, pw_53 in HY. split.
    - assert (IZR (4503599627370496 - 1) < IZR (shr_m mrs)) as H
        by (rewrite minus_IZR; lra).
      apply lt_IZR in H. lia.
    - assert (IZR (shr_m mrs) < IZR 9007199254740992) as H by lra.
      apply lt_IZR in H. lia. }
  assert (Hm1' : (4503599627370496 <= m1 <= 9007199254740992)%Z) by lia.
  assert (Hval : Rabs (IZR m1 * pw e' - X * pw ex) <= pw (-53) * (IZR m1 * pw e')).
  { pose proof (pw_pos e') as He'. pose proof (pw_pos k) as Hk.
    assert (Hx : X * pw ex = Y * pw e').
    { unfold Y, e'. rewrite pw_add. field. lra. }
    rewrite Hx. replace (IZR m1 * pw e' - Y * pw e') with ((IZR m1 - Y) * pw e') by ring.
    rewrite Rabs_mult, (Rabs_pos_eq (pw e')) by lra.
    assert (IZR 4503599627370496 <= IZR m1) as Hge by (apply IZR_le; lia).
    rewrite <- pw_52 in Hge. pose proof pw_m53_52 as Hhalf.
    pose proof (pw_pos (-53)) as Hu.
    assert (pw (-53) * pw 52 <= pw (-53) * IZR m1) by nra.
    assert (Rabs (IZR m1 - Y) * pw e' <= / 2 * pw e') by (apply Rmult_le_compat_r; lra).
    assert (/ 2 * pw e' <= pw (-53) * IZR m1 * pw e') by (apply Rmult_le_compat_r; lra).
    lra. }
  destruct m1 as [|p1|p1] eqn:Hp1; [lia| |lia].
  destruct (Z.eq_dec (Zpos p1) 9007199254740992%Z) as [Heq|Hne].
  - (* the rounding carried into a 54th bit *)
    injection Heq as ->.
    exists 4503599627370496%positive, (e' + 1)%Z.
    unfold shr_fexp, fexp. rewrite emin_64.
    change (Zdigits2 9007199254740992%Z) with 54%Z.
    rewrite Z.max_l by (unfold e', k; lia).
    replace (54 + e' - 53 - e')%Z with 1%Z by lia.
    simpl. rewrite (proj2 (Z.leb_le _ _)) by (unfold e', k; lia).
    split; [reflexivity|]. split; [reflexivity|]. split; [unfold e'; lia|].
    unfold F2R. rewrite pw_succ.
    replace (IZR 4503599627370496 * (2 * pw e')) with (IZR 9007199254740992 * pw e').
    + exact Hval.
    + replace (IZR 9007199254740992) with (IZR 4503599627370496 * 2).
      * ring.
      * rewrite <- mult_IZR. reflexivity.
  - exists p1, e'.
    assert (Hd1 : Zpos (digits2_pos p1) = 53%Z).
    { apply digits2_pos_unique. change (53 - 1)%Z with 52%Z. rewrite pw_52, pw_53.
      split; [apply IZR_le; lia|apply IZR_lt; lia]. }
    unfold shr_fexp, fexp. rewrite emin_64.
    change (Zdigits2 (Zpos p1)) with (Zpos (digits2_pos p1)). rewrite Hd1.
    rewrite Z.max_l by (unfold e', k; lia).
    replace (53 + e' - 53 - e')%Z with 0%Z by lia.
    simpl. rewrite (proj2 (Z.leb_le _ _)) by (unfold e', k; lia).
    split; [reflexivity|]. split; [reflexivity|]. split; [unfold e'; lia|].
    exact Hval.
Qed.

(** A mantissa of exactly 53 bits is returned as it is. *)
Lemma binary_round_aux_exact (mx : positive) (ex : Z) :
  Zpos (digits2_pos mx) = 53%Z → (-1074 <= ex <= 971)%Z →
  binary_round_aux 53 1024 false (Zpos mx) ex loc_Exact = S754_finite false mx ex.
Proof.
  intros Hd He. unfold binary_round_aux, shr_fexp, fexp. rewrite emin_64.
  change (Zdigits2 (Zpos mx)) with (Zpos (digits2_pos mx)). rewrite Hd.
  rewrite Z.max_l by lia. replace (53 + ex - 53 - ex)%Z with 0%Z by lia.
  unfold shr at 1. cbv beta iota. simpl shr_m. simpl loc_of_shr_record.
  simpl round_nearest_even.
  change (Zdigits2 (Zpos mx)) with (Zpos (digits2_pos mx)). rewrite Hd.
  rewrite Z.max_l by lia.
  replace (53 + ex - 53 - ex)%Z with 0%Z by lia. unfold shr. cbv beta iota.
  simpl shr_m. rewrite (proj2 (Z.leb_le _ _)) by lia. reflexivity.
Qed.

(** *** Integers as floats *)

(** Shifting a mantissa to the left. *)
Lemma iter_xO_digits (p d : positive) :
  Zpos (digits2_pos (Pos.iter xO p d)) = (Zpos (digits2_pos p) + Zpos d)%Z ∧
  IZR (Zpos (Pos.iter xO p d)) = IZR (Zpos p) * pw (Zpos d).
Proof.
  induction d as [|d IH] using Pos.peano_ind.
  - change (Pos.iter xO p 1) with (p~0)%positive. simpl digits2_pos.
    rewrite Pos2Z.inj_succ, (IZR_xO p), pw_1. split; [lia|ring].
  - rewrite Pos.iter_succ. destruct IH as [IH1 IH2]. simpl digits2_pos.
    rewrite Pos2Z.inj_succ, IH1, (IZR_xO (Pos.iter xO p d)), IH2.
    rewrite Pos2Z.inj_succ. unfold Z.succ. rewrite pw_succ. split; [lia|ring].
Qed.

(** [float(z)] for an integer below [2^53] is exact. *)
Lemma float_of_pos (p : positive) :
  (Zpos p < 9007199254740992)%Z →
  ∃ m e,
    binary_normalize 53 1024 (Zpos p) 0 false = S754_finite false m e ∧
    Zpos (digits2_pos m) = 53%Z ∧
    e = (Zpos (digits2_pos p) - 53)%Z ∧ (-52 <= e <= 0)%Z ∧
    F2R m e = IZR (Zpos p).
Proof.
  intros Hp.
  assert (Hd : (Zpos (digits2_pos p) <= 53)%Z).
  { destruct (digits2_pos_bounds p) as [Hlo _].
    destruct (Z_le_gt_dec (Zpos (digits2_pos p)) 53) as [|Hgt]; [assumption|].
    pose proof (pw_le 53 (Zpos (digits2_pos p) - 1) ltac:(lia)) as H.
    rewrite pw_53 in H. apply IZR_lt in Hp. lra. }
  unfold binary_normalize, binary_round, fexp. rewrite emin_64.
  rewrite Z.max_l by lia. unfold shl_align.
  replace (Zpos (digits2_pos p) + 0 - 53 - 0)%Z with (Zpos (digits2_pos p) - 53)%Z by lia.
  destruct (Zpos (digits2_pos p) - 53)%Z as [|k|k] eqn:Hk; [|lia|].
  - exists p, 0%Z. rewrite binary_round_aux_exact by lia.
    split; [reflexivity|]. split; [lia|]. split; [lia|]. split; [lia|].
    unfold F2R. change (powerRZ 2 0) with 1. ring.
  - destruct (iter_xO_digits p k) as [Hdig Hval].
    exists (Pos.iter xO p k), (Zpos (digits2_pos p) + 0 - 53)%Z.
    rewrite binary_round_aux_exact by lia.
    split; [reflexivity|]. split; [lia|]. split; [lia|]. split; [lia|].
    unfold F2R. rewrite Hval. fold (pw (Zpos (digits2_pos p) + 0 - 53)).
    replace (Zpos (digits2_pos p) + 0 - 53)%Z with (- Zpos k)%Z by lia.
    rewrite Rmult_assoc, <- pw_add. replace (Zpos k + - Zpos k)%Z with 0%Z by lia.
    rewrite pw_0. ring.
Qed.

(** *** Division and multiplication *)

Lemma Rdiv_lt_l a b c : 0 < b → a < c * b → a / b < c.
Proof.
  intros Hb H. apply Rmult_lt_reg_r with b; [lra|].
  replace (a / b * b) with a by (field; lra). lra.
Qed.

Lemma Rdiv_lt_r a b c : 0 < b → c * b < a → c < a / b.
Proof.
  intros Hb H. apply Rmult_lt_reg_r with b; [lra|].
  replace (a / b * b) with a by (field; lra). lra.
Qed.

Lemma Rdiv_le_l a b c : 0 < b → a <= c * b → a / b <= c.
Proof.
  intros Hb H. apply Rmult_le_reg_r with b; [lra|].
  replace (a / b * b) with a by (field; lra). lra.
Qed.

Lemma Rdiv_le_r a b c : 0 < b → c * b <= a → c <= a / b.
Proof.
  intros Hb H. apply Rmult_le_reg_r with b; [lra|].
  replace (a / b * b) with a by (field; lra). lra.
Qed.

(** The location that [SFdiv] computes from the remainder is that of the
    exact quotient. *)
Lemma new_location_located (nb k q : Z) :
  (0 < nb)%Z → (0 <= k < nb)%Z → (0 <= q)%Z →
  located (IZR q + IZR k / IZR nb) (shr_record_of_loc q (new_location nb k)).
Proof.
  intros Hnb Hk Hq.
  assert (Hnb' : 0 < IZR nb) by (apply IZR_lt; lia).
  assert (Hk0 : 0 <= IZR k) by (apply IZR_le; lia).
  assert (Hk1 : IZR k < IZR nb) by (apply IZR_lt; lia).
  assert (Hf : 0 <= IZR k / IZR nb < 1).
  { split; [apply Rdiv_le_r|apply Rdiv_lt_l]; lra. }
  assert (Hlt : (2 * k < nb)%Z -> IZR k / IZR nb < 1 / 2).
  { intros Hc. apply IZR_lt in Hc. rewrite mult_IZR in Hc. apply Rdiv_lt_l; lra. }
  assert (Heq : (2 * k = nb)%Z -> IZR k / IZR nb = 1 / 2).
  { intros Hc. apply (f_equal IZR) in Hc. rewrite mult_IZR in Hc.
    apply Rle_antisym; [apply Rdiv_le_l|apply Rdiv_le_r]; lra. }
  assert (Hgt : (nb < 2 * k)%Z -> 1 / 2 < IZR k / IZR nb).
  { intros Hc. apply IZR_lt in Hc. rewrite mult_IZR in Hc. apply Rdiv_lt_r; lra. }
  assert (Hloc : forall l,
    (l = loc_Exact -> k = 0%Z) ->
    (l = loc_Inexact Lt -> (2 * k < nb)%Z) ->
    (l = loc_Inexact Eq -> (2 * k = nb)%Z) ->
    (l = loc_Inexact Gt -> (nb < 2 * k)%Z) ->
    located (IZR q + IZR k / IZR nb) (shr_record_of_loc q l)).
  { intros l H0 H1 H2 H3. unfold located.
    destruct l as [|[| |]]; simpl;
      [specialize (H0 eq_refl); subst k;
       replace (IZR q + 0 / IZR nb - IZR q) with 0 by (field; lra)
      |pose proof (Heq (H2 eq_refl));
       replace (IZR q + IZR k / IZR nb - IZR q) with (IZR k / IZR nb) by ring
      |pose proof (Hlt (H1 eq_refl));
       replace (IZR q + IZR k / IZR nb - IZR q) with (IZR k / IZR nb) by ring
      |pose proof (Hgt (H3 eq_refl));
       replace (IZR q + IZR k / IZR nb - IZR q) with (IZR k / IZR nb) by ring];
      repeat split; intros; try discriminate; try lia; lra. }
  apply Hloc; unfold new_location, new_location_even, new_location_odd;
    change (IntDef.Z.even nb) with (Z.even nb);
    destruct (Z.even nb) eqn:Heven;
    change (IntDef.Z.eqb k 0) with (Z.eqb k 0);
    change (IntDef.Z.compare (IntDef.Z.mul 2 k) nb) with (Z.compare (2 * k) nb);
    change (IntDef.Z.compare (IntDef.Z.add (IntDef.Z.mul 2 k) 1) nb)
      with (Z.compare (2 * k + 1) nb);
    destruct (Z.eqb_spec k 0) as [Hk0'|Hk0']; try discriminate; try (intros; assumption);
    try (destruct (Z.compare_spec (2 * k) nb); intros; try discriminate; lia);
    try (assert (2 * k <> nb)%Z
           by (intros <-; rewrite Z.even_mul in Heven; discriminate);
         destruct (Z.compare_spec (2 * k + 1) nb); intros; try discriminate; lia).
Qed.

Lemma SFdiv_core_binary_53 (m1 m2 : positive) (e1 e2 : Z) :
  Zpos (digits2_pos m1) = 53%Z → Zpos (digits2_pos m2) = 53%Z →
  (-100 <= e1 <= 100)%Z → (-100 <= e2 <= 100)%Z →
  SFdiv_core_binary 53 1024 (Zpos m1) e1 (Zpos m2) e2
  = (let '(q, r) := Z.div_eucl (Zpos m1 * 9007199254740992) (Zpos m2) in
     (q, (e1 - e2 - 53)%Z, new_location (Zpos m2) r)).
Proof.
  intros H1 H2 He1 He2. unfold SFdiv_core_binary, fexp. rewrite emin_64.
  change (Zdigits2 (Zpos m1)) with (Zpos (digits2_pos m1)).
  change (Zdigits2 (Zpos m2)) with (Zpos (digits2_pos m2)).
  rewrite H1, H2. cbv zeta.
  assert (E : Z.min (Z.max (53 + e1 - (53 + e2) - 53) (-1074)) (e1 - e2)
              = (e1 - e2 - 53)%Z) by lia.
  rewrite E.
  assert (E' : (e1 - e2 - (e1 - e2 - 53) = 53)%Z) by lia.
  rewrite E'. rewrite Z.shiftl_mul_pow2 by lia. reflexivity.
Qed.

Lemma digits53_bounds (m : positive) :
  Zpos (digits2_pos m) = 53%Z →
  (4503599627370496 <= Zpos m < 9007199254740992)%Z.
Proof.
  intros H. destruct (digits2_pos_bounds m) as [Hlo Hhi]. rewrite H in Hlo, Hhi.
  change (53 - 1)%Z with 52%Z in Hlo. rewrite pw_52 in Hlo. rewrite pw_53 in Hhi.
  split; [apply le_IZR, Hlo|apply lt_IZR, Hhi].
Qed.

Lemma digits_between (q : positive) (lo hi : Z) :
  pw lo <= IZR (Zpos q) < pw hi → (lo < Zpos (digits2_pos q) <= hi)%Z.
Proof.
  intros [Hlo Hhi]. destruct (digits2_pos_bounds q) as [Hlo' Hhi']. split.
  - destruct (Z_lt_le_dec lo (Zpos (digits2_pos q))) as [|Hle]; [assumption|].
    pose proof (pw_le _ _ Hle). lra.
  - destruct (Z_le_gt_dec (Zpos (digits2_pos q)) hi) as [|Hgt]; [assumption|].
    pose proof (pw_le hi (Zpos (digits2_pos q) - 1) ltac:(lia)). lra.
Qed.

Lemma pw_IZR (n : Z) (v : Z) : (0 < n)%Z → (2 ^ n)%Z = v → pw n = IZR v.
Proof.
  intros Hn <-. destruct n as [|p|p]; try lia. rewrite pw_pos_IZR. reflexivity.
Qed.

(** [x / y] on two normal floats of moderate exponent: one rounding. *)
Lemma SFdiv_spec (m1 m2 : positive) (e1 e2 : Z) :
  Zpos (digits2_pos m1) = 53%Z → Zpos (digits2_pos m2) = 53%Z →
  (-100 <= e1 <= 100)%Z → (-100 <= e2 <= 100)%Z →
  ∃ m e,
    SFdiv 53 1024 (S754_finite false m1 e1) (S754_finite false m2 e2)
    = S754_finite false m e ∧
    Zpos (digits2_pos m) = 53%Z ∧
    (e1 - e2 - 53 <= e <= e1 - e2 - 51)%Z ∧
    Rabs (F2R m e - F2R m1 e1 / F2R m2 e2) <= pw (-53) * F2R m e.
Proof.
  intros H1 H2 He1 He2. unfold SFdiv.
  rewrite SFdiv_core_binary_53 by assumption.
  pose proof (digits53_bounds m1 H1) as B1. pose proof (digits53_bounds m2 H2) as B2.
  pose proof (Z_div_mod (Zpos m1 * 9007199254740992) (Zpos m2) ltac:(lia)) as Hdiv.
  destruct (Z.div_eucl (Zpos m1 * 9007199254740992) (Zpos m2)) as [q r].
  destruct Hdiv as [Hqr Hr].
  assert (Hq : (4503599627370496 <= q < 18014398509481984)%Z) by nia.
  destruct q as [|q|q]; try lia. simpl xorb.
  pose proof (digits_between q 52 54) as Hd.
  rewrite (pw_IZR 52 4503599627370496), (pw_IZR 54 18014398509481984) in Hd
    by (reflexivity || lia).
  specialize (Hd (conj (IZR_le _ _ (proj1 Hq)) (IZR_lt _ _ (proj2 Hq)))).
  destruct (binary_round_aux_spec q (e1 - e2 - 53)
              (new_location (Zpos m2) r)
              (IZR (Zpos q) + IZR r / IZR (Zpos m2)))
    as (m & e & Hrun & Hdm & He & Herr); try lia.
  { apply new_location_located; lia. }
  exists m, e. split; [exact Hrun|]. split; [exact Hdm|]. split; [lia|].
  replace (F2R m1 e1 / F2R m2 e2)
    with ((IZR (Zpos q) + IZR r / IZR (Zpos m2)) * pw (e1 - e2 - 53)); [exact Herr|].
  unfold F2R. fold (pw e1) (pw e2).
  assert (Hpe : pw (e1 - e2 - 53) * pw e2 * pw 53 = pw e1).
  { rewrite <- !pw_add. f_equal. lia. }
  rewrite <- Hpe. rewrite pw_53.
  assert (Hm2 : 0 < IZR (Zpos m2)) by (apply IZR_lt; lia).
  pose proof (pw_pos e2). pose proof (pw_pos (e1 - e2 - 53)).
  apply (f_equal IZR) in Hqr. rewrite plus_IZR, !mult_IZR in Hqr.
  replace (IZR r) with (IZR (Zpos m1) * IZR 9007199254740992
                        - IZR (Zpos m2) * IZR (Zpos q)) by lra.
  field. split; lra.
Qed.

(** [x * y] on two normal floats of moderate exponent: one rounding. *)
Lemma SFmul_spec (m1 m2 : positive) (e1 e2 : Z) :
  Zpos (digits2_pos m1) = 53%Z → Zpos (digits2_pos m2) = 53%Z →
  (-200 <= e1 <= 100)%Z → (-200 <= e2 <= 100)%Z →
  ∃ m e,
    SFmul 53 1024 (S754_finite false m1 e1) (S754_finite false m2 e2)
    = S754_finite false m e ∧
    Zpos (digits2_pos m) = 53%Z ∧
    (e1 + e2 + 52 <= e <= e1 + e2 + 54)%Z ∧
    Rabs (F2R m e - F2R m1 e1 * F2R m2 e2) <= pw (-53) * F2R m e.
Proof.
  intros H1 H2 He1 He2. unfold SFmul. simpl xorb.
  pose proof (digits53_bounds m1 H1) as B1. pose proof (digits53_bounds m2 H2) as B2.
  assert (Hp : (2 ^ 104 <= Zpos (m1 * m2) < 2 ^ 106)%Z).
  { rewrite Pos2Z.inj_mul. change (2 ^ 104)%Z with (4503599627370496 * 4503599627370496)%Z.
    change (2 ^ 106)%Z with (9007199254740992 * 9007199254740992)%Z. nia. }
  pose proof (digits_between (m1 * m2) 104 106) as Hd.
  rewrite (pw_IZR 104 (2 ^ 104)), (pw_IZR 106 (2 ^ 106)) in Hd by (reflexivity || lia).
  specialize (Hd (conj (IZR_le _ _ (proj1 Hp)) (IZR_lt _ _ (proj2 Hp)))).
  destruct (binary_round_aux_spec (m1 * m2) (e1 + e2) loc_Exact (IZR (Zpos (m1 * m2))))
    as (m & e & Hrun & Hdm & He & Herr); try lia.
  { apply located_exact. lia. }
  exists m, e. split; [exact Hrun|]. split; [exact Hdm|]. split; [lia|].
  replace (F2R m1 e1 * F2R m2 e2) with (IZR (Zpos (m1 * m2)) * pw (e1 + e2));
    [exact Herr|].
  unfold F2R. fold (pw e1) (pw e2). rewrite pw_add, Pos2Z.inj_mul, mult_IZR. ring.
Qed.

(** *** The percentage *)

Lemma Rabs_le_inv (x y : R) : Rabs x <= y → - y <= x <= y.
Proof.
  unfold Rabs. destruct (Rcase_abs x); lra.
Qed.

Lemma F2R_pos m e : 0 < F2R m e.
Proof.
  unfold F2R. apply Rmult_lt_0_compat; [apply IZR_lt; lia|apply pw_pos].
Qed.

Lemma pw_m53 : pw (-53) = / 9007199254740992.
Proof.
  change (-53)%Z with (- (53))%Z. unfold pw. rewrite powerRZ_neg'.
  fold (pw 53). rewrite pw_53. reflexivity.
Qed.

(** [int(x)] on a positive float with a negative exponent is its floor. *)
Lemma int_of_float_floor (m : positive) (e : Z) :
  (e < 0)%Z →
  IZR (int_of_float (S754_finite false m e)) <= F2R m e
  < IZR (int_of_float (S754_finite false m e)) + 1.
Proof.
  intros He. destruct e as [|p|p]; try lia. unfold int_of_float.
  rewrite Z.shiftr_div_pow2 by lia.
  pose proof (Z_div_mod (Zpos m) (2 ^ Zpos p) ltac:(lia)) as Hdiv.
  unfold Z.div. destruct (Z.div_eucl (Zpos m) (2 ^ Zpos p)) as [q r].
  destruct Hdiv as [Hqr Hr]. unfold F2R.
  change (Zneg p) with (- Zpos p)%Z. fold (pw (- Zpos p)). unfold pw at 1 2.
  rewrite powerRZ_neg'. fold (pw (Zpos p)). rewrite pw_pos_IZR.
  change (Z.pow_pos 2 p) with (2 ^ Zpos p)%Z.
  assert (Hpow : 0 < IZR (2 ^ Zpos p)) by (apply IZR_lt; lia).
  apply (f_equal IZR) in Hqr. rewrite plus_IZR, mult_IZR in Hqr.
  assert (0 <= IZR r) by (apply IZR_le; lia).
  assert (IZR r < IZR (2 ^ Zpos p)) by (apply IZR_lt; lia).
  fold (IZR (Zpos m) / IZR (2 ^ Zpos p)). split.
  - apply Rdiv_le_r; [lra|]. nra.
  - apply Rdiv_lt_l; [lra|]. nra.
Qed.

Lemma float_100 :
  float_of_Z 100 = S754_finite false 7036874417766400 (-46) ∧
  Zpos (digits2_pos 7036874417766400) = 53%Z ∧
  F2R 7036874417766400 (-46) = 100.
Proof.
  split; [reflexivity|]. split; [reflexivity|].
  unfold F2R. change (-46)%Z with (- (46))%Z. rewrite powerRZ_neg'.
  fold (pw 46). rewrite (pw_IZR 46 70368744177664) by (reflexivity || lia).
  replace (IZR 7036874417766400) with (100 * IZR 70368744177664).
  - field.
  - rewrite <- mult_IZR. reflexivity.
Qed.

(** No finished task: the quotient is the float zero. *)
Lemma percent_zero (n : nat) :
  (0 < n)%nat → (Z.of_nat n < 9007199254740992)%Z → percent 0 n = 0%Z.
Proof.
  intros Hn Hsmall. unfold percent.
  destruct (Z.of_nat n) as [|pn|pn] eqn:En; try lia.
  destruct (float_of_pos pn Hsmall) as (mn & en & Hfn & _).
  unfold float_of_Z at 2. rewrite Hfn.
  destruct float_100 as (H100 & _). rewrite H100. reflexivity.
Qed.

(** [int((c / n) * 100)] against the exact quotient [K = 100 * c / n]
    rounded down: two roundings move the product by less than [1 / n], so
    that the result is [K], or [K - 1] when [100 * c / n] is an integer and
    the product falls just below it. *)
Lemma percent_bounds (c n : nat) :
  (0 < c <= n)%nat → (Z.of_nat n <= 2 ^ 44)%Z →
  let K := (100 * Z.of_nat c / Z.of_nat n)%Z in
  (K - 1 <= percent c n <= K)%Z ∧
  ((100 * Z.of_nat c) mod Z.of_nat n ≠ 0 → percent c n = K)%Z.
Proof.
  intros Hc Hn K.
  change (2 ^ 44)%Z with 17592186044416%Z in Hn.
  destruct (Z.of_nat c) as [|pc|pc] eqn:Ec; try lia.
  destruct (Z.of_nat n) as [|pn|pn] eqn:En; try lia.
  assert (Hcn : (Zpos pc <= Zpos pn)%Z) by lia.
  destruct (float_of_pos pc ltac:(lia)) as (mc & ec & Hfc & Hdc & _ & Hec & Hvc).
  destruct (float_of_pos pn ltac:(lia)) as (mn & en & Hfn & Hdn & _ & Hen & Hvn).
  destruct float_100 as (H100 & Hd100 & Hv100).
  destruct (SFdiv_spec mc mn ec en Hdc Hdn ltac:(lia) ltac:(lia))
    as (mq & eq & Hdiv & Hdq & Heq & Hq).
  destruct (SFmul_spec mq 7036874417766400 eq (-46) Hdq Hd100 ltac:(lia) ltac:(lia))
    as (mp & ep & Hmul & Hdp & Hep & Hp).
  rewrite Hvc, Hvn in Hq. rewrite Hv100 in Hp.
  assert (Hrun : percent c n = int_of_float (S754_finite false mp ep)).
  { unfold percent, float_of_Z, float_div, float_mul. rewrite Ec, En.
    fold (float_of_Z 100). rewrite H100, Hfc, Hfn, Hdiv, Hmul. reflexivity. }
  set (Q := F2R mq eq) in *. set (P := F2R mp ep) in *.
  pose proof (F2R_pos mq eq) as HQ. pose proof (F2R_pos mp ep) as HP.
  fold Q in HQ. fold P in HP.
  rewrite pw_m53 in Hq, Hp.
  set (x := IZR (Zpos pc) / IZR (Zpos pn)) in *.
  assert (Hn0 : 0 < IZR (Zpos pn)) by (apply IZR_lt; lia).
  assert (Hc0 : 0 < IZR (Zpos pc)) by (apply IZR_lt; lia).
  assert (Hx : 0 < x <= 1).
  { unfold x. split; [apply Rdiv_lt_r; lra|apply Rdiv_le_l; [lra|]].
    apply IZR_le in Hcn. lra. }
  apply Rabs_le_inv in Hq. apply Rabs_le_inv in Hp.
  (* the mantissa of the product is below one, so that [int] shifts right *)
  assert (Hneg : (ep < 0)%Z).
  { destruct (Z_lt_le_dec ep 0) as [|Hge]; [assumption|exfalso].
    pose proof (pw_le 0 ep Hge) as Hpw. rewrite pw_0 in Hpw.
    pose proof (digits53_bounds mp Hdp) as [Hlo _]. apply IZR_le in Hlo.
    unfold P, F2R in Hp, HP. fold (pw ep) in Hp, HP. nra. }
  destruct (int_of_float_floor mp ep Hneg) as [Hfl1 Hfl2].
  rewrite <- Hrun in Hfl1, Hfl2. fold P in Hfl1, Hfl2.
  (* the exact percentage between K and K + 1 *)
  pose proof (Z_div_mod (100 * Zpos pc) (Zpos pn) ltac:(lia)) as Hdm.
  unfold K. unfold Z.modulo, Z.div.
  destruct (Z.div_eucl (100 * Zpos pc) (Zpos pn)) as [k r]. destruct Hdm as [Hkr Hr].
  set (T := / IZR (Zpos pn)).
  assert (HT : / 17592186044416 <= T).
  { unfold T. apply Rinv_le_contravar; [lra|apply IZR_le; lia]. }
  assert (Hxk : IZR k + IZR r * T = 100 * x).
  { unfold x, T. apply (f_equal IZR) in Hkr. rewrite plus_IZR, !mult_IZR in Hkr.
    field_simplify_eq; lra. }
  assert (Hr0 : 0 <= IZR r * T <= 1 - T).
  { assert (0 < T) by (apply Rinv_0_lt_compat; lra).
    assert (0 <= IZR r) by (apply IZR_le; lia).
    assert (IZR r <= IZR (Zpos pn) - 1).
    { rewrite <- minus_IZR. apply IZR_le. lia. }
    assert (IZR (Zpos pn) * T = 1) by (unfold T; field; lra).
    split; nra. }
  assert (Hlow : (k - 1 < percent c n + 1)%Z).
  { apply lt_IZR. rewrite plus_IZR, minus_IZR. lra. }
  assert (Hhigh : (percent c n < k + 1)%Z).
  { apply lt_IZR. rewrite plus_IZR. lra. }
  split; [lia|]. intros Hnz.
  assert (Hr1 : 1 * T <= IZR r * T).
  { assert (0 < T) by (apply Rinv_0_lt_compat; lra).
    assert (1 <= IZR r) by (apply IZR_le; lia). nra. }
  assert (Hlow' : (k < percent c n + 1)%Z).
  { apply lt_IZR. rewrite plus_IZR. lra. }
  lia.
Qed.

Lemma pw_neg_IZR (n v : Z) : (0 < n)%Z → (2 ^ n)%Z = v → pw (- n) = / IZR v.
Proof.
  intros Hn Hv. unfold pw. rewrite powerRZ_neg'. fold (pw n).
  rewrite (pw_IZR n v Hn Hv). reflexivity.
Qed.

(** Every task finished: [c / c] is the float one and [1.0 * 100] is
    exact. *)
Lemma percent_all (n : nat) :
  (0 < n)%nat → (Z.of_nat n < 9007199254740992)%Z → percent n n = 100%Z.
Proof.
  intros Hn Hsmall. unfold percent.
  destruct (Z.of_nat n) as [|pn|pn] eqn:En; try lia.
  destruct (float_of_pos pn Hsmall) as (mn & en & Hfn & Hdn & _ & Hen & _).
  destruct (SFdiv_spec mn mn en en Hdn Hdn ltac:(lia) ltac:(lia))
    as (mq & eq & Hdiv & Hdq & Heq & Hq).
  pose proof (F2R_pos mn en) as Hpos.
  replace (F2R mn en / F2R mn en) with 1 in Hq by (field; lra).
  apply Rabs_le_inv in Hq. rewrite pw_m53 in Hq.
  pose proof (digits53_bounds mq Hdq) as [Hlo Hhi].
  assert (HM : IZR 4503599627370496 <= IZR (Zpos mq) <= IZR 9007199254740991).
  { split; apply IZR_le; lia. }
  assert (Hone : Zpos mq = 4503599627370496%Z /\ eq = (-52)%Z).
  { unfold F2R in Hq. fold (pw eq) in Hq.
    assert (Hcase : eq = (- (53))%Z \/ eq = (- (52))%Z \/ eq = (- (51))%Z) by lia.
    destruct Hcase as [Hc | [Hc | Hc]]; subst eq; [exfalso| |exfalso].
    - rewrite (pw_neg_IZR 53 9007199254740992) in Hq by (reflexivity || lia). lra.
    - split; [|reflexivity].
      rewrite (pw_neg_IZR 52 4503599627370496) in Hq by (reflexivity || lia).
      assert (Hlt : IZR (Zpos mq) < IZR 4503599627370497) by lra.
      apply lt_IZR in Hlt. lia.
    - rewrite (pw_neg_IZR 51 2251799813685248) in Hq by (reflexivity || lia). lra. }
  destruct Hone as [Hm ->]. injection Hm as ->.
  unfold float_of_Z at 1 2. unfold float_div. rewrite Hfn, Hdiv. reflexivity.
Qed.

End DoublePrecision.

(** C6, as the code computes it.  [progress_pct] truncates, it does not
    round: it is 0 for a list without tasks or without a completed task and
    100 when every task is completed; with [K] the exact percentage
    [100 * completed_count / total_count] rounded down, it is [K] or [K - 1],
    and it is [K] whenever the exact percentage is not an integer.  (For
    lists of at most [2^44] tasks.) *)
Theorem progress_pct_truncates (tl : TaskList.t) :
  let c := Z.of_nat (TaskList.completed_count tl) in
  let n := Z.of_nat (length (TaskList.tasks tl)) in
  (n ≤ 2 ^ 44)%Z →
  (TaskList.tasks tl = [] → TaskList.progress_pct tl = 0%Z) ∧
  (c = 0%Z → TaskList.progress_pct tl = 0%Z) ∧
  ((0 < n)%Z → c = n → TaskList.progress_pct tl = 100%Z) ∧
  ((0 < n)%Z →
   (100 * c / n - 1 ≤ TaskList.progress_pct tl ≤ 100 * c / n)%Z) ∧
  ((0 < n)%Z → ((100 * c) mod n)%Z ≠ 0%Z →
   TaskList.progress_pct tl = (100 * c / n)%Z).
Proof.
  intros c n Hn.
  assert (Hcn : (c ≤ n)%Z).
  { unfold c, n, TaskList.completed_count. pose proof (length_filter
      (λ task, Task.status task = TaskStatus.COMPLETED) (TaskList.tasks tl)). lia. }
  assert (Hpct : (0 < n)%Z → TaskList.progress_pct tl
                 = percent (TaskList.completed_count tl) (length (TaskList.tasks tl))).
  { unfold n, TaskList.progress_pct. destruct (TaskList.tasks tl); [simpl; lia|done]. }
  change (2 ^ 44)%Z with 17592186044416%Z in Hn.
  assert (Hzero : c = 0%Z → TaskList.progress_pct tl = 0%Z).
  { intros Hc. destruct (decide (n = 0%Z)) as [Hn0|Hn0].
    - unfold n, TaskList.progress_pct in *. destruct (TaskList.tasks tl); [done|].
      simpl in Hn0. lia.
    - rewrite Hpct by lia. replace (TaskList.completed_count tl) with 0%nat by lia.
      apply percent_zero; lia. }
  split; [by unfold TaskList.progress_pct; intros ->|].
  split; [exact Hzero|].
  split.
  { intros Hpos Hall. rewrite Hpct by done.
    replace (TaskList.completed_count tl) with (length (TaskList.tasks tl)) by lia.
    apply percent_all; lia. }
  destruct (decide (c = 0%Z)) as [Hc0|Hc0].
  - rewrite Hzero by done. rewrite Hc0. change (100 * 0)%Z with 0%Z.
    split; intros Hpos; [rewrite Z.div_0_l by lia; lia|].
    rewrite Z.mod_0_l by lia. done.
  - pose proof (percent_bounds (TaskList.completed_count tl)
                  (length (TaskList.tasks tl))) as Hb.
    fold c n in Hb. cbv zeta in Hb.
    destruct Hb as [Hb1 Hb2]; [lia|lia|].
    split; intros Hpos; rewrite Hpct by done; [exact Hb1|exact Hb2].
Qed.

(** ** The range of the progress *)

Lemma percent_range (c n : nat) :
  c ≤ n → 0 < n → (Z.of_nat n ≤ 2 ^ 44)%Z → (0 ≤ percent c n ≤ 100)%Z.
Proof.
  intros Hcn Hn Hsize. destruct (decide (c = 0)) as [->|Hc].
  - rewrite percent_zero; [lia|done|]. change (2 ^ 44)%Z with 17592186044416%Z in Hsize.
    lia.
  - destruct (percent_bounds c n) as [[Hlow Hhigh] Hexact]; [lia|done|].
    assert (Hk : (0 ≤ 100 * Z.of_nat c / Z.of_nat n ≤ 100)%Z).
    { split; [apply Z.div_pos; lia|]. apply Z.div_le_upper_bound; lia. }
    split; [|lia].
    destruct (decide (100 * Z.of_nat c / Z.of_nat n = 0)%Z) as [Hzero|Hpos]; [|lia].
    rewrite Hexact; [lia|]. intros Hmod.
    pose proof (Z.div_mod (100 * Z.of_nat c) (Z.of_nat n) ltac:(lia)) as Hdm.
    rewrite Hzero, Hmod in Hdm. lia.
Qed.

Lemma mapM_result_length {A B} (f : A → result B) (l : list A) (k : list B) :
  mapM f l = Ok k → length k = length l.
Proof.
  revert k. induction l as [|x l IH]; intros k H; simpl in H.
  - by injection H as <-.
  - destruct (f x) as [y|]; [simpl in H|done].
    destruct (mapM f l) as [k'|]; [simpl in H|done].
    injection H as <-. simpl. by rewrite (IH k').
Qed.

(** The progress is a percentage.  [progress_pct] of a list and
    [_calc_progress] of a raw document stay within [0, 100] (for at most
    [2^44] tasks), and [_calc_progress] is 0 for a document without a
    [tasks] entry. *)
Theorem progress_is_a_percentage (tl : TaskList.t) (data : json) :
  ((Z.of_nat (length (TaskList.tasks tl)) ≤ 2 ^ 44)%Z →
   (0 ≤ TaskList.progress_pct tl ≤ 100)%Z) ∧
  (∀ kv, data = JDict kv → dict_get "tasks" kv = None → _calc_progress data = Ok 0%Z) ∧
  (∀ p, _calc_progress data = Ok p →
        (∀ l, get_tasks data = Ok (JList l) → (Z.of_nat (length l) ≤ 2 ^ 44)%Z) →
        (0 ≤ p ≤ 100)%Z).
Proof.
  split; [|split].
  - intros Hsize. unfold TaskList.progress_pct.
    destruct (TaskList.tasks tl) as [|task tasks] eqn:Htasks; [lia|].
    rewrite <- Htasks in *. apply percent_range; [apply length_filter| |done].
    rewrite Htasks. simpl. lia.
  - intros kv -> Hnone. unfold _calc_progress. simpl. by rewrite Hnone.
  - intros p Hrun Hsize. unfold _calc_progress in Hrun.
    destruct (get_tasks data) as [tasks|] eqn:Hget; [simpl in Hrun|done].
    destruct (truthy tasks) eqn:Htruthy; simpl in Hrun; [|injection Hrun as <-; lia].
    destruct (task_statuses tasks) as [statuses|] eqn:Hst; [simpl in Hrun|done].
    injection Hrun as <-.
    destruct tasks as [| | | |l|]; try done.
    simpl in Hst. apply mapM_result_length in Hst.
    apply percent_range; [apply length_filter| |].
    + rewrite Hst. destruct l; [done|simpl; lia].
    + rewrite Hst. by apply Hsize.
Qed.

(** The progress bar of [get_status_report] always has ten cells: for a
    list of at most [2^44] tasks the second line of the report shows
    [progress_pct / 10] full cells followed by the empty cells that make
    ten, and the report has one line per task after its four head lines. *)
Theorem status_report_bar (py_repr : json → string) (m : TaskManager)
    (tl : TaskList.t) :
  _current_task_list m = Some tl →
  (Z.of_nat (length (TaskList.tasks tl)) ≤ 2 ^ 44)%Z →
  ∃ full empty : nat,
    full + empty = 10 ∧
    Z.of_nat full = (TaskList.progress_pct tl / 10)%Z ∧
    get_status_report py_repr m = String.concat newline (status_report_lines py_repr tl) ∧
    status_report_lines py_repr tl !! 1
    = Some ("Progress: " +:+ String.concat "" (replicate full "█")
            +:+ String.concat "" (replicate empty "░")
            +:+ " " +:+ pretty (TaskList.progress_pct tl) +:+ "%") ∧
    length (status_report_lines py_repr tl) = 4 + length (TaskList.tasks tl).
Proof.
  intros Hcur Hsize.
  assert (Hrange : (0 ≤ TaskList.progress_pct tl ≤ 100)%Z).
  { unfold TaskList.progress_pct.
    destruct (TaskList.tasks tl) as [|task tasks] eqn:Htasks; [lia|].
    rewrite <- Htasks in *. apply percent_range; [apply length_filter| |done].
    rewrite Htasks. simpl. lia. }
  assert (Hk : (0 ≤ TaskList.progress_pct tl / 10 ≤ 10)%Z).
  { split; [apply Z.div_pos; lia|]. apply Z.div_le_upper_bound; lia. }
  exists (Z.to_nat (TaskList.progress_pct tl / 10)),
         (Z.to_nat (10 - TaskList.progress_pct tl / 10)).
  split; [lia|]. split; [lia|].
  split; [unfold get_status_report; by rewrite Hcur|].
  split; [done|]. unfold status_report_lines.
  rewrite length_app, length_fmap. done.
Qed.

(** ** The statements on sample data *)

Lemma fail_task_retry_policy_witness :
  let task := sample_task "a" [] TaskStatus.IN_PROGRESS in
  let tl := sample_list [task] None in
  _current_task_list (manager_of tl) = Some tl ∧
  _get_task (Some tl) "a" = Some (0, task) ∧
  ∃ m1 t1 m2 t2 m3 t3,
    fail_task sample_clock sample_isoformat (manager_of tl) "a" "timeout" true
    = Ok (m1, Some t1) ∧
    fail_task sample_clock sample_isoformat m1 "a" "timeout" true = Ok (m2, Some t2) ∧
    fail_task sample_clock sample_isoformat m2 "a" "timeout" true = Ok (m3, Some t3) ∧
    Task.retry_count t1 = 1%Z ∧ Task.status t1 = TaskStatus.IN_PROGRESS ∧
    Task.retry_count t2 = 2%Z ∧ Task.status t2 = TaskStatus.IN_PROGRESS ∧
    Task.retry_count t3 = 3%Z ∧ Task.status t3 = TaskStatus.FAILED.
Proof.
  intros task tl. split; [reflexivity|]. split; [reflexivity|].
  apply (fail_task_retry_policy sample_clock sample_isoformat (manager_of tl) tl
           "a" 0 task eq_refl eq_refl); reflexivity.
Defined.


Lemma start_task_gate_witness :
  let b := sample_task "b" ["a"] TaskStatus.PENDING in
  let tl := sample_list [sample_task "a" [] TaskStatus.PENDING; b] None in
  _current_task_list (manager_of tl) = Some tl ∧
  _get_task (Some tl) "b" = Some (1, b) ∧
  ∃ m' tl' task',
    start_task sample_clock sample_isoformat (manager_of tl) "b" = Ok (m', Some task') ∧
    _current_task_list m' = Some tl' ∧
    _get_task (Some tl') "b" = Some (1, task') ∧
    (Task.status task' = TaskStatus.IN_PROGRESS ↔ ¬ has_incomplete_dependency tl b) ∧
    (has_incomplete_dependency tl b → Task.status task' = TaskStatus.BLOCKED) ∧
    ((∀ dep_id, dep_id ∈ Task.depends_on b → is_Some (_get_task (Some tl) dep_id)) →
     (Task.status task' = TaskStatus.IN_PROGRESS ↔ all_dependencies_completed tl b) ∧
     (¬ all_dependencies_completed tl b → Task.status task' = TaskStatus.BLOCKED)).
Proof.
  intros b tl. split; [reflexivity|]. split; [reflexivity|].
  apply (start_task_gate sample_clock sample_isoformat (manager_of tl) tl "b" 1 b);
    reflexivity.
Defined.

(** C1 as the specification words it fails on a dependency id that names
    no task: the task starts, although not every id in its [depends_on]
    refers to a completed task of the list. *)
Lemma start_task_dangling_dependency :
  let a := sample_task "a" ["ghost"] TaskStatus.PENDING in
  let tl := sample_list [a] None in
  (∃ m' task',
     start_task sample_clock sample_isoformat (manager_of tl) "a" = Ok (m', Some task') ∧
     Task.status task' = TaskStatus.IN_PROGRESS) ∧
  ¬ all_dependencies_completed tl a.
Proof.
  intros a tl. split.
  - eexists _, _. split; reflexivity.
  - intros Hall. destruct (Hall "ghost") as (j & dep & Hget & _); [by left|].
    discriminate Hget.
Qed.

Lemma start_task_blocked_frame_witness :
  let b := sample_task "b" ["a"] TaskStatus.PENDING in
  let tl := sample_list [sample_task "a" [] TaskStatus.PENDING; b] None in
  _current_task_list (manager_of tl) = Some tl ∧
  _get_task (Some tl) "b" = Some (1, b) ∧
  has_incomplete_dependency tl b ∧
  ∃ m' tl' task',
    start_task sample_clock sample_isoformat (manager_of tl) "b" = Ok (m', Some task') ∧
    _current_task_list m' = Some tl' ∧
    TaskList.tasks tl' = <[1 := task']> (TaskList.tasks tl) ∧
    task' = Task.set_status TaskStatus.BLOCKED b ∧
    Task.status task' = TaskStatus.BLOCKED ∧
    Task.started_at task' = Task.started_at b ∧
    Task.completed_at task' = Task.completed_at b ∧
    Task.checkpoint task' = Task.checkpoint b ∧
    Task.output task' = Task.output b ∧
    Task.error task' = Task.error b ∧
    Task.retry_count task' = Task.retry_count b ∧
    TaskList.last_active_task_id tl' = TaskList.last_active_task_id tl ∧
    tasks_dir m' !! TaskList.id tl = Some (Document (model_dump sample_isoformat tl')).
Proof.
  intros b tl.
  assert (Hinc : has_incomplete_dependency tl b).
  { exists "a", 0, (sample_task "a" [] TaskStatus.PENDING).
    split; [by left|]. split; [reflexivity|discriminate]. }
  split; [reflexivity|]. split; [reflexivity|]. split; [exact Hinc|].
  apply (start_task_blocked_frame sample_clock sample_isoformat (manager_of tl) tl
           "b" 1 b); [reflexivity|reflexivity|exact Hinc].
Defined.






Lemma payloads_follow_calls_witness :
  ∃ m0 tl0,
    create_biddeed_pipeline sample_clock sample_isoformat sample_isoformat
      empty_manager "L" "2026-01-28" 23 None = Ok (m0, tl0) ∧
    ∃ tl, _current_task_list
            (run sample_clock sample_isoformat m0
               [Start "t01"; Complete "t01" None]) = Some tl ∧
      ∀ task, task ∈ TaskList.tasks tl →
        (is_Some (Task.error task) →
         ∃ e r, Fail (Task.id task) e r ∈ [Start "t01"; Complete "t01" None]) ∧
        (is_Some (Task.output task) →
         ∃ out, Complete (Task.id task) (Some out)
                ∈ [Start "t01"; Complete "t01" None]) ∧
        (Task.status task = TaskStatus.COMPLETED →
         (∀ e r, Fail (Task.id task) e r ∉ [Start "t01"; Complete "t01" None]) →
         Task.error task = None) ∧
        (Task.status task = TaskStatus.FAILED →
         (∀ out, Complete (Task.id task) (Some out)
                 ∉ [Start "t01"; Complete "t01" None]) →
         Task.output task = None).
Proof.
  eexists _, _. split; [vm_compute; reflexivity|].
  eapply (payloads_follow_calls sample_clock sample_isoformat sample_isoformat
            empty_manager _ "L" "2026-01-28" 23 None).
  vm_compute. reflexivity.
Defined.

(** C8 as the specification words it fails in both directions on a fresh
    pipeline: a task that failed once and was retried to completion is
    [completed] and still carries the error; a task that was completed
    with an output and then failed is [failed] and still carries the
    output. *)
Lemma payloads_not_cleared :
  ∃ m0 tl0,
    create_biddeed_pipeline sample_clock sample_isoformat sample_isoformat
      empty_manager "L" "2026-01-28" 23 None = Ok (m0, tl0) ∧
    (let after := task_at (run sample_clock sample_isoformat m0
                             [Start "t01"; Fail "t01" "timeout" true;
                              Complete "t01" None]) 0 in
     Task.status <$> after = Some TaskStatus.COMPLETED ∧
     Task.error <$> after = Some (Some "timeout")) ∧
    (let after := task_at (run sample_clock sample_isoformat m0
                             [Start "t01"; Complete "t01" (Some [("n", JInt 23)]);
                              Fail "t01" "late" false]) 0 in
     Task.status <$> after = Some TaskStatus.FAILED ∧
     Task.output <$> after = Some (Some [("n", JInt 23)])).
Proof.
  eexists _, _. split; [vm_compute; reflexivity|]. vm_compute. done.
Qed.


Lemma sample_codec_round_trip (d : datetime) :
  sample_fromisoformat (sample_isoformat d) = Some d.
Proof.
  unfold sample_fromisoformat, sample_isoformat. rewrite NilZero.isi.
  - simpl. f_equal. apply DecimalZ.of_to.
  - destruct d; simpl; try discriminate. intros H. injection H.
    apply Unsigned.to_uint_nonnil.
  - destruct d; simpl; try discriminate. intros H. injection H.
    apply Unsigned.to_uint_nonnil.
Qed.



(** C2 on a list whose last active task is completed while another task
    is in progress: the specification's target is the task in progress,
    [resume] returns the completed one, without a checkpoint, and does not
    scan the list. *)
Lemma resume_stale_last_active :
  let a := sample_task "a" [] TaskStatus.COMPLETED in
  let b := sample_checkpointed "b" in
  let tl := sample_list [a; b] (Some "a") in
  let '(m, saved) := save sample_clock sample_isoformat empty_manager tl in
  ∃ m' bundle,
    resume sample_fromisoformat sample_repr sample_factories m (Some "L")
    = Ok (m', Resumed bundle) ∧
    task_list bundle = saved ∧
    resume_target_spec saved = Some b ∧
    resume_task bundle = Some a ∧
    checkpoint bundle = None.
Proof. vm_compute. eexists _, _. split; [reflexivity|]. done. Qed.


(** C9 on a directory with one document written by [save] and one
    document that parses as JSON but has [null] for [updated_at]: [load]
    rejects the second document, yet the listing keeps its row, and the
    sort, which is outside the [try], raises [TypeError] when it compares
    the two keys. *)
Lemma list_task_lists_raises :
  let tl := sample_list [sample_task "a" [] TaskStatus.PENDING] None in
  let broken :=
    Document (JDict [("id", JStr "M"); ("name", JStr "broken"); ("updated_at", JNull)]) in
  let '(m, saved) := save sample_clock sample_isoformat empty_manager tl in
  let m' := {| tasks_dir := <["M" := broken]> (tasks_dir m);
               _current_task_list := None; ticks := ticks m |} in
  load sample_fromisoformat sample_factories m' "M" = Raise ValidationError ∧
  list_task_lists m' = Raise TypeError ∧
  list_files [Document (model_dump sample_isoformat saved); broken] = Raise TypeError ∧
  list_files [broken; Document (model_dump sample_isoformat saved)] = Raise TypeError.
Proof. vm_compute. done. Qed.


Lemma list_files_tolerant_witness :
  let older := sample_list [sample_task "a" [] TaskStatus.COMPLETED] None in
  let newer := TaskList.set_updated_at 7%Z (sample_list [sample_checkpointed "b"] None) in
  let files := [Document (model_dump sample_isoformat older); Unparseable;
                Document (model_dump sample_isoformat newer)] in
  Forall string_key (omap (λ f, caught (entry_of f)) files) ∧
  list_files files
  = Ok [entry_for sample_isoformat newer; entry_for sample_isoformat older] ∧
  ∃ rows, list_files files = Ok rows ∧ descending rows.
Proof.
  intros older newer files.
  assert (Hkeys : Forall string_key
                    (omap (λ f, caught (entry_of f)) files)).
  { vm_compute. repeat constructor; by eexists. }
  split; [exact Hkeys|]. split; [vm_compute; reflexivity|].
  destruct (list_files_tolerant sample_isoformat files Hkeys)
    as [(rows & Hrun & _ & _ & Hsorted) _].
  by exists rows.
Defined.

(** C9 as the specification words it fails on a document that [load]
    rejects but whose id, name and [updated_at] can be read: the listing
    does not skip it, and a directory with one well-formed and one such
    corrupted document has two rows. *)
Lemma list_task_lists_keeps_rejected :
  let tl := sample_list [sample_task "a" [] TaskStatus.PENDING] None in
  let broken :=
    Document (JDict [("id", JStr "M"); ("name", JStr "broken");
                     ("updated_at", JStr "not a date")]) in
  let '(m, saved) := save sample_clock sample_isoformat empty_manager tl in
  let m' := {| tasks_dir := <["M" := broken]> (tasks_dir m);
               _current_task_list := None; ticks := ticks m |} in
  load sample_fromisoformat sample_factories m' "M" = Raise ValidationError ∧
  ∃ rows, list_task_lists m' = Ok rows ∧ e_id <$> rows = [JStr "M"; JStr "L"].
Proof. vm_compute. split; [done|]. eexists. split; reflexivity. Qed.

(** C6 on a list with two of its three tasks completed: 66, the exact
    percentage rounded down. *)
Lemma progress_pct_truncates_witness :
  let tl := sample_progress 2 1 in
  (Z.of_nat (length (TaskList.tasks tl)) ≤ 2 ^ 44)%Z ∧
  TaskList.progress_pct tl = 66%Z.
Proof.
  intros tl.
  assert (Hn : (Z.of_nat (length (TaskList.tasks tl)) ≤ 2 ^ 44)%Z)
    by (vm_compute; discriminate).
  split; [exact Hn|].
  apply (proj2 (proj2 (proj2 (proj2 (progress_pct_truncates tl Hn)))));
    vm_compute; [reflexivity|discriminate].
Defined.

(** C6 as the specification words it fails on the same list: the nearest
    integer to 200/3 is 67, the engine reports 66. *)
Lemma progress_pct_not_rounded :
  let tl := sample_progress 2 1 in
  TaskList.completed_count tl = 2%nat ∧ length (TaskList.tasks tl) = 3%nat ∧
  TaskList.progress_pct tl = 66%Z ∧ progress_pct_spec tl = 67%Z.
Proof. vm_compute. done. Qed.

(** The lower value of [progress_pct_truncates] is taken: 29 of 100 tasks
    completed is reported as 28, since [29 / 100] rounds to a float just
    below 0.29. *)
Lemma progress_pct_below_quotient :
  TaskList.progress_pct (sample_progress 29 71) = 28%Z ∧
  TaskList.progress_pct (sample_progress 1 3) = 25%Z ∧
  TaskList.progress_pct (sample_progress 0 0) = 0%Z.
Proof. vm_compute. done. Qed.

(** ** The further properties on sample data *)

Lemma run_keeps_structure_witness :
  let tl := sample_pair TaskStatus.PENDING TaskStatus.PENDING in
  let ops := [Start "b"; Start "a"; Complete "a" None; Fail "b" "timeout" true] in
  _current_task_list (manager_of tl) = Some tl ∧
  ∃ tl', _current_task_list (run sample_clock sample_isoformat (manager_of tl) ops)
         = Some tl' ∧
         list_static_fields tl' = list_static_fields tl ∧
         length (TaskList.tasks tl') = 2.
Proof.
  intros tl ops. split; [reflexivity|].
  destruct (run_keeps_structure sample_clock sample_isoformat (manager_of tl) tl ops
              eq_refl) as (tl' & Hcur & Hstatic & Hlen & _).
  exists tl'. split; [exact Hcur|]. split; [exact Hstatic|exact Hlen].
Defined.

Lemma run_keeps_progress_bounds_witness :
  let tl := sample_pair TaskStatus.PENDING TaskStatus.PENDING in
  let ops := [Start "a"; Checkpoint "a" 150 None 0 0 None None;
              Checkpoint "a" 50 (Some "parcel_1") 1 2 None None] in
  _current_task_list (manager_of tl) = Some tl ∧
  valid_task_list tl ∧
  ∃ tl', _current_task_list (run sample_clock sample_isoformat (manager_of tl) ops)
         = Some tl' ∧
    ∀ task c, task ∈ TaskList.tasks tl' → Task.checkpoint task = Some c →
      (0 ≤ TaskCheckpoint.progress_pct c ≤ 100)%Z.
Proof.
  intros tl ops.
  assert (Hvalid : valid_task_list tl) by (repeat constructor; intros c [=]).
  split; [reflexivity|]. split; [exact Hvalid|].
  exact (run_keeps_progress_bounds sample_clock sample_isoformat (manager_of tl) tl ops
           eq_refl Hvalid).
Defined.

Lemma unknown_task_is_ignored_witness :
  let tl := sample_pair TaskStatus.PENDING TaskStatus.PENDING in
  let m := manager_of tl in
  _current_task_list m = Some tl ∧
  (∀ task, task ∈ TaskList.tasks tl → Task.id task ≠ "z") ∧
  start_task sample_clock sample_isoformat m "z" = Ok (m, None) ∧
  update_checkpoint sample_clock sample_isoformat m "z" 150 None 0 0 None None = Ok m.
Proof.
  intros tl m.
  assert (Hnone : ∀ task, task ∈ TaskList.tasks tl → Task.id task ≠ "z").
  { intros task Hin.
    repeat (apply elem_of_cons in Hin as [->|Hin]; [discriminate|]).
    by apply elem_of_nil in Hin. }
  split; [reflexivity|]. split; [exact Hnone|].
  destruct (unknown_task_is_ignored sample_clock sample_isoformat m tl "z" 150 None
              0 0 None None None "e" true eq_refl Hnone) as (Hs & Hc & _).
  split; [exact Hs|exact Hc].
Defined.

Lemma start_task_started_frame_witness :
  let tl := sample_list [sample_task "a" [] TaskStatus.COMPLETED;
                         sample_checkpointed "b"] None in
  let m := manager_of tl in
  _current_task_list m = Some tl ∧
  _get_task (Some tl) "b" = Some (1, sample_checkpointed "b") ∧
  ¬ has_incomplete_dependency tl (sample_checkpointed "b") ∧
  ∃ m' tl' task',
    start_task sample_clock sample_isoformat m "b" = Ok (m', Some task') ∧
    _current_task_list m' = Some tl' ∧
    TaskList.last_active_task_id tl' = Some "b" ∧
    Task.checkpoint task' = Some (TaskCheckpoint.at_progress 1%Z 0).
Proof.
  intros tl m.
  assert (Hdeps : ¬ has_incomplete_dependency tl (sample_checkpointed "b")).
  { apply blocking_empty. reflexivity. }
  split; [reflexivity|]. split; [reflexivity|]. split; [exact Hdeps|].
  destruct (start_task_started_frame sample_clock sample_isoformat m tl "b" 1
              (sample_checkpointed "b") eq_refl eq_refl Hdeps)
    as (m' & tl' & task' & Hrun & Hcur & _ & Hlast & _ & _ & _ & Hcp & _).
  exists m', tl', task'. split; [exact Hrun|]. split; [exact Hcur|].
  split; [exact Hlast|exact Hcp].
Defined.


Lemma ready_tasks_start_witness :
  let tl := sample_pair TaskStatus.PENDING TaskStatus.PENDING in
  let m := manager_of tl in
  let b := sample_task "b" ["a"] TaskStatus.PENDING in
  _current_task_list m = Some tl ∧
  NoDup (Task.id <$> TaskList.tasks tl) ∧
  b ∈ TaskList.tasks tl ∧
  Task.status b = TaskStatus.PENDING ∧
  ∃ m' task',
    start_task sample_clock sample_isoformat m "b" = Ok (m', Some task') ∧
    (b ∉ _get_ready_tasks (Some tl) ↔ Task.status task' = TaskStatus.BLOCKED).
Proof.
  intros tl m b.
  assert (Hnodup : NoDup (Task.id <$> TaskList.tasks tl))
    by (apply (bool_decide_unpack _); vm_compute; exact I).
  assert (Hin : b ∈ TaskList.tasks tl) by (right; left).
  split; [reflexivity|]. split; [exact Hnodup|]. split; [exact Hin|].
  split; [reflexivity|].
  destruct (ready_tasks_start sample_clock sample_isoformat m tl b eq_refl Hnodup Hin
              eq_refl) as (m' & task' & Hrun & _ & Hblocked).
  exists m', task'. split; [exact Hrun|exact Hblocked].
Defined.



Lemma retry_count_counts_failures_witness :
  let tl := sample_pair TaskStatus.IN_PROGRESS TaskStatus.PENDING in
  let a := sample_task "a" [] TaskStatus.IN_PROGRESS in
  let ops := [Fail "a" "timeout" true; Start "a"; Fail "b" "other" true;
              Fail "a" "timeout" true; Start "a"] in
  _current_task_list (manager_of tl) = Some tl ∧
  _get_task (Some tl) (Task.id a) = Some (0, a) ∧
  ∃ tl' task',
    _current_task_list (run sample_clock sample_isoformat (manager_of tl) ops)
    = Some tl' ∧
    TaskList.tasks tl' !! 0 = Some task' ∧
    Task.retry_count task' = 2%Z.
Proof.
  intros tl a ops. split; [reflexivity|]. split; [reflexivity|].
  exact (retry_count_counts_failures sample_clock sample_isoformat (manager_of tl) tl
           ops 0 a eq_refl eq_refl).
Defined.





Lemma main_checkpoint_unknown_task_witness :
  let tl := sample_pair TaskStatus.PENDING TaskStatus.PENDING in
  let files : gmap string file :=
    {["L" := Document (model_dump sample_isoformat tl)]} in
  ∃ m1 tl1,
    load_selected sample_fromisoformat sample_repr sample_factories
      (fresh_manager files 0) (Some "L") = Ok m1 ∧
    _current_task_list m1 = Some tl1 ∧
    (∀ task, task ∈ TaskList.tasks tl1 → Task.id task ≠ "z") ∧
    main sample_clock sample_isoformat sample_fromisoformat sample_isoformat
      sample_repr sample_json_dumps sample_json_loads "usage" sample_factories
      "tasks" files 0
      (Some (CmdCheckpoint "z" 150 None 0 0 (Some "{}") (Some "L")))
    = Ok (m1, ["💾 Checkpoint saved: z at 150%"], 0%Z) ∧
    tasks_dir m1 = files.
Proof.
  intros tl files.
  assert (Hload : ∃ m1 tl1,
    load_selected sample_fromisoformat sample_repr sample_factories
      (fresh_manager files 0) (Some "L") = Ok m1 ∧
    _current_task_list m1 = Some tl1 ∧
    forallb (λ task, negb (String.eqb (Task.id task) "z")) (TaskList.tasks tl1) = true)
    by (vm_compute; eauto).
  destruct Hload as (m1 & tl1 & Hload & Hcur & Hall).
  assert (Hnone : ∀ task, task ∈ TaskList.tasks tl1 → Task.id task ≠ "z").
  { intros task Hin Heq. rewrite forallb_forall in Hall.
    apply list_elem_of_In, Hall in Hin. rewrite Heq in Hin. discriminate. }
  assert (Hjson : ∀ text, given (Some "{}") = Some text →
                          is_Some (sample_json_loads text)).
  { intros text [= <-]. by eexists. }
  exists m1, tl1. split; [exact Hload|]. split; [exact Hcur|]. split; [exact Hnone|].
  exact (main_checkpoint_unknown_task sample_clock sample_isoformat
           sample_fromisoformat sample_isoformat sample_repr sample_json_dumps
           sample_json_loads "usage" sample_factories "tasks" files 0 "z" 150 None 0 0
           (Some "{}") (Some "L") m1 tl1 Hload Hcur Hnone Hjson).
Defined.


Lemma status_report_bar_witness :
  let tl := sample_progress 1 2 in
  let m := manager_of tl in
  _current_task_list m = Some tl ∧
  (Z.of_nat (length (TaskList.tasks tl)) ≤ 2 ^ 44)%Z ∧
  ∃ full empty : nat,
    full + empty = 10 ∧
    Z.of_nat full = (TaskList.progress_pct tl / 10)%Z ∧
    length (status_report_lines sample_repr tl) = 4 + length (TaskList.tasks tl).
Proof.
  intros tl m.
  assert (Hsize : (Z.of_nat (length (TaskList.tasks tl)) ≤ 2 ^ 44)%Z)
    by (vm_compute; discriminate).
  split; [reflexivity|]. split; [exact Hsize|].
  destruct (status_report_bar sample_repr m tl eq_refl Hsize)
    as (full & empty & Hsum & Hfull & _ & _ & Hlen).
  exists full, empty. split; [exact Hsum|]. split; [exact Hfull|exact Hlen].
Defined.

Lemma created_pipeline_resumes_witness :
  (∀ d, sample_fromisoformat (sample_isoformat d) = Some d) ∧
  "L" ≠ "" ∧
  ∃ m0 tl0 bundle,
    create_biddeed_pipeline sample_clock sample_isoformat sample_isoformat empty_manager
      "L" "2026-01-28" 23 None = Ok (m0, tl0) ∧
    resume sample_fromisoformat sample_repr sample_factories
      (set_current None m0) (Some "L")
    = Ok (set_current (Some tl0) (set_current None m0), Resumed bundle) ∧
    Task.id <$> next_tasks bundle = ["t01"] ∧
    progress bundle = 0%Z.
Proof.
  assert (Hid : "L" ≠ "") by discriminate.
  split; [exact sample_codec_round_trip|]. split; [exact Hid|].
  destruct (created_pipeline_resumes sample_clock sample_isoformat sample_fromisoformat
              sample_isoformat sample_repr sample_codec_round_trip sample_factories
              empty_manager "L" "2026-01-28" 23 None Hid)
    as (m0 & tl0 & Hcreate & Hresume).
  assert (Hdir : ∀ m' : TaskManager, tasks_dir (set_current None m') = tasks_dir m')
    by (intros m'; reflexivity).
  destruct (Hresume (set_current None m0) (Hdir m0))
    as (bundle & Hrun & _ & _ & _ & Hnext & Hzero).
  exists m0, tl0, bundle. split; [exact Hcreate|]. split; [exact Hrun|].
  split; [exact Hnext|exact Hzero].
Defined.

Lemma progress_is_a_percentage_witness :
  let tl := sample_progress 2 1 in
  (Z.of_nat (length (TaskList.tasks tl)) ≤ 2 ^ 44)%Z ∧
  (0 ≤ TaskList.progress_pct tl ≤ 100)%Z ∧
  _calc_progress (JDict [("name", JStr "n")]) = Ok 0%Z.
Proof.
  intros tl.
  assert (Hsize : (Z.of_nat (length (TaskList.tasks tl)) ≤ 2 ^ 44)%Z)
    by (vm_compute; discriminate).
  split; [exact Hsize|].
  destruct (progress_is_a_percentage tl (JDict [("name", JStr "n")]))
    as (Hlist & Hnone & _).
  split; [exact (Hlist Hsize)|exact (Hnone _ eq_refl eq_refl)].
Defined.
